(** * covid-19-api: the data-access layer [database.py]

    A shallow embedding of [DBHandler] (page ingestion, query
    construction, page reshaping and the moderator correction) together
    with the properties its specification states about it.

    Conventions of the embedding.
    - A Python [str] is a [string]; its characters are the code points
      below 256.  [s > t] on strings is the lexicographic order by code
      point.
    - A Python [dict] is an association list in insertion order, with the
      dictionary operations ([in], [d[k]], [d.get], [d[k] = v],
      [d.items()]) written out on it.
    - Classifier scores and thresholds are finite numbers; they are only
      ever compared, so they are rationals here.
    - An exception is a value of [exn]; a computation that may raise has a
      [result] type, and a method of [DBHandler] returns the store it
      leaves behind together with its result.
    - The document store is the list of the stored [page] documents in
      insertion order; the audit log file is the list of its lines. *)

From Stdlib Require Import List String Ascii Bool ZArith QArith Lia.
From Stdlib Require Import Permutation Sorted OrdersEx RelationClasses.
Import ListNotations.

Set Implicit Arguments.
Local Open Scope string_scope.
Local Open Scope list_scope.

(** ** Exceptions and results *)

Inductive exn : Type :=
| KeyError (key : string)
| KeyErrorPair (key : string * string)
| IndexError
| ValueError
| OSError.

Inductive result (A : Type) : Type :=
| Ok (a : A)
| Raise (e : exn).

Arguments Ok {A} a.
Arguments Raise {A} e.

Definition bind {A B : Type} (r : result A) (k : A -> result B) : result B :=
  match r with
  | Ok a => k a
  | Raise e => Raise e
  end.

Declare Scope result_scope.
Delimit Scope result_scope with result.
Notation "x <- r ;; k" := (bind r (fun x => k))
  (at level 61, r at next level, right associativity) : result_scope.
Local Open Scope result_scope.

(** A bind that returned has a first computation that returned. *)
Ltac bind_ok H :=
  match type of H with
  | bind ?r _ = Ok _ =>
      let E := fresh "E" in
      destruct r eqn:E; simpl in H; [|discriminate H]
  end.

(** ** Python strings *)

Module PyStr.

(** [str.isspace] on the code points below 256. *)
Definition is_space (c : ascii) : bool :=
  let n := nat_of_ascii c in
  ((9 <=? n) && (n <=? 13) || (28 <=? n) && (n <=? 32)
   || (n =? 133) || (n =? 160))%nat.

Fixpoint lstrip (s : string) : string :=
  match s with
  | EmptyString => EmptyString
  | String c s' => if is_space c then lstrip s' else s
  end.

Fixpoint rstrip (s : string) : string :=
  match s with
  | EmptyString => EmptyString
  | String c s' =>
      match rstrip s' with
      | EmptyString => if is_space c then EmptyString else String c EmptyString
      | r => String c r
      end
  end.

(** [s.strip()] *)
Definition strip (s : string) : string := rstrip (lstrip s).

(** Truth value of a string: [not s] holds of the empty string only. *)
Definition truthy (s : string) : bool :=
  match s with
  | EmptyString => false
  | String _ _ => true
  end.

Fixpoint all_space (s : string) : bool :=
  match s with
  | EmptyString => true
  | String c s' => is_space c && all_space s'
  end.

(** [s > t] *)
Definition gtb (s t : string) : bool :=
  match String_as_OT.compare s t with
  | Gt => true
  | _ => false
  end.

(** [s <= t], as a proposition. *)
Definition le (s t : string) : Prop := String_as_OT.compare s t <> Gt.

End PyStr.

(** ** Python dictionaries *)

Module Dict.
Section Keyed.

Variables K V : Type.
Variable eqb : K -> K -> bool.

Definition t : Type := list (K * V).

(** [d.get(k)], [None] when the key is absent. *)
Fixpoint get (k : K) (d : t) : option V :=
  match d with
  | [] => None
  | (k', v) :: d' => if eqb k k' then Some v else get k d'
  end.

(** [k in d] *)
Definition mem (k : K) (d : t) : bool :=
  match get k d with
  | Some _ => true
  | None => false
  end.

(** [d.get(k, default)] *)
Definition get_default (k : K) (default : V) (d : t) : V :=
  match get k d with
  | Some v => v
  | None => default
  end.

(** [d[k] = v]: an existing key keeps its position. *)
Fixpoint set (k : K) (v : V) (d : t) : t :=
  match d with
  | [] => [(k, v)]
  | (k', v') :: d' => if eqb k k' then (k, v) :: d' else (k', v') :: set k v d'
  end.

Definition keys (d : t) : list K := map fst d.

End Keyed.
End Dict.

Definition dict (V : Type) : Type := Dict.t string V.
Definition dget {V : Type} : string -> dict V -> option V := Dict.get String.eqb.
Definition dset {V : Type} : string -> V -> dict V -> dict V := Dict.set String.eqb.
Definition dmem {V : Type} : string -> dict V -> bool := Dict.mem String.eqb.
Definition dkeys {V : Type} : dict V -> list string := @Dict.keys string V.

(** [d[k]], raising [KeyError] when the key is absent. *)
Definition getitem {V : Type} (k : string) (d : dict V) : result V :=
  match dget k d with
  | Some v => Ok v
  | None => Raise (KeyError k)
  end.

(** Keys that are pairs, as in the translation tables. *)
Definition pair_eqb (a b : string * string) : bool :=
  String.eqb (fst a) (fst b) && String.eqb (snd a) (snd b).

(** [x in l] for a list of strings. *)
Definition in_list (x : string) (l : list string) : bool :=
  existsb (String.eqb x) l.

(** [a > b] on scores. *)
Definition Qgtb (a b : Q) : bool := negb (Qle_bool a b).

(** ** Configuration

    The module [constants] holds the static taxonomy and the thresholds;
    they are configuration, so the embedding takes them as a parameter. *)

Record constants : Type := {
  ITOPICS : list string;
  ITOPIC_ETOPIC_MAP : dict string;
  ETOPIC_ITOPICS_MAP : dict (list string);
  ECOUNTRY_ICOUNTRIES_MAP : dict (list string);
  ETOPIC_TRANS_MAP : Dict.t (string * string) string;
  ECOUNTRY_TRANS_MAP : Dict.t (string * string) string;
  SCORE_THRESHOLD : Q;
  RUMOR_THRESHOLD : Q;
  USEFUL_THRESHOLD : Q
}.

(** ** Input documents and stored pages *)

(** [{'title': ..., 'timestamp': ...}] *)
Record titled : Type := {
  title : string;
  timestamp : string
}.

(** [document['classes']] *)
Record classes_t : Type := {
  cls_is_about_COVID_19 : Z;
  cls_is_clear : Z
}.

(** The record [upsert_page] receives.  [classes_bert] maps the topic
    names and the keys [is_useful] and [is_about_false_rumor] to scores;
    the three last keys are optional ([document.get]). *)
Record document : Type := {
  doc_classes : classes_t;
  doc_country : string;
  doc_orig : titled;
  doc_ja_translated : titled;
  doc_en_translated : titled;
  doc_url : string;
  doc_classes_bert : dict Q;
  doc_snippets : dict (list string);
  doc_snippets_en : dict (list string);
  doc_domain : option string;
  doc_domain_label : option string;
  doc_domain_label_en : option string
}.

(** The stored [orig] sub-document. *)
Record orig_t : Type := {
  orig_title : string;
  orig_timestamp : string;
  simple_timestamp : string
}.

(** The value of the key [page] of a stored document.  [upsert_page]
    writes all seventeen keys; the upsert of [update_page] creates a page
    with [url] and the six keys it sets only, so the other ten keys may be
    absent. *)
Record page : Type := {
  country : option string;
  displayed_country : string;
  orig : option orig_t;
  ja_translated : option titled;
  en_translated : option titled;
  url : string;
  topics : dict Q;
  ja_snippets : option (dict string);
  en_snippets : option (dict string);
  is_checked : Z;
  is_about_COVID_19 : Z;
  is_useful : Z;
  is_clear : option Z;
  is_about_false_rumor : Z;
  domain : option string;
  ja_domain_label : option string;
  en_domain_label : option string
}.

Definition collection : Type := list page.

(** ** The document store *)

Module Mongo.

(** [collection.find_one({'page.url': u})] *)
Definition find_one (u : string) (c : collection) : option page :=
  find (fun p => String.eqb (url p) u) c.

(** [collection.insert_one({'page': p})] *)
Definition insert_one (p : page) (c : collection) : collection := c ++ [p].

(** The first document whose url is [u] is updated by [upd]; [None] when
    no document matches. *)
Fixpoint update_first (u : string) (upd : page -> page) (c : collection)
  : option collection :=
  match c with
  | [] => None
  | p :: c' =>
      if String.eqb (url p) u then Some (upd p :: c')
      else option_map (cons p) (update_first u upd c')
  end.

(** [collection.update_one({'page.url': u}, {'$set': ...}, upsert=True)]:
    [upd] applies the [$set] to a matching page and [created] is the
    document the upsert inserts when there is none. *)
Definition update_one_upsert (u : string) (upd : page -> page) (created : page)
    (c : collection) : collection :=
  match update_first u upd c with
  | Some c' => c'
  | None => insert_one created c
  end.

(** Number of stored documents whose url is [u]. *)
Definition count_url (u : string) (c : collection) : nat :=
  List.length (filter (fun p => String.eqb (url p) u) c).

End Mongo.

(** ** Output views, queries and the audit log *)

(** An entry of the list [page['topics']] that [reshape_page] builds. *)
Record topic_view : Type := {
  name : string;
  snippet : string;
  relatedness : Q
}.

(** The dictionary [reshape_page] returns: the keys it leaves in [page]. *)
Record page_view : Type := {
  v_country : option string;
  v_displayed_country : string;
  v_orig : option orig_t;
  v_url : string;
  v_topics : list topic_view;
  v_is_checked : Z;
  v_is_about_COVID_19 : Z;
  v_is_useful : Z;
  v_is_clear : option Z;
  v_is_about_false_rumor : Z;
  v_domain : string;
  v_translated : titled;
  v_domain_label : string
}.

(** The field paths the queries name: [page.is_about_COVID-19],
    [page.topics.<itopic>], [page.displayed_country] and
    [page.orig.simple_timestamp]. *)
Inductive path : Type :=
| page_is_about_COVID_19
| page_topics (itopic : string)
| page_displayed_country
| page_orig_simple_timestamp.

(** A clause of the list under [$and]: [{path: v}],
    [{'$or': [{path: {'$exists': True}}, ...]}] and [{path: {'$in': vs}}]. *)
Inductive clause : Type :=
| Equals (f : path) (v : Z)
| OrExists (fs : list path)
| In_ (f : path) (vs : list string).

(** [{'$and': clauses}] *)
Definition filter_t : Type := list clause.

Inductive direction : Type := ASCENDING | DESCENDING.

Definition sort_t : Type := list (path * direction).

(** The body [get_es_query] builds: the regions of the [should] terms, the
    matched text, [from] and [size]. *)
Record es_query : Type := {
  es_regions : list string;
  es_text : string;
  es_from : nat;
  es_size : nat
}.

(** What [classes], [countries] and [search] return: a page list, a map to
    page lists, or a map to maps to page lists. *)
Inductive response : Type :=
| Pages (l : list page_view)
| PerKey (d : dict (list page_view))
| Nested (d : dict (dict (list page_view))).

(** The dictionary [updated] of [update_page], one line of the audit log. *)
Record log_entry : Type := {
  log_url : string;
  log_is_about_COVID_19 : Z;
  log_is_useful : Z;
  log_is_about_false_rumor : Z;
  new_country : string;
  new_topics : list string;
  notes : string;
  time : string
}.

(** The collection, the line-delimited JSON files by path, and the state
    of the file system as far as [open(path, mode='a')] sees it: the
    paths the operating system refuses to open for appending (a missing
    directory, a directory, a file without write permission). *)
Record store : Type := {
  pages : collection;
  files : dict (list log_entry);
  refused : list string
}.

(** *** Matching of a filter, as the document store evaluates it *)

Module Query.

Inductive value : Type :=
| VInt (z : Z)
| VNum (q : Q)
| VStr (s : string).

Definition field_value (p : page) (f : path) : option value :=
  match f with
  | page_is_about_COVID_19 => Some (VInt (is_about_COVID_19 p))
  | page_topics itopic => option_map VNum (dget itopic (topics p))
  | page_displayed_country => Some (VStr (displayed_country p))
  | page_orig_simple_timestamp =>
      option_map (fun o => VStr (simple_timestamp o)) (orig p)
  end.

Definition exists_ (p : page) (f : path) : bool :=
  match field_value p f with
  | Some _ => true
  | None => false
  end.

Definition matches_clause (p : page) (c : clause) : bool :=
  match c with
  | Equals f v =>
      match field_value p f with
      | Some (VInt z) => Z.eqb z v
      | _ => false
      end
  | OrExists fs => existsb (exists_ p) fs
  | In_ f vs =>
      match field_value p f with
      | Some (VStr s) => in_list s vs
      | _ => false
      end
  end.

Definition matches (flt : filter_t) (p : page) : bool :=
  forallb (matches_clause p) flt.

(** [cursor.skip(start).limit(limit)]; a limit of 0 is no limit. *)
Definition skip_limit {A : Type} (start limit : nat) (l : list A) : list A :=
  let l' := skipn start l in
  if (limit =? 0)%nat then l' else firstn limit l'.

End Query.

(** ** [DBHandler] *)

Section Handler.

Variable K : constants.

(** [datetime.fromisoformat(s).date().isoformat()] of the standard
    library; [None] when [fromisoformat] raises [ValueError]. *)
Variable fromisoformat_date : string -> option string.

(** The order in which the document store returns the matching pages
    for a sort specification. *)
Variable mongo_sort : sort_t -> list page -> list page.

(** [es.search(index='covid19-pages-ja', body=body)]: the urls of the
    hits, in order. *)
Variable es_search : es_query -> list string.

(** *** [upsert_page] *)

(** The first loop of [reshape_snippets]: it stops at the first topic of
    [ITOPICS] that is a key of [snippets]. *)
Fixpoint find_general_snippet (itopics : list string) (snippets : dict (list string))
  : string :=
  match itopics with
  | [] => ""
  | itopic :: rest =>
      match dget itopic snippets with
      | Some l =>
          match l with
          | s :: _ => s
          | [] => ""
          end
      | None => find_general_snippet rest snippets
      end
  end.

(** The body of the second loop of [reshape_snippets]. *)
Definition reshaped_snippet (general_snippet : string) (snippets : dict (list string))
    (itopic : string) : string :=
  let snippets_about_topic := Dict.get_default String.eqb itopic [] snippets in
  match snippets_about_topic with
  | s :: _ =>
      if PyStr.truthy s then PyStr.strip s
      else if PyStr.truthy general_snippet then general_snippet
      else ""
  | [] => if PyStr.truthy general_snippet then general_snippet else ""
  end.

Definition reshape_snippets (snippets : dict (list string)) : dict string :=
  let general_snippet := find_general_snippet (ITOPICS K) snippets in
  fold_left
    (fun reshaped itopic =>
       dset itopic (reshaped_snippet general_snippet snippets itopic) reshaped)
    (ITOPICS K) [].

(** [{key: value for key, value in classes_bert.items()
      if key in ITOPICS and value > 0.5}] *)
Definition topics_to_score (classes_bert : dict Q) : dict Q :=
  fold_left
    (fun acc kv =>
       if in_list (fst kv) (ITOPICS K) && Qgtb (snd kv) (1 # 2)
       then dset (fst kv) (snd kv) acc
       else acc)
    classes_bert [].

(** [sorted(items, key=lambda x: x[1], reverse=True)]: descending in the
    score and stable, so items of equal score keep their order. *)
Fixpoint insert_desc (x : string * Q) (l : list (string * Q)) : list (string * Q) :=
  match l with
  | [] => [x]
  | y :: l' => if Qgtb (snd y) (snd x) then y :: insert_desc x l' else x :: l
  end.

Definition sorted_desc (items : list (string * Q)) : list (string * Q) :=
  fold_right insert_desc [] items.

(** The loop over [enumerate(sorted(...))], from index [idx] on. *)
Fixpoint keep_topics (idx : nat) (items : list (string * Q)) (topics : dict Q)
  : dict Q :=
  match items with
  | [] => topics
  | (topic, score) :: rest =>
      if (idx =? 0)%nat || Qgtb score (SCORE_THRESHOLD K)
      then keep_topics (S idx) rest (dset topic score topics)
      else topics
  end.

Definition select_topics (classes_bert : dict Q) : dict Q :=
  keep_topics 0 (sorted_desc (topics_to_score classes_bert)) [].

(** Lines 55 to 115: the page [document_] built from [document];
    [Ok None] is one of the three early returns. *)
Definition build_page (document : document) : result (option page) :=
  let is_about_covid_19 := cls_is_about_COVID_19 (doc_classes document) in
  let country_ := doc_country document in
  if negb (PyStr.truthy (title (doc_orig document))) then Ok None else
  simple <- match fromisoformat_date (timestamp (doc_orig document)) with
            | Some d => Ok d
            | None => Raise ValueError
            end ;;
  let orig_ := {| orig_title := PyStr.strip (title (doc_orig document));
                  orig_timestamp := timestamp (doc_orig document);
                  simple_timestamp := simple |} in
  if negb (PyStr.truthy (title (doc_ja_translated document))) then Ok None else
  let ja_translated_ :=
    {| title := PyStr.strip (title (doc_ja_translated document));
       timestamp := timestamp (doc_ja_translated document) |} in
  if negb (PyStr.truthy (title (doc_en_translated document))) then Ok None else
  let en_translated_ :=
    {| title := PyStr.strip (title (doc_en_translated document));
       timestamp := timestamp (doc_en_translated document) |} in
  let url_ := doc_url document in
  let topics_ := select_topics (doc_classes_bert document) in
  let ja_snippets_ := reshape_snippets (doc_snippets document) in
  let en_snippets_ := reshape_snippets (doc_snippets_en document) in
  let is_checked_ := 0%Z in
  useful_score <- getitem "is_useful" (doc_classes_bert document) ;;
  let is_useful_ := if Qgtb useful_score (USEFUL_THRESHOLD K) then 1%Z else 0%Z in
  let is_clear_ := cls_is_clear (doc_classes document) in
  rumor_score <- getitem "is_about_false_rumor" (doc_classes_bert document) ;;
  let is_about_false_rumor_ :=
    if Qgtb rumor_score (RUMOR_THRESHOLD K) then 1%Z else 0%Z in
  let domain_ := match doc_domain document with Some d => d | None => "" end in
  let ja_domain_label_ :=
    match doc_domain_label document with Some d => d | None => "" end in
  let en_domain_label_ :=
    match doc_domain_label_en document with Some d => d | None => "" end in
  Ok (Some {| country := Some country_;
              displayed_country := country_;
              orig := Some orig_;
              ja_translated := Some ja_translated_;
              en_translated := Some en_translated_;
              url := url_;
              topics := topics_;
              ja_snippets := Some ja_snippets_;
              en_snippets := Some en_snippets_;
              is_checked := is_checked_;
              is_about_COVID_19 := is_about_covid_19;
              is_useful := is_useful_;
              is_clear := Some is_clear_;
              is_about_false_rumor := is_about_false_rumor_;
              domain := Some domain_;
              ja_domain_label := Some ja_domain_label_;
              en_domain_label := Some en_domain_label_ |}).

(** Lines 117 to 125: the write of [document_]. *)
Definition store_page (document : document) (document_ : page) (c : collection)
  : collection * result unit :=
  let url_ := doc_url document in
  match Mongo.find_one url_ c with
  | Some existing_page =>
      match orig existing_page with
      | None => (c, Raise (KeyError "orig"))
      | Some existing_orig =>
          if PyStr.gtb (timestamp (doc_orig document)) (orig_timestamp existing_orig)
          then (Mongo.update_one_upsert url_ (fun _ => document_) document_ c, Ok tt)
          else (c, Ok tt)
      end
  | None => (Mongo.insert_one document_ c, Ok tt)
  end.

Definition upsert_page (document : document) (c : collection)
  : collection * result unit :=
  match build_page document with
  | Raise e => (c, Raise e)
  | Ok None => (c, Ok tt)
  | Ok (Some document_) => store_page document document_ c
  end.

(** *** [reshape_page] *)

(** [page[f'{lang}<suffix>']] for the two keys [ja<suffix>] and
    [en<suffix>] of a page. *)
Definition lang_key {A : Type} (lang suffix : string) (ja en : option A) : result A :=
  let key := (lang ++ suffix)%string in
  let present :=
    if String.eqb lang "ja" then ja
    else if String.eqb lang "en" then en
    else None in
  match present with
  | Some a => Ok a
  | None => Raise (KeyError key)
  end.

(** [del page[key]] *)
Definition del {A : Type} (key : string) (field : option A) : result unit :=
  match field with
  | Some _ => Ok tt
  | None => Raise (KeyError key)
  end.

(** One element of the list comprehension over [page['topics']]. *)
Definition reshape_topic (p : page) (lang : string) (itopic : string)
  : result topic_view :=
  etopic <- getitem itopic (ITOPIC_ETOPIC_MAP K) ;;
  name_ <- match Dict.get pair_eqb (etopic, lang) (ETOPIC_TRANS_MAP K) with
           | Some n => Ok n
           | None => Raise (KeyErrorPair (etopic, lang))
           end ;;
  snippets <- lang_key lang "_snippets" (ja_snippets p) (en_snippets p) ;;
  snippet_ <- getitem itopic snippets ;;
  relatedness_ <- getitem itopic (topics p) ;;
  Ok {| name := name_; snippet := snippet_; relatedness := relatedness_ |}.

(** A list comprehension whose element expression may raise. *)
Fixpoint traverse {A B : Type} (f : A -> result B) (l : list A) : result (list B) :=
  match l with
  | [] => Ok []
  | a :: l' => b <- f a ;; bs <- traverse f l' ;; Ok (b :: bs)
  end.

Definition reshape_page (p : page) (lang : string) : result page_view :=
  topics_ <- traverse (reshape_topic p lang) (dkeys (topics p)) ;;
  translated_ <- lang_key lang "_translated" (ja_translated p) (en_translated p) ;;
  domain_label_ <- lang_key lang "_domain_label" (ja_domain_label p) (en_domain_label p) ;;
  domain_ <- match domain p with
             | Some d => Ok d
             | None => Raise (KeyError "domain")
             end ;;
  let is_about_false_rumor_ :=
    if String.eqb domain_ "fij.info" then 1%Z else is_about_false_rumor p in
  _ <- del "ja_snippets" (ja_snippets p) ;;
  _ <- del "en_snippets" (en_snippets p) ;;
  _ <- del "ja_translated" (ja_translated p) ;;
  _ <- del "en_translated" (en_translated p) ;;
  _ <- del "ja_domain_label" (ja_domain_label p) ;;
  _ <- del "en_domain_label" (en_domain_label p) ;;
  Ok {| v_country := country p;
        v_displayed_country := displayed_country p;
        v_orig := orig p;
        v_url := url p;
        v_topics := topics_;
        v_is_checked := is_checked p;
        v_is_about_COVID_19 := is_about_COVID_19 p;
        v_is_useful := is_useful p;
        v_is_clear := is_clear p;
        v_is_about_false_rumor := is_about_false_rumor_;
        v_domain := domain_;
        v_translated := translated_;
        v_domain_label := domain_label_ |}.

(** *** [get_filter], [get_sort] and [get_pages] *)

(** Truth value of a list. *)
Definition nonempty {A : Type} (l : list A) : bool :=
  match l with
  | [] => false
  | _ :: _ => true
  end.

Definition get_filter (itopics icountries : list string) : filter_t :=
  let filters := [Equals page_is_about_COVID_19 1] in
  let filters :=
    if nonempty itopics then filters ++ [OrExists (map page_topics itopics)]
    else filters in
  let filters :=
    if nonempty icountries then filters ++ [In_ page_displayed_country icountries]
    else filters in
  filters.

Definition get_sort (itopics : list string) : sort_t :=
  let sort_ := [(page_orig_simple_timestamp, DESCENDING)] in
  if nonempty itopics
  then sort_ ++ map (fun itopic => (page_topics itopic, DESCENDING)) itopics
  else sort_.

(** [collection.find(filter=flt, sort=srt)] *)
Definition find_ (flt : filter_t) (srt : sort_t) (c : collection) : list page :=
  mongo_sort srt (filter (Query.matches flt) c).

Definition get_pages (itopics icountries : list string) (start limit : nat)
    (lang : string) (c : collection) : result (list page_view) :=
  let filter_ := get_filter itopics icountries in
  let sort_ := get_sort itopics in
  let cur := find_ filter_ sort_ c in
  traverse (fun p => reshape_page p lang) (Query.skip_limit start limit cur).

(** *** [search], [classes] and [countries] *)

(** [for key, x in table.items(): if key == 'all': continue;
     reshaped_pages[key] = body(key, x)], from the dictionary [acc] on. *)
Fixpoint for_items {A B : Type} (items : dict A) (body : string -> A -> result B)
    (acc : dict B) : result (dict B) :=
  match items with
  | [] => Ok acc
  | (key, x) :: rest =>
      if String.eqb key "all" then for_items rest body acc
      else b <- body key x ;; for_items rest body (dset key b acc)
  end.

Definition get_es_query (start limit : nat) (query : string) (regions : list string)
  : es_query :=
  {| es_regions := regions; es_text := query; es_from := start; es_size := limit |}.

Fixpoint convert_hits_to_pages (lang : string) (c : collection) (hits : list string)
  : result (list page_view) :=
  match hits with
  | [] => Ok []
  | hit :: rest =>
      match Mongo.find_one hit c with
      | Some doc =>
          v <- reshape_page doc lang ;;
          vs <- convert_hits_to_pages lang c rest ;;
          Ok (v :: vs)
      | None => convert_hits_to_pages lang c rest
      end
  end.

Definition search (ecountry : string) (start limit : nat) (lang query : string)
    (c : collection) : result response :=
  if PyStr.truthy ecountry then
    let body :=
      get_es_query start limit query
        (Dict.get_default String.eqb ecountry [] (ECOUNTRY_ICOUNTRIES_MAP K)) in
    l <- convert_hits_to_pages lang c (es_search body) ;;
    Ok (Pages l)
  else
    d <- for_items (ECOUNTRY_ICOUNTRIES_MAP K)
           (fun _ icountries =>
              convert_hits_to_pages lang c
                (es_search (get_es_query start limit query icountries)))
           [] ;;
    Ok (PerKey d).

Definition classes (etopic ecountry : string) (start limit : nat) (lang query : string)
    (c : collection) : result response :=
  if String.eqb etopic "search" then search ecountry start limit lang query c
  else
    let etopic := Dict.get_default pair_eqb (etopic, "ja") etopic (ETOPIC_TRANS_MAP K) in
    let ecountry :=
      Dict.get_default pair_eqb (ecountry, "ja") ecountry (ECOUNTRY_TRANS_MAP K) in
    if PyStr.truthy etopic && PyStr.truthy ecountry then
      let itopics := Dict.get_default String.eqb etopic [] (ETOPIC_ITOPICS_MAP K) in
      let icountries :=
        Dict.get_default String.eqb ecountry [] (ECOUNTRY_ICOUNTRIES_MAP K) in
      l <- get_pages itopics icountries start limit lang c ;;
      Ok (Pages l)
    else if PyStr.truthy etopic then
      let itopics := Dict.get_default String.eqb etopic [] (ETOPIC_ITOPICS_MAP K) in
      d <- for_items (ECOUNTRY_ICOUNTRIES_MAP K)
             (fun _ icountries => get_pages itopics icountries start limit lang c)
             [] ;;
      Ok (PerKey d)
    else
      d <- for_items (ETOPIC_ITOPICS_MAP K)
             (fun _ itopics =>
                for_items (ECOUNTRY_ICOUNTRIES_MAP K)
                  (fun _ icountries => get_pages itopics icountries start limit lang c)
                  [])
             [] ;;
      Ok (Nested d).

Definition countries (ecountry etopic : string) (start limit : nat) (lang : string)
    (c : collection) : result response :=
  let etopic := Dict.get_default pair_eqb (etopic, "ja") etopic (ETOPIC_TRANS_MAP K) in
  let ecountry :=
    Dict.get_default pair_eqb (ecountry, "ja") ecountry (ECOUNTRY_TRANS_MAP K) in
  if PyStr.truthy ecountry && PyStr.truthy etopic then
    let itopics := Dict.get_default String.eqb etopic [] (ETOPIC_ITOPICS_MAP K) in
    let icountries :=
      Dict.get_default String.eqb ecountry [] (ECOUNTRY_ICOUNTRIES_MAP K) in
    l <- get_pages itopics icountries start limit lang c ;;
    Ok (Pages l)
  else if PyStr.truthy ecountry then
    let icountries :=
      Dict.get_default String.eqb ecountry [] (ECOUNTRY_ICOUNTRIES_MAP K) in
    d <- for_items (ETOPIC_ITOPICS_MAP K)
           (fun _ itopics => get_pages itopics icountries start limit lang c)
           [] ;;
    Ok (PerKey d)
  else
    d <- for_items (ECOUNTRY_ICOUNTRIES_MAP K)
           (fun _ icountries =>
              for_items (ETOPIC_ITOPICS_MAP K)
                (fun _ itopics => get_pages itopics icountries start limit lang c)
                [])
           [] ;;
    Ok (Nested d).

(** *** [update_page] *)

(** [{ETOPIC_ITOPICS_MAP[etopic][0]: 1.0 for etopic in etopics}], from
    the dictionary [acc] on. *)
Fixpoint new_etopics_from (etopics : list string) (acc : dict Q) : result (dict Q) :=
  match etopics with
  | [] => Ok acc
  | etopic :: rest =>
      itopics <- getitem etopic (ETOPIC_ITOPICS_MAP K) ;;
      match itopics with
      | [] => Raise IndexError
      | itopic :: _ => new_etopics_from rest (dset itopic 1%Q acc)
      end
  end.

Definition flag (b : bool) : Z := if b then 1%Z else 0%Z.

(** The [$set] of [update_page] on a stored page. *)
Definition set_checked (covid useful rumor : Z) (icountry : string) (new_etopics : dict Q)
    (p : page) : page :=
  {| country := country p;
     displayed_country := icountry;
     orig := orig p;
     ja_translated := ja_translated p;
     en_translated := en_translated p;
     url := url p;
     topics := new_etopics;
     ja_snippets := ja_snippets p;
     en_snippets := en_snippets p;
     is_checked := 1;
     is_about_COVID_19 := covid;
     is_useful := useful;
     is_clear := is_clear p;
     is_about_false_rumor := rumor;
     domain := domain p;
     ja_domain_label := ja_domain_label p;
     en_domain_label := en_domain_label p |}.

(** The page the upsert of [update_page] inserts when no page has the
    url: the url of the filter and the keys of the [$set]. *)
Definition created_page (url_ : string) (covid useful rumor : Z) (icountry : string)
    (new_etopics : dict Q) : page :=
  {| country := None;
     displayed_country := icountry;
     orig := None;
     ja_translated := None;
     en_translated := None;
     url := url_;
     topics := new_etopics;
     ja_snippets := None;
     en_snippets := None;
     is_checked := 1;
     is_about_COVID_19 := covid;
     is_useful := useful;
     is_clear := None;
     is_about_false_rumor := rumor;
     domain := None;
     ja_domain_label := None;
     en_domain_label := None |}.

(** A path with a null character. *)
Fixpoint has_nul (path_ : string) : bool :=
  match path_ with
  | EmptyString => false
  | String c rest => Ascii.eqb c Ascii.zero || has_nul rest
  end.

(** [open(path, mode='a')]: a path with a null character raises
    [ValueError] before the operating system is asked; the empty path and
    the paths the operating system refuses raise [OSError]
    ([FileNotFoundError], [PermissionError], [IsADirectoryError]); any
    other path opens, the file being created when it does not exist. *)
Definition open_append (path_ : string) (s : store) : result unit :=
  if has_nul path_ then Raise ValueError
  else if String.eqb path_ "" || in_list path_ (refused s) then Raise OSError
  else Ok tt.

(** [json.dump(updated, f); f.write('\n')] on the file opened at the
    path, and its close. *)
Definition append_line (path_ : string) (line : log_entry) (fs : dict (list log_entry))
  : dict (list log_entry) :=
  dset path_ (Dict.get_default String.eqb path_ [] fs ++ [line]) fs.

(** [now] is the reading [datetime.now().isoformat()] of the clock.  The
    [update_one] comes before the [open]: when the audit log does not
    open, the exception leaves the method with the page written and
    without a line logged. *)
Definition update_page (url_ : string) (is_about_covid_19 is_useful_ is_about_false_rumor_ : bool)
    (icountry : string) (etopics : list string) (notes_ : string)
    (category_check_log_path : string) (now : string) (s : store)
  : store * result log_entry :=
  let new_is_about_covid_19 := flag is_about_covid_19 in
  let new_is_useful := flag is_useful_ in
  let new_is_about_false_rumor := flag is_about_false_rumor_ in
  match new_etopics_from etopics [] with
  | Raise e => (s, Raise e)
  | Ok new_etopics =>
      let pages_ :=
        Mongo.update_one_upsert url_
          (set_checked new_is_about_covid_19 new_is_useful new_is_about_false_rumor
             icountry new_etopics)
          (created_page url_ new_is_about_covid_19 new_is_useful
             new_is_about_false_rumor icountry new_etopics)
          (pages s) in
      let updated :=
        {| log_url := url_;
           log_is_about_COVID_19 := new_is_about_covid_19;
           log_is_useful := new_is_useful;
           log_is_about_false_rumor := new_is_about_false_rumor;
           new_country := icountry;
           new_topics := dkeys new_etopics;
           notes := notes_;
           time := now |} in
      match open_append category_check_log_path s with
      | Raise e =>
          ({| pages := pages_; files := files s; refused := refused s |}, Raise e)
      | Ok _ =>
          ({| pages := pages_;
              files := append_line category_check_log_path updated (files s);
              refused := refused s |},
           Ok updated)
      end
  end.

End Handler.

(** ** [main] *)

(** A parsed line of the audit log as the second loop of [main] reads it:
    the keys [notes] and [time] are not read, and the key
    [is_about_false_rumor] may be absent ([.get('is_about_false_rumor',
    0)]). *)
Record checked_line : Type := {
  cl_url : string;
  cl_is_about_COVID_19 : Z;
  cl_is_useful : Z;
  cl_is_about_false_rumor : option Z;
  cl_new_country : string;
  cl_new_topics : list string
}.

(** [json.loads] of the line [update_page] wrote for [updated]. *)
Definition line_of_entry (updated : log_entry) : checked_line :=
  {| cl_url := log_url updated;
     cl_is_about_COVID_19 := log_is_about_COVID_19 updated;
     cl_is_useful := log_is_useful updated;
     cl_is_about_false_rumor := Some (log_is_about_false_rumor updated);
     cl_new_country := new_country updated;
     cl_new_topics := new_topics updated |}.

(** [{new_topic: 1.0 for new_topic in new_topics}] *)
Definition topics_of_names (new_topics_ : list string) : dict Q :=
  fold_left (fun acc new_topic => dset new_topic 1%Q acc) new_topics_ [].

(** The body of the second loop of [main] on one line of the audit log;
    [None] is a line that is blank.  The [update_one] has no upsert. *)
Definition replay_line (line : option checked_line) (c : collection) : collection :=
  match line with
  | None => c
  | Some category_checked_page =>
      match Mongo.find_one (cl_url category_checked_page) c with
      | None => c
      | Some _ =>
          match
            Mongo.update_first (cl_url category_checked_page)
              (set_checked
                 (cl_is_about_COVID_19 category_checked_page)
                 (cl_is_useful category_checked_page)
                 (match cl_is_about_false_rumor category_checked_page with
                  | Some z => z
                  | None => 0%Z
                  end)
                 (cl_new_country category_checked_page)
                 (topics_of_names (cl_new_topics category_checked_page)))
              c
          with
          | Some c' => c'
          | None => c
          end
      end
  end.

Definition replay_log (lines : list (option checked_line)) (c : collection)
  : collection :=
  fold_left (fun c' line => replay_line line c') lines c.

(** The first loop of [main]: the documents of the input file are
    upserted in order, and an exception ends the run. *)
Fixpoint ingest_pages (K : constants) (iso : string -> option string)
    (lines : list document) (c : collection) : collection * result unit :=
  match lines with
  | [] => (c, Ok tt)
  | document :: rest =>
      match upsert_page K iso document c with
      | (c', Ok _) => ingest_pages K iso rest c'
      | (c', Raise e) => (c', Raise e)
      end
  end.

(** The two loops of [main], on the parsed lines of the two files. *)
Definition main (K : constants) (iso : string -> option string)
    (input_pages : list document) (log_lines : list (option checked_line))
    (c : collection) : collection * result unit :=
  match ingest_pages K iso input_pages c with
  | (c', Ok _) => (replay_log log_lines c', Ok tt)
  | (c', Raise e) => (c', Raise e)
  end.

(** ** Vocabulary of the properties *)

(** The original timestamp stored for a url, when a page with an [orig]
    sub-document is stored for it. *)
Definition stored_timestamp (u : string) (c : collection) : option string :=
  match Mongo.find_one u c with
  | Some p => option_map orig_timestamp (orig p)
  | None => None
  end.

(** A sequence of [upsert_page] calls, whatever each of them returns. *)
Definition upsert_all (K : constants) (iso : string -> option string)
    (docs : list document) (c : collection) : collection :=
  fold_left (fun c' doc => fst (upsert_page K iso doc c')) docs c.

(** A candidate topic of a classifier output: an entry whose key is an
    internal topic and whose score is above 0.5. *)
Definition is_candidate (K : constants) (classes_bert : dict Q) (kv : string * Q) : Prop :=
  In kv classes_bert /\ In (fst kv) (ITOPICS K) /\ (1 # 2 < snd kv)%Q.

(** The test of the comprehension of [upsert_page] and the test of its
    loop, on an item. *)
Definition candidate (K : constants) (kv : string * Q) : bool :=
  in_list (fst kv) (ITOPICS K) && Qgtb (snd kv) (1 # 2).

Definition above (K : constants) (kv : string * Q) : bool :=
  Qgtb (snd kv) (SCORE_THRESHOLD K).

(** Descending order of the items in the score. *)
Definition desc (a b : string * Q) : Prop := (snd b <= snd a)%Q.

(** The reshaped snippet as the specification words it: the first
    snippet stored for the topic when there is one, else the first
    snippet found for any topic scanned in the order of the topic list,
    else the empty string. *)
Fixpoint first_snippet_found (itopics : list string) (snippets : dict (list string))
  : string :=
  match itopics with
  | [] => ""
  | t :: rest =>
      match dget t snippets with
      | Some (s :: _) => s
      | _ => first_snippet_found rest snippets
      end
  end.

Definition claimed_snippet (itopics : list string) (snippets : dict (list string))
    (itopic : string) : string :=
  match dget itopic snippets with
  | Some (s :: _) => s
  | _ => first_snippet_found itopics snippets
  end.

(** What [reshape_page] needs of a page and a language in order to
    return: the language is one of the two, the keys it reads and deletes
    are present, and every topic of the page has an external topic, a
    translated name and a snippet. *)
Definition reshapable (K : constants) (p : page) (lang : string) : Prop :=
  (lang = "ja" \/ lang = "en") /\
  ja_translated p <> None /\ en_translated p <> None /\
  ja_domain_label p <> None /\ en_domain_label p <> None /\
  domain p <> None /\
  exists sja sen,
    ja_snippets p = Some sja /\ en_snippets p = Some sen /\
    forall itopic, In itopic (dkeys (topics p)) ->
      exists etopic,
        dget itopic (ITOPIC_ETOPIC_MAP K) = Some etopic /\
        Dict.get pair_eqb (etopic, lang) (ETOPIC_TRANS_MAP K) <> None /\
        dget itopic sja <> None /\ dget itopic sen <> None.

(** The selectors after their translation ([ETOPIC_TRANS_MAP.get((etopic,
    'ja'), etopic)]) and the internal codes of a selector
    ([ETOPIC_ITOPICS_MAP.get(etopic, [])]). *)
Definition etopic_ja (K : constants) (etopic : string) : string :=
  Dict.get_default pair_eqb (etopic, "ja") etopic (ETOPIC_TRANS_MAP K).

Definition ecountry_ja (K : constants) (ecountry : string) : string :=
  Dict.get_default pair_eqb (ecountry, "ja") ecountry (ECOUNTRY_TRANS_MAP K).

Definition itopics_of (K : constants) (etopic : string) : list string :=
  Dict.get_default String.eqb etopic [] (ETOPIC_ITOPICS_MAP K).

Definition icountries_of (K : constants) (ecountry : string) : list string :=
  Dict.get_default String.eqb ecountry [] (ECOUNTRY_ICOUNTRIES_MAP K).

(** The keys of a table the loops iterate on: all but the sentinel. *)
Definition not_all {A : Type} (kx : string * A) : bool :=
  negb (String.eqb (fst kx) "all").

(** [d] has one entry for each key of [table] other than [all], in the
    order of the table, and the value at a key is related by [R] to what
    the table holds there. *)
Definition entries_of {A B : Type} (table : dict A) (R : A -> B -> Prop) (d : dict B)
  : Prop :=
  Forall2 (fun kx kb => fst kb = fst kx /\ R (snd kx) (snd kb)) (filter not_all table) d.

(** The predicates of the filter on a page. *)
Definition is_pandemic (p : page) : bool := Z.eqb (is_about_COVID_19 p) 1.

Definition has_topic (itopics : list string) (p : page) : bool :=
  existsb (fun itopic => dmem itopic (topics p)) itopics.

Definition in_countries (icountries : list string) (p : page) : bool :=
  in_list (displayed_country p) icountries.

(** The pages selected by [pred], in the order of [srt], from [start] on
    and [limit] at most, reshaped for [lang]. *)
Definition listing (K : constants) (mongo_sort : sort_t -> list page -> list page)
    (pred : page -> bool) (srt : sort_t) (start limit : nat) (lang : string)
    (c : collection) : result (list page_view) :=
  traverse (fun p => reshape_page K p lang)
    (Query.skip_limit start limit (mongo_sort srt (filter pred c))).

(** Every url is stored at most once. *)
Definition unique_urls (c : collection) : Prop := NoDup (map url c).

(** A page is stored for the url. *)
Definition is_stored (c : collection) (u : string) : bool :=
  match Mongo.find_one u c with
  | Some _ => true
  | None => false
  end.

(** Every external topic of the list has a first internal topic. *)
Definition resolves (K : constants) (etopics : list string) : Prop :=
  forall e, In e etopics ->
    exists it its, dget e (ETOPIC_ITOPICS_MAP K) = Some (it :: its).

(** The taxonomy names every internal topic in the language. *)
Definition names_topics (K : constants) (lang : string) : Prop :=
  forall t, In t (ITOPICS K) ->
    exists e, dget t (ITOPIC_ETOPIC_MAP K) = Some e /\
              Dict.get pair_eqb (e, lang) (ETOPIC_TRANS_MAP K) <> None.

(** The keys a page has when [upsert_page] wrote it and that a page
    created by [update_page] lacks are equal in two pages. *)
Definition same_ingested (p q : page) : Prop :=
  url q = url p /\ country q = country p /\ orig q = orig p /\
  ja_translated q = ja_translated p /\ en_translated q = en_translated p /\
  ja_snippets q = ja_snippets p /\ en_snippets q = en_snippets p /\
  is_clear q = is_clear p /\ domain q = domain p /\
  ja_domain_label q = ja_domain_label p /\ en_domain_label q = en_domain_label p.

(** The pages a call of [get_pages] reshapes. *)
Definition window (mongo_sort : sort_t -> list page -> list page)
    (itopics icountries : list string) (start limit : nat) (c : collection)
  : list page :=
  Query.skip_limit start limit
    (find_ mongo_sort (get_filter itopics icountries) (get_sort itopics) c).

(** ** A small configuration and sample data

    Three internal topics, two countries, and stand-ins for the library
    functions; the concrete instances of the properties below are taken
    on them. *)

Module Sample.

Definition K : constants :=
  {| ITOPICS := ["x"; "y"; "z"];
     ITOPIC_ETOPIC_MAP := [("x", "X"); ("y", "Y"); ("z", "Z")];
     ETOPIC_ITOPICS_MAP :=
       [("X", ["x"]); ("Y", ["y"]); ("Z", ["z"]); ("all", ["x"; "y"; "z"])];
     ECOUNTRY_ICOUNTRIES_MAP :=
       [("jp", ["jp"]); ("us", ["us"]); ("all", ["jp"; "us"])];
     ETOPIC_TRANS_MAP :=
       [(("X", "ja"), "X"); (("Y", "ja"), "Y"); (("Z", "ja"), "Z");
        (("X", "en"), "X"); (("Y", "en"), "Y"); (("Z", "en"), "Z")];
     ECOUNTRY_TRANS_MAP := [(("jp", "ja"), "jp"); (("us", "ja"), "us")];
     SCORE_THRESHOLD := 7 # 10;
     RUMOR_THRESHOLD := 1 # 2;
     USEFUL_THRESHOLD := 1 # 2 |}.

(** Accepts the strings of at least ten characters and returns the
    first ten, the date of a timestamp [YYYY-MM-DDTHH:MM:SS]. *)
Definition iso (s : string) : option string :=
  if (10 <=? String.length s)%nat then Some (substring 0 10 s) else None.

(** The store returns the matching pages in collection order. *)
Definition sort (_ : sort_t) (l : list page) : list page := l.

(** An index without documents. *)
Definition es (_ : es_query) : list string := [].

Definition scores : dict Q :=
  [("x", 9 # 10); ("y", 6 # 10); ("z", 3 # 10);
   ("is_useful", 8 # 10); ("is_about_false_rumor", 1 # 10)].

Definition doc (u t ts : string) : document :=
  {| doc_classes := {| cls_is_about_COVID_19 := 1; cls_is_clear := 1 |};
     doc_country := "jp";
     doc_orig := {| title := t; timestamp := ts |};
     doc_ja_translated := {| title := t; timestamp := ts |};
     doc_en_translated := {| title := t; timestamp := ts |};
     doc_url := u;
     doc_classes_bert := scores;
     doc_snippets := [("y", ["s1"; "s2"])];
     doc_snippets_en := [];
     doc_domain := Some "fij.info";
     doc_domain_label := None;
     doc_domain_label_en := None |}.

Definition t1 : string := "2020-05-01T00:00:00".
Definition t2 : string := "2020-05-02T00:00:00".

(** A document with the three titles given apart. *)
Definition doc_titles (u t tja ten ts : string) : document :=
  {| doc_classes := {| cls_is_about_COVID_19 := 1; cls_is_clear := 1 |};
     doc_country := "jp";
     doc_orig := {| title := t; timestamp := ts |};
     doc_ja_translated := {| title := tja; timestamp := ts |};
     doc_en_translated := {| title := ten; timestamp := ts |};
     doc_url := u;
     doc_classes_bert := scores;
     doc_snippets := [];
     doc_snippets_en := [];
     doc_domain := None;
     doc_domain_label := None;
     doc_domain_label_en := None |}.

(** A classifier output without a score above 0.5. *)
Definition low_scores : dict Q :=
  [("x", 4 # 10); ("y", 3 # 10); ("z", 1 # 2);
   ("is_useful", 2 # 10); ("is_about_false_rumor", 1 # 10)].

(** The configuration with another secondary threshold. *)
Definition K_threshold (t : Q) : constants :=
  {| ITOPICS := ITOPICS K;
     ITOPIC_ETOPIC_MAP := ITOPIC_ETOPIC_MAP K;
     ETOPIC_ITOPICS_MAP := ETOPIC_ITOPICS_MAP K;
     ECOUNTRY_ICOUNTRIES_MAP := ECOUNTRY_ICOUNTRIES_MAP K;
     ETOPIC_TRANS_MAP := ETOPIC_TRANS_MAP K;
     ECOUNTRY_TRANS_MAP := ECOUNTRY_TRANS_MAP K;
     SCORE_THRESHOLD := t;
     RUMOR_THRESHOLD := RUMOR_THRESHOLD K;
     USEFUL_THRESHOLD := USEFUL_THRESHOLD K |}.

(** Snippets whose first topic has an empty list. *)
Definition snippets_empty_first : dict (list string) :=
  [("x", []); ("y", ["hello"])].

(** A snippet with surrounding blanks. *)
Definition snippets_blanks : dict (list string) := [("x", [" hi "])].

(** The sample document with the low scores. *)
Definition doc_low : document :=
  {| doc_classes := {| cls_is_about_COVID_19 := 1; cls_is_clear := 1 |};
     doc_country := "jp";
     doc_orig := {| title := "t"; timestamp := t1 |};
     doc_ja_translated := {| title := "t"; timestamp := t1 |};
     doc_en_translated := {| title := "t"; timestamp := t1 |};
     doc_url := "A";
     doc_classes_bert := low_scores;
     doc_snippets := [];
     doc_snippets_en := [];
     doc_domain := None;
     doc_domain_label := None;
     doc_domain_label_en := None |}.

(** A stored page of the fact-checking domain whose flag is 0, and one
    of another domain. *)
Definition page_of (dom : string) (rumor : Z) : page :=
  {| country := Some "jp";
     displayed_country := "jp";
     orig := Some {| orig_title := "t"; orig_timestamp := t1;
                     simple_timestamp := "2020-05-01" |};
     ja_translated := Some {| title := "t"; timestamp := t1 |};
     en_translated := Some {| title := "t"; timestamp := t1 |};
     url := "A";
     topics := [("x", 9 # 10)];
     ja_snippets := Some [("x", "s"); ("y", ""); ("z", "")];
     en_snippets := Some [("x", "s"); ("y", ""); ("z", "")];
     is_checked := 0;
     is_about_COVID_19 := 1;
     is_useful := 1;
     is_clear := Some 1%Z;
     is_about_false_rumor := rumor;
     domain := Some dom;
     ja_domain_label := Some "";
     en_domain_label := Some "" |}.

(** The empty store. *)
Definition empty_store : store := {| pages := []; files := []; refused := [] |}.

(** The collection after the ingestion of one page of url [B]. *)
Definition one_page : collection :=
  fst (upsert_page K iso (doc "B" "t" t1) []).

End Sample.

(** Sample runs: a correction of the url [A], the page of a document of
    the url [A], and the lines of two files. *)
Module SampleRun.

Definition corrected (s : store) (now : string) : store * result log_entry :=
  update_page Sample.K "A" true true false "us" ["X"; "Y"] "note" "log.jsonl" now s.

(** The store after the ingestion of the page [A] at [t1]. *)
Definition ingested : store :=
  {| pages := fst (upsert_page Sample.K Sample.iso (Sample.doc "A" "t" Sample.t1) []);
     files := [];
     refused := [] |}.

(** A document whose timestamp is not an ISO timestamp. *)
Definition bad_doc : document := Sample.doc "C" "t" "soon".

Definition line_A : checked_line :=
  {| cl_url := "A";
     cl_is_about_COVID_19 := 1;
     cl_is_useful := 0;
     cl_is_about_false_rumor := None;
     cl_new_country := "us";
     cl_new_topics := ["y"] |}.

Definition line_Z : checked_line :=
  {| cl_url := "Z";
     cl_is_about_COVID_19 := 1;
     cl_is_useful := 0;
     cl_is_about_false_rumor := Some 1%Z;
     cl_new_country := "us";
     cl_new_topics := ["y"] |}.

(** An index that answers every query with the url [B] and a url that
    is not stored. *)
Definition es_hits (_ : es_query) : list string := ["B"; "nowhere"].

End SampleRun.

(** * Properties *)

(** ** Strings *)

Module PyStrFacts.
Import PyStr.

Lemma truthy_false_iff (s : string) : truthy s = false <-> s = "".
Proof. destruct s; simpl; split; congruence. Qed.

Lemma truthy_true_iff (s : string) : truthy s = true <-> s <> "".
Proof. destruct s; simpl; split; congruence. Qed.

Lemma lstrip_all_space (s : string) : all_space s = true -> lstrip s = "".
Proof.
  induction s as [|c s IH]; simpl; [reflexivity|].
  intros H. apply andb_true_iff in H as [Hc Hs].
  rewrite Hc. auto.
Qed.

(** A string of white space only strips to the empty string. *)
Lemma strip_all_space (s : string) : all_space s = true -> strip s = "".
Proof. intros H. unfold strip. rewrite (lstrip_all_space s H). reflexivity. Qed.

Lemma compare_refl (s : string) : String_as_OT.compare s s = Eq.
Proof.
  destruct (String_as_OT.compare_spec s s) as [_|H|H]; [reflexivity| |];
    exfalso; exact (StrictOrder_Irreflexive s H).
Qed.

Lemma gtb_irrefl (s : string) : gtb s s = false.
Proof. unfold gtb. rewrite compare_refl. reflexivity. Qed.

Lemma le_refl (s : string) : le s s.
Proof. unfold le. rewrite compare_refl. discriminate. Qed.

Lemma le_lt_or_eq (s t : string) : le s t <-> String_as_OT.lt s t \/ s = t.
Proof.
  unfold le. destruct (String_as_OT.compare_spec s t) as [E|L|G]; split; intros H;
    try (now auto); try congruence.
  - exfalso. destruct H as [H|H].
    + exact (StrictOrder_Irreflexive s (StrictOrder_Transitive _ _ _ H G)).
    + subst. exact (StrictOrder_Irreflexive t G).
Qed.

Lemma le_trans (s t u : string) : le s t -> le t u -> le s u.
Proof.
  rewrite !le_lt_or_eq. intros [H1|H1] [H2|H2]; subst; auto.
  left. exact (StrictOrder_Transitive _ _ _ H1 H2).
Qed.

(** [s > t] gives [t <= s]. *)
Lemma gtb_le (s t : string) : gtb s t = true -> le t s.
Proof.
  unfold gtb. intros H. apply le_lt_or_eq. left.
  destruct (String_as_OT.compare_spec s t) as [E|L|G]; try discriminate.
  exact G.
Qed.

End PyStrFacts.

(** ** The document store *)

Module MongoFacts.
Import Mongo.

Lemma find_one_url (u : string) (c : collection) (p : page) :
  find_one u c = Some p -> url p = u.
Proof.
  unfold find_one. intros H. apply find_some in H as [_ H].
  now apply String.eqb_eq.
Qed.

Lemma find_one_In (u : string) (c : collection) (p : page) :
  find_one u c = Some p -> In p c.
Proof. unfold find_one. intros H. now apply find_some in H. Qed.

Lemma find_one_insert (u : string) (c : collection) (p : page) :
  find_one u (insert_one p c) =
    match find_one u c with
    | Some e => Some e
    | None => if String.eqb (url p) u then Some p else None
    end.
Proof.
  unfold find_one, insert_one.
  induction c as [|q c IH]; simpl; [reflexivity|].
  destruct (String.eqb (url q) u); [reflexivity | exact IH].
Qed.

Lemma update_first_None (u : string) (upd : page -> page) (c : collection) :
  update_first u upd c = None <-> find_one u c = None.
Proof.
  unfold find_one. induction c as [|q c IH]; simpl; [tauto|].
  destruct (String.eqb (url q) u); [split; discriminate|].
  destruct (update_first u upd c); simpl; split; intros H;
    try discriminate; try (apply IH; assumption); try reflexivity.
  apply IH in H. discriminate.
Qed.

(** After the first page of url [u] is replaced by [d], whose url is
    [u], [find_one] returns [d] at [u] and what it did elsewhere. *)
Lemma find_one_update_first (u : string) (d : page) (c c' : collection) :
  update_first u (fun _ => d) c = Some c' ->
  url d = u ->
  forall u', find_one u' c' = if String.eqb u u' then Some d else find_one u' c.
Proof.
  unfold find_one. revert c'.
  induction c as [|q c IH]; simpl; intros c' H Hd u'; [discriminate|].
  destruct (String.eqb (url q) u) eqn:Hq.
  - injection H as <-. simpl. rewrite Hd.
    apply String.eqb_eq in Hq. rewrite Hq.
    destruct (String.eqb u u'); reflexivity.
  - destruct (update_first u (fun _ => d) c) as [c''|] eqn:Hc; [|discriminate].
    injection H as <-. simpl.
    destruct (String.eqb (url q) u') eqn:Hq'.
    + apply String.eqb_eq in Hq'. subst u'.
      rewrite String.eqb_sym, Hq. reflexivity.
    + exact (IH c'' eq_refl Hd u').
Qed.

(** An update that keeps the url is seen by the next [find_one]. *)
Lemma find_one_update_first_keep (u : string) (upd : page -> page) (c c' : collection) :
  update_first u upd c = Some c' ->
  (forall p, url (upd p) = url p) ->
  exists e, find_one u c = Some e /\ find_one u c' = Some (upd e).
Proof.
  unfold find_one. revert c'.
  induction c as [|q c IH]; simpl; intros c' H Hupd; [discriminate|].
  destruct (String.eqb (url q) u) eqn:Hq.
  - injection H as <-. simpl. rewrite Hupd, Hq. now exists q.
  - destruct (update_first u upd c) as [c''|] eqn:Hc; [|discriminate].
    injection H as <-. simpl. rewrite Hq. exact (IH c'' eq_refl Hupd).
Qed.

Lemma update_first_Forall (P : page -> Prop) (u : string) (upd : page -> page)
    (c c' : collection) :
  update_first u upd c = Some c' ->
  (forall p, P p -> P (upd p)) ->
  Forall P c -> Forall P c'.
Proof.
  revert c'. induction c as [|q c IH]; simpl; intros c' H Hupd F; [discriminate|].
  inversion F as [|? ? Hq F']; subst.
  destruct (String.eqb (url q) u).
  - injection H as <-. constructor; auto.
  - destruct (update_first u upd c) as [c''|]; [|discriminate].
    injection H as <-. constructor; [exact Hq|]. now apply IH.
Qed.

Lemma update_first_length (u : string) (upd : page -> page) (c c' : collection) :
  update_first u upd c = Some c' -> List.length c' = List.length c.
Proof.
  revert c'. induction c as [|q c IH]; simpl; intros c' H; [discriminate|].
  destruct (String.eqb (url q) u).
  - injection H as <-. reflexivity.
  - destruct (update_first u upd c) as [c''|]; [|discriminate].
    injection H as <-. simpl. f_equal. now apply IH.
Qed.

(** An update that keeps the url keeps the number of pages of each url. *)
Lemma count_url_update_first (u : string) (upd : page -> page) (c c' : collection) :
  update_first u upd c = Some c' ->
  (forall p, url p = u -> url (upd p) = url p) ->
  forall u', count_url u' c' = count_url u' c.
Proof.
  unfold count_url. revert c'.
  induction c as [|q c IH]; simpl; intros c' H Hupd u'; [discriminate|].
  destruct (String.eqb (url q) u) eqn:Hq.
  - injection H as <-. simpl. rewrite Hupd by (now apply String.eqb_eq).
    destruct (String.eqb (url q) u'); reflexivity.
  - destruct (update_first u upd c) as [c''|] eqn:Hc; [|discriminate].
    injection H as <-. simpl.
    destruct (String.eqb (url q) u'); simpl; rewrite (IH c'' eq_refl Hupd); reflexivity.
Qed.

Lemma count_url_insert (u' : string) (p : page) (c : collection) :
  count_url u' (insert_one p c) =
    (count_url u' c + if String.eqb (url p) u' then 1 else 0)%nat.
Proof.
  unfold count_url, insert_one. rewrite filter_app, length_app. simpl.
  destruct (String.eqb (url p) u'); reflexivity.
Qed.

Lemma count_url_find_one_None (u : string) (c : collection) :
  find_one u c = None <-> count_url u c = 0%nat.
Proof.
  unfold find_one, count_url. induction c as [|q c IH]; simpl; [tauto|].
  destruct (String.eqb (url q) u); simpl; [split; discriminate | exact IH].
Qed.

End MongoFacts.

(** ** Page ingestion *)

Section UpsertFacts.

Variable K : constants.
Variable iso : string -> option string.

(** The page of an accepted document, field by field. *)
Lemma build_page_inv (doc : document) (d : page) :
  build_page K iso doc = Ok (Some d) ->
  title (doc_orig doc) <> "" /\
  title (doc_ja_translated doc) <> "" /\
  title (doc_en_translated doc) <> "" /\
  exists simple useful rumor,
    iso (timestamp (doc_orig doc)) = Some simple /\
    dget "is_useful" (doc_classes_bert doc) = Some useful /\
    dget "is_about_false_rumor" (doc_classes_bert doc) = Some rumor /\
    url d = doc_url doc /\
    orig d = Some {| orig_title := PyStr.strip (title (doc_orig doc));
                     orig_timestamp := timestamp (doc_orig doc);
                     simple_timestamp := simple |} /\
    ja_translated d =
      Some {| title := PyStr.strip (title (doc_ja_translated doc));
              timestamp := timestamp (doc_ja_translated doc) |} /\
    en_translated d =
      Some {| title := PyStr.strip (title (doc_en_translated doc));
              timestamp := timestamp (doc_en_translated doc) |} /\
    topics d = select_topics K (doc_classes_bert doc) /\
    ja_snippets d = Some (reshape_snippets K (doc_snippets doc)) /\
    en_snippets d = Some (reshape_snippets K (doc_snippets_en doc)) /\
    is_checked d = 0%Z.
Proof.
  unfold build_page, getitem.
  destruct (PyStr.truthy (title (doc_orig doc))) eqn:H1; simpl; [|discriminate].
  destruct (iso (timestamp (doc_orig doc))) as [simple|]; simpl; [|discriminate].
  destruct (PyStr.truthy (title (doc_ja_translated doc))) eqn:H2; simpl; [|discriminate].
  destruct (PyStr.truthy (title (doc_en_translated doc))) eqn:H3; simpl; [|discriminate].
  destruct (dget "is_useful" (doc_classes_bert doc)) as [useful|]; simpl; [|discriminate].
  destruct (dget "is_about_false_rumor" (doc_classes_bert doc)) as [rumor|]; simpl;
    [|discriminate].
  intros H. injection H as <-. simpl.
  apply PyStrFacts.truthy_true_iff in H1, H2, H3.
  repeat split; try assumption.
  exists simple, useful, rumor. repeat split; reflexivity.
Qed.

(** A document is accepted when its three titles are not empty, its
    original timestamp is an ISO timestamp and the classifier gave the
    two flag scores. *)
Lemma build_page_accepts (doc : document) :
  title (doc_orig doc) <> "" ->
  title (doc_ja_translated doc) <> "" ->
  title (doc_en_translated doc) <> "" ->
  iso (timestamp (doc_orig doc)) <> None ->
  dget "is_useful" (doc_classes_bert doc) <> None ->
  dget "is_about_false_rumor" (doc_classes_bert doc) <> None ->
  exists d, build_page K iso doc = Ok (Some d).
Proof.
  intros H1 H2 H3 H4 H5 H6.
  apply PyStrFacts.truthy_true_iff in H1, H2, H3.
  unfold build_page, getitem. rewrite H1. simpl.
  destruct (iso (timestamp (doc_orig doc))); [|congruence]. simpl.
  rewrite H2, H3. simpl.
  destruct (dget "is_useful" (doc_classes_bert doc)); [|congruence]. simpl.
  destruct (dget "is_about_false_rumor" (doc_classes_bert doc)); [|congruence]. simpl.
  eexists. reflexivity.
Qed.

(** With an empty title nothing is built: [upsert_page] returns early,
    or [fromisoformat] raised before the empty title was seen. *)
Lemma build_page_empty_title (doc : document) :
  title (doc_orig doc) = "" \/ title (doc_ja_translated doc) = "" \/
  title (doc_en_translated doc) = "" ->
  build_page K iso doc = Ok None \/
  (build_page K iso doc = Raise ValueError /\
   title (doc_orig doc) <> "" /\ iso (timestamp (doc_orig doc)) = None).
Proof.
  intros H. unfold build_page.
  destruct (PyStr.truthy (title (doc_orig doc))) eqn:H1; simpl; [|now left].
  apply PyStrFacts.truthy_true_iff in H1.
  destruct (iso (timestamp (doc_orig doc))) as [simple|]; simpl; [|now right].
  destruct H as [H|[H|H]]; [contradiction| |].
  - rewrite H. simpl. now left.
  - destruct (PyStr.truthy (title (doc_ja_translated doc))); simpl; [|now left].
    rewrite H. simpl. now left.
Qed.

(** C3, as the code has it.  Required-field rejection: when the original
    title, the Japanese title or the English title of the input document
    is empty, [upsert_page] writes nothing: the collection it leaves is
    the collection it was given, so its size is unchanged.  The call
    returns when the original title is the empty one or the original
    timestamp is an ISO timestamp.  When the original title is not empty
    and the original timestamp is not an ISO timestamp, the call does not
    return: [fromisoformat] raises [ValueError] before the translated
    titles are looked at.  There is no other outcome. *)
Theorem upsert_page_rejects_empty_title (doc : document) (c : collection) :
  title (doc_orig doc) = "" \/ title (doc_ja_translated doc) = "" \/
  title (doc_en_translated doc) = "" ->
  fst (upsert_page K iso doc c) = c /\
  List.length (fst (upsert_page K iso doc c)) = List.length c /\
  (title (doc_orig doc) = "" \/ iso (timestamp (doc_orig doc)) <> None ->
   upsert_page K iso doc c = (c, Ok tt)) /\
  (title (doc_orig doc) <> "" -> iso (timestamp (doc_orig doc)) = None ->
   upsert_page K iso doc c = (c, Raise ValueError)) /\
  (snd (upsert_page K iso doc c) = Ok tt \/
   snd (upsert_page K iso doc c) = Raise ValueError).
Proof.
  intros H. unfold upsert_page.
  destruct (build_page_empty_title doc H) as [E|[E [Ht Hi]]]; rewrite E; simpl.
  - split; [reflexivity|]. split; [reflexivity|]. split; [reflexivity|].
    split; [|now left].
    intros Ht Hi. exfalso. revert E. unfold build_page.
    apply PyStrFacts.truthy_true_iff in Ht. rewrite Ht, Hi. discriminate.
  - split; [reflexivity|]. split; [reflexivity|].
    split; [intros [Ht'|Hi']; congruence|].
    split; [reflexivity | now right].
Qed.

End UpsertFacts.

(** An instance of C3: a document whose Japanese title is empty, on a
    collection of one page. *)
Lemma upsert_page_rejects_empty_title_witness :
  List.length Sample.one_page = 1%nat /\
  fst (upsert_page Sample.K Sample.iso
         (Sample.doc_titles "A" "t" "" "t" Sample.t1) Sample.one_page)
  = Sample.one_page /\
  upsert_page Sample.K Sample.iso
    (Sample.doc_titles "A" "t" "" "t" Sample.t1) Sample.one_page
  = (Sample.one_page, Ok tt).
Proof.
  assert (H : title (doc_orig (Sample.doc_titles "A" "t" "" "t" Sample.t1)) = "" \/
              title (doc_ja_translated (Sample.doc_titles "A" "t" "" "t" Sample.t1)) = "" \/
              title (doc_en_translated (Sample.doc_titles "A" "t" "" "t" Sample.t1)) = "")
    by (right; left; reflexivity).
  destruct (upsert_page_rejects_empty_title Sample.K Sample.iso
              (Sample.doc_titles "A" "t" "" "t" Sample.t1) Sample.one_page H)
    as [H1 [_ [H3 _]]].
  split; [reflexivity|]. split; [exact H1|].
  apply H3. right. discriminate.
Defined.

(** C3 as stated fails.  A document whose original title is not empty,
    whose Japanese title is empty and whose original timestamp is not an
    ISO timestamp: [upsert_page] writes nothing, but it does not return,
    it raises [ValueError]. *)
Lemma upsert_page_empty_title_raises :
  title (doc_ja_translated (Sample.doc_titles "A" "t" "" "t" "soon")) = "" /\
  Sample.iso "soon" = None /\
  upsert_page Sample.K Sample.iso
    (Sample.doc_titles "A" "t" "" "t" "soon") Sample.one_page
  = (Sample.one_page, Raise ValueError).
Proof. repeat split. Qed.

Section Overwrite.

Variable K : constants.
Variable iso : string -> option string.

(** C10. White-space titles are accepted: when the three titles of the
    input document are not empty but consist of white space only, the
    document is not rejected (only the empty string is); the page built
    from it has the three titles stripped, that is, empty; and
    [upsert_page] goes on to the write of that page.  For a document
    whose original timestamp is an ISO timestamp and whose classifier
    output has the two flag scores the page is built, and when no page
    is stored for its url it is inserted with the empty titles. *)
Theorem upsert_page_whitespace_titles (doc : document) (c : collection) :
  title (doc_orig doc) <> "" -> PyStr.all_space (title (doc_orig doc)) = true ->
  title (doc_ja_translated doc) <> "" ->
  PyStr.all_space (title (doc_ja_translated doc)) = true ->
  title (doc_en_translated doc) <> "" ->
  PyStr.all_space (title (doc_en_translated doc)) = true ->
  build_page K iso doc <> Ok None /\
  (forall d, build_page K iso doc = Ok (Some d) ->
     option_map orig_title (orig d) = Some "" /\
     option_map title (ja_translated d) = Some "" /\
     option_map title (en_translated d) = Some "" /\
     upsert_page K iso doc c = store_page doc d c) /\
  (iso (timestamp (doc_orig doc)) <> None ->
   dget "is_useful" (doc_classes_bert doc) <> None ->
   dget "is_about_false_rumor" (doc_classes_bert doc) <> None ->
   exists d, build_page K iso doc = Ok (Some d) /\
     (Mongo.find_one (doc_url doc) c = None ->
      upsert_page K iso doc c = (c ++ [d], Ok tt) /\
      Mongo.find_one (doc_url doc) (c ++ [d]) = Some d)).
Proof.
  intros N1 S1 N2 S2 N3 S3.
  split; [|split].
  - unfold build_page, getitem.
    apply PyStrFacts.truthy_true_iff in N1, N2, N3.
    rewrite N1. simpl.
    destruct (iso (timestamp (doc_orig doc))); simpl; [|discriminate].
    rewrite N2, N3. simpl.
    destruct (dget "is_useful" (doc_classes_bert doc)); simpl; [|discriminate].
    destruct (dget "is_about_false_rumor" (doc_classes_bert doc)); simpl; discriminate.
  - intros d Hd.
    destruct (build_page_inv K iso doc Hd)
      as (_ & _ & _ & simple & useful & rumor & _ & _ & _ & _ & Ho & Hj & He & _).
    rewrite Ho, Hj, He. simpl.
    rewrite !PyStrFacts.strip_all_space by assumption.
    repeat split. unfold upsert_page. rewrite Hd. reflexivity.
  - intros Hi Hu Hr.
    destruct (build_page_accepts K iso doc N1 N2 N3 Hi Hu Hr) as [d Hd].
    exists d. split; [exact Hd|]. intros Hnone.
    destruct (build_page_inv K iso doc Hd)
      as (_ & _ & _ & simple & useful & rumor & _ & _ & _ & Hurl & _).
    split.
    + unfold upsert_page, store_page. rewrite Hd, Hnone. reflexivity.
    + change (c ++ [d]) with (Mongo.insert_one d c).
      rewrite MongoFacts.find_one_insert, Hnone, Hurl, String.eqb_refl. reflexivity.
Qed.

(** The write is a no-op on a collection whose page for the url is the
    page to write. *)
Lemma store_page_fixed (doc : document) (d : page) (c : collection) :
  build_page K iso doc = Ok (Some d) ->
  Mongo.find_one (doc_url doc) c = Some d ->
  store_page doc d c = (c, Ok tt).
Proof.
  intros Hd Hf.
  destruct (build_page_inv K iso doc Hd)
    as (_ & _ & _ & simple & useful & rumor & _ & _ & _ & _ & Ho & _).
  unfold store_page. rewrite Hf, Ho. simpl.
  rewrite PyStrFacts.gtb_irrefl. reflexivity.
Qed.

(** The three cases of the write. *)
Lemma store_page_cases (doc : document) (d : page) (c : collection) :
  build_page K iso doc = Ok (Some d) ->
  (Mongo.find_one (doc_url doc) c = None /\
   store_page doc d c = (Mongo.insert_one d c, Ok tt)) \/
  (exists e, Mongo.find_one (doc_url doc) c = Some e /\
     (orig e = None \/
      exists o, orig e = Some o /\
        PyStr.gtb (timestamp (doc_orig doc)) (orig_timestamp o) = false) /\
     fst (store_page doc d c) = c) \/
  (exists e o c', Mongo.find_one (doc_url doc) c = Some e /\ orig e = Some o /\
     PyStr.gtb (timestamp (doc_orig doc)) (orig_timestamp o) = true /\
     Mongo.update_first (doc_url doc) (fun _ => d) c = Some c' /\
     store_page doc d c = (c', Ok tt)).
Proof.
  intros Hd. unfold store_page.
  destruct (Mongo.find_one (doc_url doc) c) as [e|] eqn:Hf; [|left; auto].
  right.
  destruct (orig e) as [o|] eqn:Ho.
  - destruct (PyStr.gtb (timestamp (doc_orig doc)) (orig_timestamp o)) eqn:Hg.
    + right. unfold Mongo.update_one_upsert.
      destruct (Mongo.update_first (doc_url doc) (fun _ => d) c) as [c'|] eqn:Hu.
      * exists e, o, c'. auto.
      * apply MongoFacts.update_first_None in Hu. congruence.
    + left. exists e. split; [reflexivity|]. split; [|reflexivity].
      right. exists o. auto.
  - left. exists e. auto.
Qed.

(** One call never lowers the timestamp stored for a url. *)
Lemma upsert_page_step (doc : document) (u t : string) (c : collection) :
  stored_timestamp u c = Some t ->
  exists t', stored_timestamp u (fst (upsert_page K iso doc c)) = Some t' /\
             PyStr.le t t'.
Proof.
  intros Ht. unfold upsert_page.
  destruct (build_page K iso doc) as [[d|]|e] eqn:Hd; simpl;
    try (exists t; split; [exact Ht | apply PyStrFacts.le_refl]).
  destruct (build_page_inv K iso doc Hd)
    as (_ & _ & _ & simple & useful & rumor & _ & _ & _ & Hurl & Ho & _).
  destruct (store_page_cases doc c Hd)
    as [[Hf E]|[(e & Hf & _ & E)|(e & o & c' & Hf & Hoe & Hg & Hu & E)]];
    rewrite ?E; simpl.
  - exists t. split; [|apply PyStrFacts.le_refl].
    unfold stored_timestamp in *. rewrite MongoFacts.find_one_insert.
    destruct (Mongo.find_one u c); [exact Ht | discriminate].
  - exists t. split; [exact Ht | apply PyStrFacts.le_refl].
  - unfold stored_timestamp in *.
    rewrite (MongoFacts.find_one_update_first _ c Hu Hurl u).
    destruct (String.eqb (doc_url doc) u) eqn:Hq.
    + apply String.eqb_eq in Hq. subst u.
      rewrite Hf, Hoe in Ht. simpl in Ht. injection Ht as <-.
      rewrite Ho. simpl. eexists. split; [reflexivity|].
      now apply PyStrFacts.gtb_le.
    + exists t. split; [exact Ht | apply PyStrFacts.le_refl].
Qed.

(** C1. Monotonic overwrite.  For an accepted document, [upsert_page]
    looks the page up by url: when none is stored it inserts the new
    page; when one is stored with an original timestamp, it replaces
    that page by the new one exactly when the new original timestamp is
    strictly greater, and otherwise leaves the collection as it is and
    returns without error.  The pages [upsert_page] writes all have an
    original timestamp, so these cases are the only ones along a
    sequence of [upsert_page] calls.  Hence the original timestamp stored
    for a url never decreases along such a sequence. *)
Theorem upsert_page_monotonic_overwrite :
  (forall doc d c, build_page K iso doc = Ok (Some d) ->
     (Mongo.find_one (doc_url doc) c = None ->
      upsert_page K iso doc c = (Mongo.insert_one d c, Ok tt)) /\
     (forall e o, Mongo.find_one (doc_url doc) c = Some e -> orig e = Some o ->
        (PyStr.gtb (timestamp (doc_orig doc)) (orig_timestamp o) = true ->
         exists c', Mongo.update_first (doc_url doc) (fun _ => d) c = Some c' /\
           upsert_page K iso doc c = (c', Ok tt) /\
           Mongo.find_one (doc_url doc) c' = Some d /\
           List.length c' = List.length c) /\
        (PyStr.gtb (timestamp (doc_orig doc)) (orig_timestamp o) = false ->
         upsert_page K iso doc c = (c, Ok tt)))) /\
  (forall doc c, Forall (fun p => orig p <> None) c ->
     Forall (fun p => orig p <> None) (fst (upsert_page K iso doc c))) /\
  (forall docs u t c, stored_timestamp u c = Some t ->
     exists t', stored_timestamp u (upsert_all K iso docs c) = Some t' /\
                PyStr.le t t').
Proof.
  split; [|split].
  - intros doc d c Hd.
    destruct (build_page_inv K iso doc Hd)
      as (_ & _ & _ & simple & useful & rumor & _ & _ & _ & Hurl & _).
    unfold upsert_page. rewrite Hd. split.
    + intros Hf. unfold store_page. rewrite Hf. reflexivity.
    + intros e o Hf Ho. unfold store_page. rewrite Hf, Ho. split; intros Hg; rewrite Hg.
      * unfold Mongo.update_one_upsert.
        destruct (Mongo.update_first (doc_url doc) (fun _ => d) c) as [c'|] eqn:Hu.
        -- exists c'. repeat split.
           ++ rewrite (MongoFacts.find_one_update_first _ c Hu Hurl).
              rewrite String.eqb_refl. reflexivity.
           ++ exact (MongoFacts.update_first_length _ _ c Hu).
        -- apply MongoFacts.update_first_None in Hu. congruence.
      * reflexivity.
  - intros doc c F. unfold upsert_page.
    destruct (build_page K iso doc) as [[d|]|e] eqn:Hd; simpl; try exact F.
    destruct (build_page_inv K iso doc Hd)
      as (_ & _ & _ & simple & useful & rumor & _ & _ & _ & _ & Ho & _).
    destruct (store_page_cases doc c Hd)
      as [[Hf E]|[(e & Hf & _ & E)|(e & o & c' & Hf & Hoe & Hg & Hu & E)]];
      rewrite E; simpl.
    + apply Forall_app. split; [exact F|].
      constructor; [congruence | constructor].
    + exact F.
    + apply (@MongoFacts.update_first_Forall _ _ _ _ _ Hu); [|exact F].
      intros _ _. congruence.
  - intros docs. induction docs as [|doc docs IH]; intros u t c Ht; simpl.
    + exists t. split; [exact Ht | apply PyStrFacts.le_refl].
    + destruct (upsert_page_step doc u c Ht) as (t1 & H1 & L1).
      destruct (IH u t1 _ H1) as (t2 & H2 & L2).
      exists t2. split; [exact H2 | exact (PyStrFacts.le_trans L1 L2)].
Qed.

(** C5. Upsert idempotence.  A second [upsert_page] with the same
    payload leaves the collection the first call produced.  For a valid
    payload, that is, one from which a page is built, a collection that
    held at most one page for the url holds exactly one after the two
    calls; and when the url was new, the collection after the two calls
    is the given one followed by the page of the payload, the second
    call being a no-op that returns without error. *)
Theorem upsert_page_idempotent (doc : document) (c : collection) :
  fst (upsert_page K iso doc (fst (upsert_page K iso doc c)))
  = fst (upsert_page K iso doc c) /\
  (forall d, build_page K iso doc = Ok (Some d) ->
     (Mongo.count_url (doc_url doc) c <= 1)%nat ->
     Mongo.count_url (doc_url doc)
       (fst (upsert_page K iso doc (fst (upsert_page K iso doc c)))) = 1%nat) /\
  (forall d, build_page K iso doc = Ok (Some d) ->
     Mongo.find_one (doc_url doc) c = None ->
     upsert_page K iso doc c = (c ++ [d], Ok tt) /\
     upsert_page K iso doc (c ++ [d]) = (c ++ [d], Ok tt) /\
     Mongo.find_one (doc_url doc) (c ++ [d]) = Some d).
Proof.
  assert (Hidem : fst (upsert_page K iso doc (fst (upsert_page K iso doc c)))
                  = fst (upsert_page K iso doc c)).
  { unfold upsert_page.
    destruct (build_page K iso doc) as [[d|]|e] eqn:Hd; simpl; rewrite ?Hd; try reflexivity.
    destruct (build_page_inv K iso doc Hd)
      as (_ & _ & _ & simple & useful & rumor & _ & _ & _ & Hurl & _).
    destruct (store_page_cases doc c Hd)
      as [[Hf E]|[(e & Hf & _ & E)|(e & o & c' & Hf & Hoe & Hg & Hu & E)]].
    - rewrite E. simpl. rewrite (store_page_fixed doc _ Hd); [reflexivity|].
      rewrite MongoFacts.find_one_insert, Hf, Hurl, String.eqb_refl. reflexivity.
    - rewrite E. exact E.
    - rewrite E. simpl. rewrite (store_page_fixed doc _ Hd); [reflexivity|].
      rewrite (MongoFacts.find_one_update_first _ c Hu Hurl).
      rewrite String.eqb_refl. reflexivity. }
  split; [exact Hidem|]. split.
  - intros d Hd Hc. rewrite Hidem. unfold upsert_page. rewrite Hd.
    destruct (build_page_inv K iso doc Hd)
      as (_ & _ & _ & simple & useful & rumor & _ & _ & _ & Hurl & _).
    destruct (store_page_cases doc c Hd)
      as [[Hf E]|[(e & Hf & _ & E)|(e & o & c' & Hf & Hoe & Hg & Hu & E)]];
      rewrite E; simpl.
    + rewrite MongoFacts.count_url_insert, Hurl, String.eqb_refl.
      apply MongoFacts.count_url_find_one_None in Hf. lia.
    + destruct (Mongo.count_url (doc_url doc) c) as [|n] eqn:Hn; [|lia].
      apply MongoFacts.count_url_find_one_None in Hn. congruence.
    + rewrite (@MongoFacts.count_url_update_first _ _ _ _ Hu)
        by (intros p Hp; congruence).
      destruct (Mongo.count_url (doc_url doc) c) as [|n] eqn:Hn; [|lia].
      apply MongoFacts.count_url_find_one_None in Hn. congruence.
  - intros d Hd Hf.
    destruct (build_page_inv K iso doc Hd)
      as (_ & _ & _ & simple & useful & rumor & _ & _ & _ & Hurl & _).
    assert (Hf' : Mongo.find_one (doc_url doc) (c ++ [d]) = Some d).
    { change (c ++ [d]) with (Mongo.insert_one d c).
      rewrite MongoFacts.find_one_insert, Hf, Hurl, String.eqb_refl. reflexivity. }
    repeat split; try exact Hf'.
    + unfold upsert_page, store_page. rewrite Hd, Hf. reflexivity.
    + unfold upsert_page. rewrite Hd. exact (store_page_fixed doc _ Hd Hf').
Qed.

End Overwrite.

(** An instance of C10: three titles of blanks, on the empty collection. *)
Lemma upsert_page_whitespace_titles_witness :
  build_page Sample.K Sample.iso (Sample.doc_titles "A" " " "  " " " Sample.t1) <> Ok None /\
  exists d,
    build_page Sample.K Sample.iso (Sample.doc_titles "A" " " "  " " " Sample.t1)
    = Ok (Some d) /\
    option_map orig_title (orig d) = Some "" /\
    upsert_page Sample.K Sample.iso (Sample.doc_titles "A" " " "  " " " Sample.t1) []
    = ([d], Ok tt).
Proof.
  destruct (@upsert_page_whitespace_titles Sample.K Sample.iso
              (Sample.doc_titles "A" " " "  " " " Sample.t1) [])
    as [A [B C]]; try discriminate; try reflexivity.
  split; [exact A|].
  destruct C as [d [Hd Hs]]; try discriminate.
  exists d. split; [exact Hd|]. split.
  - exact (proj1 (B d Hd)).
  - exact (proj1 (Hs eq_refl)).
Defined.

(** An instance of C1: the page of url [B] stored at [t1], then an
    ingestion at [t2] followed by one at [t1]. *)
Lemma upsert_page_monotonic_overwrite_witness :
  stored_timestamp "B" Sample.one_page = Some Sample.t1 /\
  exists t',
    stored_timestamp "B"
      (upsert_all Sample.K Sample.iso
         [Sample.doc "B" "new" Sample.t2; Sample.doc "B" "old" Sample.t1]
         Sample.one_page) = Some t' /\
    PyStr.le Sample.t1 t'.
Proof.
  split; [reflexivity|].
  exact (proj2 (proj2 (upsert_page_monotonic_overwrite Sample.K Sample.iso))
           [Sample.doc "B" "new" Sample.t2; Sample.doc "B" "old" Sample.t1]
           "B" Sample.t1 Sample.one_page eq_refl).
Defined.

(** The example of the specification: (A, t2), then (A, t1), then a fetch
    shows the fields of t2. *)
Example ingest_newer_then_older :
  option_map (fun p => option_map orig_title (orig p))
    (Mongo.find_one "A"
       (upsert_all Sample.K Sample.iso
          [Sample.doc "A" "new" Sample.t2; Sample.doc "A" "old" Sample.t1] []))
  = Some (Some "new").
Proof. vm_compute. reflexivity. Qed.

(** An instance of C5: the same payload twice, on the empty collection. *)
Lemma upsert_page_idempotent_witness :
  exists d,
    build_page Sample.K Sample.iso (Sample.doc "A" "t" Sample.t1) = Ok (Some d) /\
    upsert_page Sample.K Sample.iso (Sample.doc "A" "t" Sample.t1) [] = ([d], Ok tt) /\
    upsert_page Sample.K Sample.iso (Sample.doc "A" "t" Sample.t1) [d] = ([d], Ok tt) /\
    Mongo.count_url "A"
      (fst (upsert_page Sample.K Sample.iso (Sample.doc "A" "t" Sample.t1)
              (fst (upsert_page Sample.K Sample.iso (Sample.doc "A" "t" Sample.t1) []))))
    = 1%nat.
Proof.
  destruct (@build_page_accepts Sample.K Sample.iso (Sample.doc "A" "t" Sample.t1))
    as [d Hd]; try discriminate.
  destruct (upsert_page_idempotent Sample.K Sample.iso (Sample.doc "A" "t" Sample.t1) [])
    as [_ [H2 H3]].
  exists d. split; [exact Hd|].
  destruct (H3 d Hd eq_refl) as [A [B _]].
  split; [exact A|]. split; [exact B|].
  apply (H2 d Hd). apply Nat.le_0_l.
Defined.

(** ** Dictionaries and scores *)

Section DictFacts.

Variable V : Type.

Lemma in_list_In (x : string) (l : list string) : in_list x l = true <-> In x l.
Proof.
  unfold in_list. rewrite existsb_exists. split.
  - intros (y & Hy & E). apply String.eqb_eq in E. now subst.
  - intros H. exists x. split; [assumption | apply String.eqb_refl].
Qed.

Lemma dget_None (k : string) (d : dict V) : dget k d = None <-> ~ In k (dkeys d).
Proof.
  unfold dget, dkeys, Dict.keys.
  induction d as [|[k' v] d IH]; simpl; [tauto|].
  destruct (String.eqb k k') eqn:E.
  - apply String.eqb_eq in E. subst. split; [discriminate | intros H; exfalso; auto].
  - apply String.eqb_neq in E. rewrite IH. split; [intros H [H'|H'] | intros H H'];
      auto; congruence.
Qed.

Lemma dget_In (k : string) (v : V) (d : dict V) : dget k d = Some v -> In (k, v) d.
Proof.
  unfold dget. induction d as [|[k' v'] d IH]; simpl; [discriminate|].
  destruct (String.eqb k k') eqn:E.
  - apply String.eqb_eq in E. intros H. injection H as ->. subst. now left.
  - intros H. right. auto.
Qed.

(** In a dictionary an item is what [d.get] returns at its key. *)
Lemma In_dget (k : string) (v : V) (d : dict V) :
  NoDup (dkeys d) -> In (k, v) d -> dget k d = Some v.
Proof.
  unfold dget, dkeys, Dict.keys.
  induction d as [|[k' v'] d IH]; simpl; [tauto|].
  intros N [H|H].
  - injection H as -> ->. rewrite String.eqb_refl. reflexivity.
  - inversion N as [|? ? Hn N']; subst.
    destruct (String.eqb k k') eqn:E; [|auto].
    apply String.eqb_eq in E. subst. exfalso. apply Hn.
    change k' with (fst (k', v)). now apply in_map.
Qed.

(** [d[k] = v] appends when the key is new. *)
Lemma dset_fresh (k : string) (v : V) (d : dict V) :
  ~ In k (dkeys d) -> dset k v d = d ++ [(k, v)].
Proof.
  unfold dset, dkeys, Dict.keys.
  induction d as [|[k' v'] d IH]; simpl; [reflexivity|].
  intros H. destruct (String.eqb k k') eqn:E.
  - apply String.eqb_eq in E. subst. exfalso. auto.
  - rewrite IH by auto. reflexivity.
Qed.

Lemma dget_dset (k k' : string) (v : V) (d : dict V) :
  dget k' (dset k v d) = if String.eqb k' k then Some v else dget k' d.
Proof.
  unfold dget, dset. induction d as [|[k0 v0] d IH]; simpl.
  - destruct (String.eqb k' k); reflexivity.
  - destruct (String.eqb k k0) eqn:E; simpl.
    + apply String.eqb_eq in E. subst k0.
      destruct (String.eqb k' k); reflexivity.
    + destruct (String.eqb k' k0) eqn:E'.
      * apply String.eqb_eq in E'. subst k0.
        rewrite String.eqb_sym in E. rewrite E. reflexivity.
      * exact IH.
Qed.

Lemma dkeys_dset (k k' : string) (v : V) (d : dict V) :
  In k' (dkeys (dset k v d)) <-> k' = k \/ In k' (dkeys d).
Proof.
  unfold dkeys, Dict.keys, dset. induction d as [|[k0 v0] d IH]; simpl.
  - intuition.
  - destruct (String.eqb k k0) eqn:E; simpl.
    + apply String.eqb_eq in E. subst k0. intuition.
    + rewrite IH. intuition.
Qed.

Lemma dset_In (k k' : string) (v v' : V) (d : dict V) :
  In (k', v') (dset k v d) -> (k', v') = (k, v) \/ In (k', v') d.
Proof.
  unfold dset. induction d as [|[k0 v0] d IH]; simpl.
  - intros [H|[]]. left. now symmetry.
  - destruct (String.eqb k k0); simpl.
    + intros [H|H]; [left; now symmetry | right; now right].
    + intros [H|H]; [right; now left|].
      destruct (IH H) as [E|E]; [now left | right; now right].
Qed.

Lemma dset_NoDup (k : string) (v : V) (d : dict V) :
  NoDup (dkeys d) -> NoDup (dkeys (dset k v d)).
Proof.
  unfold dkeys, Dict.keys, dset. induction d as [|[k0 v0] d IH]; simpl; intros N.
  - constructor; [intros [] | constructor].
  - inversion N as [|? ? Hn N']; subst.
    destruct (String.eqb k k0) eqn:E; simpl.
    + apply String.eqb_eq in E. subst k0. now constructor.
    + constructor; [|now apply IH].
      intros H. apply (dkeys_dset k k0 v d) in H as [H|H]; [|contradiction].
      apply String.eqb_neq in E. congruence.
Qed.

End DictFacts.

Lemma Qgtb_lt (a b : Q) : Qgtb a b = true <-> (b < a)%Q.
Proof.
  unfold Qgtb. rewrite negb_true_iff. split.
  - intros H. apply Qnot_le_lt. intros L. apply Qle_bool_iff in L. congruence.
  - intros H. destruct (Qle_bool a b) eqn:E; [|reflexivity].
    apply Qle_bool_iff in E. exfalso. exact (Qlt_not_le _ _ H E).
Qed.

Lemma Qgtb_le (a b : Q) : Qgtb a b = false <-> (a <= b)%Q.
Proof.
  unfold Qgtb. rewrite negb_false_iff. apply Qle_bool_iff.
Qed.

(** ** The sort of [upsert_page] *)

Section SortFacts.

Lemma insert_desc_perm (x : string * Q) (l : list (string * Q)) :
  Permutation (insert_desc x l) (x :: l).
Proof.
  induction l as [|y l IH]; simpl; [reflexivity|].
  destruct (Qgtb (snd y) (snd x)); [|reflexivity].
  rewrite IH. apply perm_swap.
Qed.

Lemma sorted_desc_perm (l : list (string * Q)) : Permutation (sorted_desc l) l.
Proof.
  induction l as [|x l IH]; simpl; [reflexivity|].
  rewrite insert_desc_perm. now constructor.
Qed.

Lemma insert_desc_sorted (x : string * Q) (l : list (string * Q)) :
  StronglySorted desc l -> StronglySorted desc (insert_desc x l).
Proof.
  induction 1 as [|y l Hs IH Hy]; simpl.
  - constructor; constructor.
  - destruct (Qgtb (snd y) (snd x)) eqn:E.
    + constructor; [exact IH|].
      apply (Permutation_Forall (Permutation_sym (insert_desc_perm x l))).
      constructor; [|exact Hy].
      apply Qgtb_lt in E. apply Qlt_le_weak. exact E.
    + apply Qgtb_le in E.
      constructor; [constructor; assumption|].
      constructor; [exact E|].
      apply Forall_forall. intros z Hz.
      rewrite Forall_forall in Hy. unfold desc in *.
      exact (Qle_trans _ _ _ (Hy z Hz) E).
Qed.

Lemma sorted_desc_sorted (l : list (string * Q)) : StronglySorted desc (sorted_desc l).
Proof.
  induction l as [|x l IH]; simpl; [constructor|].
  now apply insert_desc_sorted.
Qed.

(** The sort is stable: among the items of the greatest score, the
    first one of the input comes first. *)
Lemma insert_desc_head (x : string * Q) (l : list (string * Q)) :
  Forall (fun y => (snd y <= snd x)%Q) l -> insert_desc x l = x :: l.
Proof.
  destruct l as [|y l]; simpl; [reflexivity|].
  intros H. inversion H as [|? ? Hy _]; subst.
  apply Qgtb_le in Hy. rewrite Hy. reflexivity.
Qed.

End SortFacts.

(** ** Topic selection *)

Section TopicFacts.

Variable K : constants.

Lemma NoDup_keys_filter (f : string * Q -> bool) (l : dict Q) :
  NoDup (dkeys l) -> NoDup (dkeys (filter f l)).
Proof.
  unfold dkeys, Dict.keys. induction l as [|x l IH]; simpl; [auto|].
  intros N. inversion N as [|? ? Hn N']; subst.
  destruct (f x); simpl; [|auto].
  constructor; [|auto].
  intros H. apply Hn. apply in_map_iff in H as (y & E & Hy).
  apply filter_In in Hy as [Hy _]. rewrite <- E. now apply in_map.
Qed.

Lemma candidate_iff (cb : dict Q) (kv : string * Q) :
  In kv (filter (candidate K) cb) <-> is_candidate K cb kv.
Proof.
  unfold is_candidate, candidate. rewrite filter_In, andb_true_iff.
  rewrite in_list_In, Qgtb_lt. tauto.
Qed.

(** On a dictionary the comprehension is the filter of its items. *)
Lemma topics_to_score_from (cb acc : dict Q) :
  NoDup (dkeys (acc ++ cb)) ->
  fold_left
    (fun acc kv =>
       if in_list (fst kv) (ITOPICS K) && Qgtb (snd kv) (1 # 2)
       then dset (fst kv) (snd kv) acc
       else acc)
    cb acc
  = acc ++ filter (candidate K) cb.
Proof.
  revert acc. induction cb as [|[k v] cb IH]; intros acc N; simpl.
  - now rewrite app_nil_r.
  - unfold candidate at 1. simpl.
    unfold dkeys, Dict.keys in N. rewrite map_app in N. simpl in N.
    destruct (in_list k (ITOPICS K) && Qgtb v (1 # 2)).
    + rewrite dset_fresh.
      * rewrite IH; [now rewrite <- app_assoc|].
        unfold dkeys, Dict.keys. rewrite <- app_assoc, map_app. exact N.
      * apply NoDup_remove_2 in N. intros H. apply N. apply in_or_app. now left.
    + apply IH. unfold dkeys, Dict.keys. rewrite map_app.
      exact (NoDup_remove_1 _ _ _ N).
Qed.

Lemma topics_to_score_filter (cb : dict Q) :
  NoDup (dkeys cb) -> topics_to_score K cb = filter (candidate K) cb.
Proof. intros N. unfold topics_to_score. now rewrite topics_to_score_from. Qed.

(** After the first item, the loop over a sorted dictionary keeps the
    items above the threshold. *)
Lemma keep_topics_sorted (items acc : dict Q) (n : nat) :
  StronglySorted desc items ->
  NoDup (dkeys (acc ++ items)) ->
  keep_topics K (S n) items acc = acc ++ filter (above K) items.
Proof.
  intros S. revert acc n.
  induction S as [|[t s] items Hs IH Hd]; intros acc n N; simpl.
  - now rewrite app_nil_r.
  - unfold above at 1. simpl.
    unfold dkeys, Dict.keys in N. rewrite map_app in N. simpl in N.
    destruct (Qgtb s (SCORE_THRESHOLD K)) eqn:E.
    + rewrite dset_fresh.
      * rewrite IH; [now rewrite <- app_assoc|].
        unfold dkeys, Dict.keys. rewrite <- app_assoc, map_app. exact N.
      * apply NoDup_remove_2 in N. intros H. apply N. apply in_or_app. now left.
    + replace (filter (above K) items) with (@nil (string * Q));
        [now rewrite app_nil_r|].
      symmetry. apply Qgtb_le in E.
      rewrite Forall_forall in Hd.
      clear - Hd E. induction items as [|y items IH]; simpl; [reflexivity|].
      assert (Hy : above K y = false).
      { unfold above. apply Qgtb_le.
        exact (Qle_trans _ _ _ (Hd y (or_introl eq_refl)) E). }
      rewrite Hy. apply IH. intros z Hz. apply Hd. now right.
Qed.

(** The kept topics of a classifier output: the first of its
    candidates in the sorted order, and the others above the threshold. *)
Lemma select_topics_eq (cb : dict Q) :
  NoDup (dkeys cb) ->
  select_topics K cb =
    match sorted_desc (filter (candidate K) cb) with
    | [] => []
    | top :: rest => top :: filter (above K) rest
    end.
Proof.
  intros N. unfold select_topics. rewrite (@topics_to_score_filter cb N).
  assert (Ns : NoDup (dkeys (sorted_desc (filter (candidate K) cb)))).
  { unfold dkeys, Dict.keys.
    apply (Permutation_NoDup
             (Permutation_map fst (Permutation_sym (sorted_desc_perm _)))).
    now apply NoDup_keys_filter. }
  pose proof (sorted_desc_sorted (filter (candidate K) cb)) as Hs.
  destruct (sorted_desc (filter (candidate K) cb)) as [|[t s] rest]; simpl; [reflexivity|].
  inversion Hs as [|? ? Hs' _]; subst.
  exact (@keep_topics_sorted rest [(t, s)] 0 Hs' Ns).
Qed.

(** C2, as the code has it.  Of a classifier output, [upsert_page] keeps
    candidates only, that is, internal topics with a score above 0.5;
    it keeps every candidate above [SCORE_THRESHOLD]; when there is a
    candidate it keeps the one of the highest score, first, even below
    [SCORE_THRESHOLD], and the others it keeps are above it; and when no
    score of an internal topic is above 0.5 it keeps no topic. *)
Theorem select_topics_spec (cb : dict Q) :
  NoDup (dkeys cb) ->
  (forall kv, In kv (select_topics K cb) -> is_candidate K cb kv) /\
  (forall kv, is_candidate K cb kv -> (SCORE_THRESHOLD K < snd kv)%Q ->
              In kv (select_topics K cb)) /\
  ((exists kv, is_candidate K cb kv) ->
   exists top rest,
     select_topics K cb = top :: rest /\
     is_candidate K cb top /\
     (forall kv, is_candidate K cb kv -> (snd kv <= snd top)%Q) /\
     (forall kv, In kv rest -> (SCORE_THRESHOLD K < snd kv)%Q)) /\
  ((forall kv, ~ is_candidate K cb kv) -> select_topics K cb = []).
Proof.
  intros N. rewrite (@select_topics_eq cb N).
  pose proof (sorted_desc_perm (filter (candidate K) cb)) as P.
  pose proof (sorted_desc_sorted (filter (candidate K) cb)) as Hs.
  assert (Hin : forall kv, In kv (sorted_desc (filter (candidate K) cb))
                           <-> is_candidate K cb kv).
  { intros kv. rewrite <- candidate_iff. split; apply Permutation_in;
      [exact P | exact (Permutation_sym P)]. }
  destruct (sorted_desc (filter (candidate K) cb)) as [|top rest].
  - split; [|split; [|split]].
    + intros kv [].
    + intros kv H _. now apply Hin in H.
    + intros [kv H]. now apply Hin in H.
    + reflexivity.
  - inversion Hs as [|? ? Hs' Hd]; subst. rewrite Forall_forall in Hd.
    split; [|split; [|split]].
    + intros kv [H|H]; apply Hin; [now left|].
      apply filter_In in H as [H _]. now right.
    + intros kv H L. apply Hin in H as [H|H]; [now left|].
      right. apply filter_In. split; [exact H|]. now apply Qgtb_lt.
    + intros _. exists top, (filter (above K) rest).
      split; [reflexivity|]. split; [|split].
      * apply Hin. now left.
      * intros kv H. apply Hin in H as [H|H]; [subst; apply Qle_refl|].
        exact (Hd kv H).
      * intros kv H. apply filter_In in H as [_ H]. now apply Qgtb_lt in H.
    + intros H. exfalso. apply (H top). apply Hin. now left.
Qed.

End TopicFacts.

(** The example of the specification: of the scores x: 0.9, y: 0.6 and
    z: 0.3, x alone is kept under the threshold 0.7, and x and y under
    the threshold 0.55. *)
Example select_topics_example :
  select_topics Sample.K Sample.scores = [("x", 9 # 10)] /\
  select_topics (Sample.K_threshold (55 # 100)) Sample.scores
  = [("x", 9 # 10); ("y", 6 # 10)].
Proof. split; reflexivity. Qed.

(** An instance of C2 as the code has it, on the sample scores. *)
Lemma select_topics_spec_witness :
  NoDup (dkeys Sample.scores) /\
  exists top rest,
    select_topics Sample.K Sample.scores = top :: rest /\
    is_candidate Sample.K Sample.scores top.
Proof.
  assert (N : NoDup (dkeys Sample.scores)).
  { repeat constructor; simpl; intuition discriminate. }
  split; [exact N|].
  destruct (@select_topics_spec Sample.K Sample.scores N) as (_ & _ & H & _).
  assert (C0 : exists kv, is_candidate Sample.K Sample.scores kv).
  { exists ("x", 9 # 10).
    split; [simpl; auto | split; [simpl; auto | reflexivity]]. }
  destruct (H C0) as (top & rest & E & C & _).
  exists top, rest. split; assumption.
Defined.

(** C2 as stated fails: when every score is at most 0.5, no topic is kept,
    not one. *)
Lemma select_topics_low_scores_keeps_none :
  (forall kv, In kv Sample.low_scores -> (snd kv <= 1 # 2)%Q) /\
  select_topics Sample.K Sample.low_scores = [] /\
  List.length (select_topics Sample.K Sample.low_scores) <> 1%nat /\
  option_map topics
    (Mongo.find_one "A" (fst (upsert_page Sample.K Sample.iso Sample.doc_low [])))
  = Some [].
Proof.
  split; [|split; [|split]]; [| | |reflexivity].
  - intros kv H. simpl in H.
    repeat (destruct H as [H|H]; [subst kv; unfold Qle; simpl; lia|]).
    destruct H.
  - reflexivity.
  - discriminate.
Qed.

(** ** Snippet reshaping *)

Section SnippetFacts.

Variable K : constants.
Variable iso : string -> option string.

(** The second loop of [reshape_snippets], read key by key. *)
Lemma dget_reshape_loop (f : string -> string) (l : list string) (acc : dict string)
    (k : string) :
  dget k (fold_left (fun reshaped itopic => dset itopic (f itopic) reshaped) l acc)
  = if in_list k l then Some (f k) else dget k acc.
Proof.
  revert acc. induction l as [|t l IH]; intros acc; simpl; [reflexivity|].
  rewrite IH, dget_dset.
  destruct (String.eqb k t) eqn:E; simpl.
  - apply String.eqb_eq in E. subst t. destruct (in_list k l); reflexivity.
  - reflexivity.
Qed.

Lemma dkeys_reshape_loop (f : string -> string) (l : list string) (acc : dict string)
    (k : string) :
  In k (dkeys (fold_left (fun reshaped itopic => dset itopic (f itopic) reshaped) l acc))
  <-> In k l \/ In k (dkeys acc).
Proof.
  revert acc. induction l as [|t l IH]; intros acc; simpl; [tauto|].
  rewrite IH, dkeys_dset. intuition.
Qed.

(** The general snippet is taken at the first topic of the list that is
    a key of the snippets, whatever its list holds. *)
Lemma find_general_snippet_first (pre post : list string) (t : string)
    (l : list string) (snippets : dict (list string)) :
  (forall t', In t' pre -> dget t' snippets = None) ->
  dget t snippets = Some l ->
  find_general_snippet (pre ++ t :: post) snippets = hd "" l.
Proof.
  intros Hpre Ht. induction pre as [|p pre IH]; simpl.
  - rewrite Ht. destruct l; reflexivity.
  - rewrite (Hpre p (or_introl eq_refl)). apply IH.
    intros t' H. apply Hpre. now right.
Qed.

Lemma find_general_snippet_none (itopics : list string) (snippets : dict (list string)) :
  (forall t, In t itopics -> dget t snippets = None) ->
  find_general_snippet itopics snippets = "".
Proof.
  induction itopics as [|p l IH]; simpl; intros H; [reflexivity|].
  rewrite (H p (or_introl eq_refl)). apply IH. intros t Ht. apply H. now right.
Qed.

(** C6, as the code has it.  For every topic of [ITOPICS] the reshaped
    snippets have an entry.  It is the first snippet stored for the
    topic, stripped, when that snippet exists and is not empty.
    Otherwise it is the general snippet: the first snippet, as it is, of
    the first topic of [ITOPICS] that is a key of the mapping, and the
    empty string when the list of that topic is empty or when no topic
    is a key.  The keys of the result are the topics of [ITOPICS], and
    the Japanese and the English snippets of a page are reshaped each
    from its own mapping. *)
Theorem reshape_snippets_spec (snippets : dict (list string)) (itopic : string) :
  In itopic (ITOPICS K) ->
  (exists r, dget itopic (reshape_snippets K snippets) = Some r /\
     (forall s rest, dget itopic snippets = Some (s :: rest) -> s <> "" ->
                     r = PyStr.strip s) /\
     ((dget itopic snippets = None \/ dget itopic snippets = Some [] \/
       exists rest, dget itopic snippets = Some ("" :: rest)) ->
      r = find_general_snippet (ITOPICS K) snippets)) /\
  (forall pre t post l,
     ITOPICS K = pre ++ t :: post ->
     (forall t', In t' pre -> dget t' snippets = None) ->
     dget t snippets = Some l ->
     find_general_snippet (ITOPICS K) snippets = hd "" l) /\
  ((forall t, In t (ITOPICS K) -> dget t snippets = None) ->
   find_general_snippet (ITOPICS K) snippets = "") /\
  (forall k, In k (dkeys (reshape_snippets K snippets)) <-> In k (ITOPICS K)) /\
  (forall doc d, build_page K iso doc = Ok (Some d) ->
     ja_snippets d = Some (reshape_snippets K (doc_snippets doc)) /\
     en_snippets d = Some (reshape_snippets K (doc_snippets_en doc))).
Proof.
  intros Hin. split; [|split; [|split; [|split]]].
  - unfold reshape_snippets. rewrite dget_reshape_loop.
    apply in_list_In in Hin. rewrite Hin.
    eexists. split; [reflexivity|]. unfold reshaped_snippet, Dict.get_default.
    split.
    + intros s rest Hs Hne. fold (@dget (list string)). rewrite Hs.
      apply PyStrFacts.truthy_true_iff in Hne. rewrite Hne. reflexivity.
    + fold (@dget (list string)).
      set (g := find_general_snippet (ITOPICS K) snippets).
      assert (Hg : (if PyStr.truthy g then g else "") = g) by (destruct g; reflexivity).
      intros [H|[H|[rest H]]]; rewrite H; simpl; exact Hg.
  - intros pre t post l E Hpre Ht. rewrite E.
    now apply find_general_snippet_first.
  - apply find_general_snippet_none.
  - intros k. unfold reshape_snippets. rewrite dkeys_reshape_loop. simpl. tauto.
  - intros doc d Hd.
    destruct (build_page_inv K iso doc Hd)
      as (_ & _ & _ & simple & useful & rumor & _ & _ & _ & _ & _ & _ & _ & _ & Hj & He & _).
    split; assumption.
Qed.

End SnippetFacts.

(** An instance of C6 as the code has it: the snippets of the sample
    document, whose only key is [y]. *)
Lemma reshape_snippets_spec_witness :
  In "y" (ITOPICS Sample.K) /\
  exists r,
    dget "y" (reshape_snippets Sample.K [("y", ["s1"; "s2"])]) = Some r /\
    r = PyStr.strip "s1".
Proof.
  assert (H : In "y" (ITOPICS Sample.K)) by (simpl; auto).
  split; [exact H|].
  destruct (@reshape_snippets_spec Sample.K Sample.iso [("y", ["s1"; "s2"])] "y" H)
    as [(r & Hr & Hs & _) _].
  exists r. split; [exact Hr|].
  apply (Hs "s1" ["s2"]); [reflexivity | discriminate].
Defined.

(** C6 as stated fails.  When the first topic that is a key has an empty
    list, the fallback is the empty string although a later topic has a
    snippet; and the snippet of a topic is stored stripped, not as it
    is. *)
Lemma reshape_snippets_differs_from_claim :
  dget "z" (reshape_snippets Sample.K Sample.snippets_empty_first) = Some "" /\
  claimed_snippet (ITOPICS Sample.K) Sample.snippets_empty_first "z" = "hello" /\
  dget "x" (reshape_snippets Sample.K Sample.snippets_blanks) = Some "hi" /\
  claimed_snippet (ITOPICS Sample.K) Sample.snippets_blanks "x" = " hi ".
Proof. repeat split. Qed.

(** ** Page reshaping *)

Section ReshapeFacts.

Variable K : constants.

Lemma traverse_ok (A B : Type) (f : A -> result B) (l : list A) :
  (forall a, In a l -> exists b, f a = Ok b) ->
  exists bs, traverse f l = Ok bs.
Proof.
  induction l as [|a l IH]; simpl; intros H; [eexists; reflexivity|].
  destruct (H a (or_introl eq_refl)) as [b Hb]. rewrite Hb. simpl.
  destruct IH as [bs Hbs]; [intros x Hx; apply H; now right|].
  rewrite Hbs. simpl. eexists. reflexivity.
Qed.

Lemma lang_key_ok (A : Type) (lang suffix : string) (ja en : option A) :
  lang = "ja" \/ lang = "en" -> ja <> None -> en <> None ->
  exists a, lang_key lang suffix ja en = Ok a.
Proof.
  intros [->| ->] Hj He; unfold lang_key; simpl.
  - destruct ja; [eexists; reflexivity | congruence].
  - destruct en; [eexists; reflexivity | congruence].
Qed.

Lemma del_ok (A : Type) (key : string) (field : option A) :
  field <> None -> del key field = Ok tt.
Proof. destruct field; simpl; congruence. Qed.

Lemma reshape_topic_ok (p : page) (lang itopic : string) :
  reshapable K p lang -> In itopic (dkeys (topics p)) ->
  exists t, reshape_topic K p lang itopic = Ok t.
Proof.
  intros (Hl & _ & _ & _ & _ & _ & sja & sen & Hj & He & Ht) Hin.
  destruct (Ht itopic Hin) as (etopic & H1 & H2 & H3 & H4).
  unfold reshape_topic, getitem. rewrite H1. simpl.
  destruct (Dict.get pair_eqb (etopic, lang) (ETOPIC_TRANS_MAP K)); [|congruence].
  simpl. rewrite Hj, He.
  assert (Hr : dget itopic (topics p) <> None).
  { intros Hn. apply dget_None in Hn. contradiction. }
  destruct (dget itopic (topics p)); [|congruence].
  destruct Hl as [-> | ->]; unfold lang_key; simpl.
  - destruct (dget itopic sja); [|congruence]. simpl. eexists. reflexivity.
  - destruct (dget itopic sen); [|congruence]. simpl. eexists. reflexivity.
Qed.

Lemma reshape_page_ok (p : page) (lang : string) :
  reshapable K p lang -> exists v, reshape_page K p lang = Ok v.
Proof.
  intros R.
  destruct (traverse_ok (reshape_topic K p lang) (dkeys (topics p))) as [ts Hts].
  { intros a Ha. now apply reshape_topic_ok. }
  destruct R as (Hl & Hjt & Het & Hjd & Hed & Hd & sja & sen & Hj & He & _).
  destruct (lang_key_ok "_translated" Hl Hjt Het) as [tr Htr].
  destruct (lang_key_ok "_domain_label" Hl Hjd Hed) as [dl Hdl].
  unfold reshape_page. rewrite Hts, Htr, Hdl. simpl.
  destruct (domain p) as [d|]; [|congruence]. simpl.
  rewrite Hj, He. simpl.
  rewrite !del_ok by assumption. simpl.
  eexists. reflexivity.
Qed.

(** C7. False-rumor domain override: in the view [reshape_page] returns,
    [is_about_false_rumor] is 1 when the domain of the stored page is
    [fij.info], whatever the stored flag, and the stored flag for every
    other domain; and [reshape_page] returns a view for every page and
    language it can reshape. *)
Theorem reshape_page_false_rumor (p : page) (lang : string) :
  (forall v, reshape_page K p lang = Ok v ->
     (domain p = Some "fij.info" -> v_is_about_false_rumor v = 1%Z) /\
     (forall d, domain p = Some d -> d <> "fij.info" ->
                v_is_about_false_rumor v = is_about_false_rumor p)) /\
  (reshapable K p lang ->
   exists v, reshape_page K p lang = Ok v /\
     (domain p = Some "fij.info" -> v_is_about_false_rumor v = 1%Z) /\
     (forall d, domain p = Some d -> d <> "fij.info" ->
                v_is_about_false_rumor v = is_about_false_rumor p)).
Proof.
  assert (Hflag : forall v, reshape_page K p lang = Ok v ->
     (domain p = Some "fij.info" -> v_is_about_false_rumor v = 1%Z) /\
     (forall d, domain p = Some d -> d <> "fij.info" ->
                v_is_about_false_rumor v = is_about_false_rumor p)).
  { intros v H. unfold reshape_page in H.
    bind_ok H. bind_ok H. bind_ok H.
    destruct (domain p) as [d|] eqn:Hd; simpl in H; [|discriminate H].
    repeat bind_ok H.
    injection H as <-. simpl. split.
    - intros Hf. injection Hf as ->. reflexivity.
    - intros d' Hd' Hne. injection Hd' as ->.
      apply String.eqb_neq in Hne. rewrite Hne. reflexivity. }
  split; [exact Hflag|].
  intros R. destruct (reshape_page_ok R) as [v Hv].
  exists v. split; [exact Hv | exact (Hflag v Hv)].
Qed.

End ReshapeFacts.

(** An instance of C7: a page of [fij.info] whose stored flag is 0 is
    reported with the flag 1, and a page of another domain with its
    stored flag. *)
Lemma reshape_page_false_rumor_witness :
  (exists v, reshape_page Sample.K (Sample.page_of "fij.info" 0) "ja" = Ok v /\
             v_is_about_false_rumor v = 1%Z) /\
  (exists v, reshape_page Sample.K (Sample.page_of "example.com" 0) "en" = Ok v /\
             v_is_about_false_rumor v = 0%Z).
Proof.
  assert (R : forall dom lang, lang = "ja" \/ lang = "en" ->
                reshapable Sample.K (Sample.page_of dom 0) lang).
  { intros dom lang Hl. split; [exact Hl|].
    repeat (split; [discriminate|]).
    exists [("x", "s"); ("y", ""); ("z", "")], [("x", "s"); ("y", ""); ("z", "")].
    split; [reflexivity|]. split; [reflexivity|].
    intros itopic [<-|[]]. exists "X".
    split; [reflexivity|].
    destruct Hl as [-> | ->]; repeat split; discriminate. }
  split.
  - destruct (proj2 (reshape_page_false_rumor Sample.K (Sample.page_of "fij.info" 0) "ja")
                (R _ _ (or_introl eq_refl))) as (v & Hv & H1 & _).
    exists v. split; [exact Hv | exact (H1 eq_refl)].
  - destruct (proj2 (reshape_page_false_rumor Sample.K (Sample.page_of "example.com" 0) "en")
                (R _ _ (or_intror eq_refl))) as (v & Hv & _ & H2).
    exists v. split; [exact Hv|].
    apply (H2 "example.com"); [reflexivity | discriminate].
Defined.

(** ** Query construction *)

Section LoopFacts.

Variables A B : Type.

Lemma entries_of_keys (table : dict A) (R : A -> B -> Prop) (d : dict B) :
  entries_of table R d ->
  dkeys d = filter (fun k => negb (String.eqb k "all")) (dkeys table).
Proof.
  unfold entries_of, dkeys, Dict.keys.
  revert d. induction table as [|[k x] table IH]; simpl; intros d H.
  - inversion H. reflexivity.
  - unfold not_all in H at 1. simpl in H.
    destruct (negb (String.eqb k "all")); [|now apply IH].
    inversion H as [|? [k' b] ? d' [Hk _] H']; subst. simpl in *. subst k'.
    f_equal. now apply IH.
Qed.

Lemma entries_of_total (table : dict A) (R : A -> B -> Prop) :
  (forall k x, In (k, x) table -> k <> "all" -> exists b, R x b) ->
  exists d, entries_of table R d.
Proof.
  unfold entries_of. induction table as [|[k x] table IH]; simpl; intros H.
  - exists []. constructor.
  - destruct IH as [d Hd]; [intros k' x' Hin; apply H; now right|].
    unfold not_all at 1. simpl.
    destruct (String.eqb k "all") eqn:E; simpl; [now exists d|].
    apply String.eqb_neq in E.
    destruct (H k x (or_introl eq_refl) E) as [b Hb].
    exists ((k, b) :: d). constructor; [split; [reflexivity | exact Hb] | exact Hd].
Qed.

Lemma entries_of_impl (table : dict A) (R R' : A -> B -> Prop) (d : dict B) :
  (forall x b, R x b -> R' x b) -> entries_of table R d -> entries_of table R' d.
Proof.
  intros H. unfold entries_of. apply Forall2_impl. intros kx kb [E HR]. auto.
Qed.

(** The loop over a table, from the dictionary [acc] on: it returns
    [acc] followed by one entry for each key but [all]. *)
Lemma for_items_from (f : A -> result B) (items : dict A) (acc d : dict B) :
  NoDup (dkeys items) ->
  (forall k, In k (dkeys acc) -> ~ In k (dkeys items)) ->
  for_items items (fun _ x => f x) acc = Ok d <->
  exists d', d = acc ++ d' /\ entries_of items (fun x b => f x = Ok b) d'.
Proof.
  unfold entries_of. revert acc d.
  induction items as [|[k x] items IH]; intros acc d N Hacc; simpl.
  - split.
    + intros H. injection H as <-. exists []. rewrite app_nil_r. split; constructor.
    + intros (d' & -> & H). inversion H. now rewrite app_nil_r.
  - unfold dkeys, Dict.keys in N. simpl in N.
    inversion N as [|? ? Hk N']; subst.
    unfold not_all at 1. simpl.
    destruct (String.eqb k "all") eqn:E; simpl.
    + apply IH; [exact N'|].
      intros k' Hk' Hin. apply (Hacc k' Hk'). now right.
    + assert (Hfresh : ~ In k (dkeys acc)).
      { intros Hin. apply (Hacc k Hin). now left. }
      destruct (f x) as [b|e] eqn:Hf; simpl.
      * rewrite (@dset_fresh _ k b acc Hfresh).
        rewrite IH; [|exact N'|].
        -- split.
           ++ intros (d' & -> & H). exists ((k, b) :: d').
              rewrite <- app_assoc. split; [reflexivity|].
              constructor; [split; [reflexivity | exact Hf] | exact H].
           ++ intros (d' & -> & H).
              inversion H as [|? [k' b'] ? d'' [Hk' Hb'] H']; subst.
              simpl in *. subst k'.
              assert (Eb : b' = b) by congruence. subst b'.
              exists d''. rewrite <- app_assoc. split; [reflexivity | exact H'].
        -- intros k' Hk'. unfold dkeys, Dict.keys in Hk'.
           rewrite map_app in Hk'. apply in_app_or in Hk' as [Hk'|[<-|[]]].
           ++ intros Hin. apply (Hacc k' Hk'). now right.
           ++ exact Hk.
      * split; [discriminate|].
        intros (d' & _ & H).
        inversion H as [|? [k' b'] ? d'' [_ Hb'] H']; subst.
        simpl in Hb'. congruence.
Qed.

Lemma for_items_spec (f : A -> result B) (items : dict A) (d : dict B) :
  NoDup (dkeys items) ->
  for_items items (fun _ x => f x) [] = Ok d <->
  entries_of items (fun x b => f x = Ok b) d.
Proof.
  intros N. rewrite for_items_from; [|exact N | intros k []].
  split.
  - intros (d' & -> & H). exact H.
  - intros H. exists d. split; [reflexivity | exact H].
Qed.

End LoopFacts.

Section QueryFacts.

Variable K : constants.
Variable mongo_sort : sort_t -> list page -> list page.
Variable es_search : es_query -> list string.

Lemma exists_topics (p : page) (itopics : list string) :
  existsb (Query.exists_ p) (map page_topics itopics) = has_topic itopics p.
Proof.
  unfold has_topic. induction itopics as [|t l IH]; simpl; [reflexivity|].
  rewrite IH. f_equal.
  unfold Query.exists_, dmem, Dict.mem, Query.field_value, dget.
  destruct (Dict.get String.eqb t (topics p)); reflexivity.
Qed.

(** What the filter of [get_filter] selects: the pandemic pages, of one
    of the topics when topics are given, of one of the countries when
    countries are given. *)
Lemma matches_get_filter (itopics icountries : list string) (p : page) :
  Query.matches (get_filter itopics icountries) p
  = is_pandemic p
    && (negb (nonempty itopics) || has_topic itopics p)
    && (negb (nonempty icountries) || in_countries icountries p).
Proof.
  unfold Query.matches, get_filter, in_countries.
  destruct itopics as [|t its], icountries as [|ic ics]; simpl nonempty; cbv iota;
    rewrite ?forallb_app; cbn [forallb Query.matches_clause Query.field_value app];
    rewrite ?exists_topics; unfold is_pandemic;
    destruct (Z.eqb (is_about_COVID_19 p) 1); simpl;
    rewrite ?andb_true_r; reflexivity.
Qed.

Lemma get_pages_listing (itopics icountries : list string) (start limit : nat)
    (lang : string) (c : collection) :
  get_pages K mongo_sort itopics icountries start limit lang c
  = listing K mongo_sort
      (fun p => is_pandemic p
                && (negb (nonempty itopics) || has_topic itopics p)
                && (negb (nonempty icountries) || in_countries icountries p))
      (get_sort itopics) start limit lang c.
Proof.
  unfold get_pages, listing, find_. do 3 f_equal.
  apply filter_ext. intros p. apply matches_get_filter.
Qed.

Lemma listing_ext (pred pred' : page -> bool) (H : forall p, pred p = pred' p)
    (srt : sort_t) (start limit : nat) (lang : string) (c : collection) :
  listing K mongo_sort pred srt start limit lang c
  = listing K mongo_sort pred' srt start limit lang c.
Proof. unfold listing. do 3 f_equal. now apply filter_ext. Qed.

Lemma skip_limit_In (A : Type) (start limit : nat) (l : list A) (x : A) :
  In x (Query.skip_limit start limit l) -> In x l.
Proof.
  unfold Query.skip_limit. intros H.
  assert (Hs : In x (skipn start l)).
  { destruct (limit =? 0)%nat; [exact H|].
    rewrite <- (firstn_skipn limit (skipn start l)). apply in_or_app. now left. }
  rewrite <- (firstn_skipn start l). apply in_or_app. now right.
Qed.

(** A listing returns when the store returns stored pages only and every
    stored page can be reshaped. *)
Lemma listing_ok (pred : page -> bool) (srt : sort_t) (start limit : nat)
    (lang : string) (c : collection) :
  (forall srt' l p, In p (mongo_sort srt' l) -> In p l) ->
  (forall p, In p c -> reshapable K p lang) ->
  exists l, listing K mongo_sort pred srt start limit lang c = Ok l.
Proof.
  intros Hsort Hall. unfold listing. apply traverse_ok.
  intros p Hp. apply reshape_page_ok. apply Hall.
  apply skip_limit_In in Hp. apply Hsort in Hp.
  now apply filter_In in Hp as [Hp _].
Qed.

(** C9. Unknown-code widening.  In a call of [classes], for a topic
    selector other than the sentinel [search], or of [countries], with
    both selectors supplied: when the topic code is not a key of
    [ETOPIC_ITOPICS_MAP] the internal topic list is empty, [get_filter]
    builds no topic clause, and the result is the listing of the
    pandemic pages of the countries of the country code, whatever their
    topics, sorted by date only; when the country code is not a key of
    [ECOUNTRY_ICOUNTRIES_MAP] the internal country list is empty,
    [get_filter] builds no country clause, and the result is the listing
    of the pandemic pages of the topics of the topic code, whatever
    their country.  Such a listing is a page list, not an error, when the
    store returns stored pages and every stored page can be reshaped. *)
Theorem unknown_code_widens (etopic ecountry : string) (start limit : nat)
    (lang query : string) (c : collection) :
  etopic_ja K etopic <> "" -> ecountry_ja K ecountry <> "" ->
  (dget (etopic_ja K etopic) (ETOPIC_ITOPICS_MAP K) = None ->
     itopics_of K (etopic_ja K etopic) = [] /\
     get_filter [] (icountries_of K (ecountry_ja K ecountry))
     = Equals page_is_about_COVID_19 1
       :: (if nonempty (icountries_of K (ecountry_ja K ecountry))
           then [In_ page_displayed_country (icountries_of K (ecountry_ja K ecountry))]
           else []) /\
     (etopic <> "search" ->
      classes K mongo_sort es_search etopic ecountry start limit lang query c
      = (l <- listing K mongo_sort
                (fun p => is_pandemic p
                          && (negb (nonempty (icountries_of K (ecountry_ja K ecountry)))
                              || in_countries (icountries_of K (ecountry_ja K ecountry)) p))
                [(page_orig_simple_timestamp, DESCENDING)] start limit lang c ;;
         Ok (Pages l))) /\
     countries K mongo_sort ecountry etopic start limit lang c
     = (l <- listing K mongo_sort
               (fun p => is_pandemic p
                         && (negb (nonempty (icountries_of K (ecountry_ja K ecountry)))
                             || in_countries (icountries_of K (ecountry_ja K ecountry)) p))
               [(page_orig_simple_timestamp, DESCENDING)] start limit lang c ;;
        Ok (Pages l))) /\
  (dget (ecountry_ja K ecountry) (ECOUNTRY_ICOUNTRIES_MAP K) = None ->
     icountries_of K (ecountry_ja K ecountry) = [] /\
     get_filter (itopics_of K (etopic_ja K etopic)) []
     = Equals page_is_about_COVID_19 1
       :: (if nonempty (itopics_of K (etopic_ja K etopic))
           then [OrExists (map page_topics (itopics_of K (etopic_ja K etopic)))]
           else []) /\
     (etopic <> "search" ->
      classes K mongo_sort es_search etopic ecountry start limit lang query c
      = (l <- listing K mongo_sort
                (fun p => is_pandemic p
                          && (negb (nonempty (itopics_of K (etopic_ja K etopic)))
                              || has_topic (itopics_of K (etopic_ja K etopic)) p))
                (get_sort (itopics_of K (etopic_ja K etopic))) start limit lang c ;;
         Ok (Pages l))) /\
     countries K mongo_sort ecountry etopic start limit lang c
     = (l <- listing K mongo_sort
               (fun p => is_pandemic p
                         && (negb (nonempty (itopics_of K (etopic_ja K etopic)))
                             || has_topic (itopics_of K (etopic_ja K etopic)) p))
               (get_sort (itopics_of K (etopic_ja K etopic))) start limit lang c ;;
        Ok (Pages l))) /\
  ((forall srt l p, In p (mongo_sort srt l) -> In p l) ->
   (forall p, In p c -> reshapable K p lang) ->
   forall pred srt, exists l, listing K mongo_sort pred srt start limit lang c = Ok l).
Proof.
  intros Ht Hc.
  apply PyStrFacts.truthy_true_iff in Ht, Hc.
  assert (Hcl : etopic <> "search" ->
            classes K mongo_sort es_search etopic ecountry start limit lang query c
            = (l <- get_pages K mongo_sort (itopics_of K (etopic_ja K etopic))
                      (icountries_of K (ecountry_ja K ecountry)) start limit lang c ;;
               Ok (Pages l))).
  { intros Hs. apply String.eqb_neq in Hs. unfold classes. rewrite Hs.
    fold (etopic_ja K etopic). fold (ecountry_ja K ecountry).
    rewrite Ht, Hc. reflexivity. }
  assert (Hco : countries K mongo_sort ecountry etopic start limit lang c
            = (l <- get_pages K mongo_sort (itopics_of K (etopic_ja K etopic))
                      (icountries_of K (ecountry_ja K ecountry)) start limit lang c ;;
               Ok (Pages l))).
  { unfold countries.
    fold (etopic_ja K etopic). fold (ecountry_ja K ecountry).
    rewrite Ht, Hc. reflexivity. }
  split; [|split];
    [intros Hnone | intros Hnone
    | intros Hsort Hall pred srt; now apply listing_ok].
  - assert (E : itopics_of K (etopic_ja K etopic) = []).
    { unfold itopics_of, Dict.get_default. fold (@dget (list string)).
      now rewrite Hnone. }
    split; [exact E|]. split.
    { unfold get_filter. simpl.
      destruct (nonempty (icountries_of K (ecountry_ja K ecountry))); reflexivity. }
    rewrite get_pages_listing in Hcl, Hco. rewrite E in Hcl, Hco.
    assert (Hext : forall p,
              is_pandemic p && (negb (nonempty (@nil string)) || has_topic [] p)
              && (negb (nonempty (icountries_of K (ecountry_ja K ecountry)))
                  || in_countries (icountries_of K (ecountry_ja K ecountry)) p)
              = is_pandemic p
                && (negb (nonempty (icountries_of K (ecountry_ja K ecountry)))
                    || in_countries (icountries_of K (ecountry_ja K ecountry)) p)).
    { intros p. simpl. now rewrite andb_true_r. }
    rewrite (listing_ext _ _ Hext) in Hcl, Hco.
    split; [exact Hcl | exact Hco].
  - assert (E : icountries_of K (ecountry_ja K ecountry) = []).
    { unfold icountries_of, Dict.get_default. fold (@dget (list string)).
      now rewrite Hnone. }
    split; [exact E|]. split.
    { unfold get_filter. simpl.
      destruct (nonempty (itopics_of K (etopic_ja K etopic))); reflexivity. }
    rewrite get_pages_listing in Hcl, Hco. rewrite E in Hcl, Hco.
    assert (Hext : forall p,
              is_pandemic p
              && (negb (nonempty (itopics_of K (etopic_ja K etopic)))
                  || has_topic (itopics_of K (etopic_ja K etopic)) p)
              && (negb (nonempty (@nil string)) || in_countries [] p)
              = is_pandemic p
                && (negb (nonempty (itopics_of K (etopic_ja K etopic)))
                    || has_topic (itopics_of K (etopic_ja K etopic)) p)).
    { intros p. simpl. now rewrite andb_true_r. }
    rewrite (listing_ext _ _ Hext) in Hcl, Hco.
    split; [exact Hcl | exact Hco].
Qed.

End QueryFacts.

(** An instance of C9: the topic code [nope] is in no table; the page of
    the sample collection, of the country [jp], is listed. *)
Lemma unknown_code_widens_witness :
  exists l,
    classes Sample.K Sample.sort Sample.es "nope" "jp" 0 10 "ja" "" Sample.one_page
    = Ok (Pages l) /\
    List.length l = 1%nat.
Proof.
  destruct (@unknown_code_widens Sample.K Sample.sort Sample.es "nope" "jp" 0 10 "ja" ""
              Sample.one_page) as [H _]; try discriminate.
  destruct (H eq_refl) as (_ & _ & Hc & _).
  eexists. split.
  - rewrite Hc by discriminate. reflexivity.
  - reflexivity.
Defined.

Section DispatchFacts.

Variable K : constants.
Variable mongo_sort : sort_t -> list page -> list page.
Variable es_search : es_query -> list string.

Hypothesis topics_dict : NoDup (dkeys (ETOPIC_ITOPICS_MAP K)).
Hypothesis countries_dict : NoDup (dkeys (ECOUNTRY_ICOUNTRIES_MAP K)).

(** C8. The dispatch of [classes].  With the topic selector [search] it
    is [search].  Otherwise, the selectors being translated: with both
    it is one page list, that of [get_pages] for the internal codes of
    the two, which lists the pandemic pages of these topics and countries
    in the order of [get_sort]; with the topic only it is a map with one page list for each
    country of [ECOUNTRY_ICOUNTRIES_MAP] but [all]; with no topic it is
    a map with, for each topic of [ETOPIC_ITOPICS_MAP] but [all], a map
    from each country but [all] to a page list.  It returns whenever
    [get_pages] does. *)
Theorem classes_dispatch (etopic ecountry : string) (start limit : nat)
    (lang query : string) (c : collection) :
  (etopic = "search" ->
   classes K mongo_sort es_search etopic ecountry start limit lang query c
   = search K es_search ecountry start limit lang query c) /\
  (etopic <> "search" ->
   (etopic_ja K etopic <> "" -> ecountry_ja K ecountry <> "" ->
    classes K mongo_sort es_search etopic ecountry start limit lang query c
    = (l <- get_pages K mongo_sort (itopics_of K (etopic_ja K etopic))
              (icountries_of K (ecountry_ja K ecountry)) start limit lang c ;;
       Ok (Pages l)) /\
    get_pages K mongo_sort (itopics_of K (etopic_ja K etopic))
      (icountries_of K (ecountry_ja K ecountry)) start limit lang c
    = listing K mongo_sort
        (fun p => is_pandemic p
                  && (negb (nonempty (itopics_of K (etopic_ja K etopic)))
                      || has_topic (itopics_of K (etopic_ja K etopic)) p)
                  && (negb (nonempty (icountries_of K (ecountry_ja K ecountry)))
                      || in_countries (icountries_of K (ecountry_ja K ecountry)) p))
        (get_sort (itopics_of K (etopic_ja K etopic))) start limit lang c) /\
   (etopic_ja K etopic <> "" -> ecountry_ja K ecountry = "" ->
    forall r,
      classes K mongo_sort es_search etopic ecountry start limit lang query c = Ok r <->
      exists d, r = PerKey d /\
        dkeys d = filter (fun k => negb (String.eqb k "all"))
                    (dkeys (ECOUNTRY_ICOUNTRIES_MAP K)) /\
        entries_of (ECOUNTRY_ICOUNTRIES_MAP K)
          (fun icountries l =>
             get_pages K mongo_sort (itopics_of K (etopic_ja K etopic)) icountries
               start limit lang c = Ok l)
          d) /\
   (etopic_ja K etopic = "" ->
    forall r,
      classes K mongo_sort es_search etopic ecountry start limit lang query c = Ok r <->
      exists d, r = Nested d /\
        dkeys d = filter (fun k => negb (String.eqb k "all"))
                    (dkeys (ETOPIC_ITOPICS_MAP K)) /\
        entries_of (ETOPIC_ITOPICS_MAP K)
          (fun itopics inner =>
             entries_of (ECOUNTRY_ICOUNTRIES_MAP K)
               (fun icountries l =>
                  get_pages K mongo_sort itopics icountries start limit lang c = Ok l)
               inner)
          d) /\
   ((forall itopics icountries,
       exists l, get_pages K mongo_sort itopics icountries start limit lang c = Ok l) ->
    exists r,
      classes K mongo_sort es_search etopic ecountry start limit lang query c = Ok r)).
Proof.
  split.
  - intros ->. reflexivity.
  - intros Hs. apply String.eqb_neq in Hs.
    assert (Hboth : etopic_ja K etopic <> "" -> ecountry_ja K ecountry <> "" ->
      classes K mongo_sort es_search etopic ecountry start limit lang query c
      = (l <- get_pages K mongo_sort (itopics_of K (etopic_ja K etopic))
                (icountries_of K (ecountry_ja K ecountry)) start limit lang c ;;
         Ok (Pages l))).
    { intros Ht Hc. apply PyStrFacts.truthy_true_iff in Ht, Hc.
      unfold classes. rewrite Hs.
      fold (etopic_ja K etopic). fold (ecountry_ja K ecountry).
      rewrite Ht, Hc. reflexivity. }
    assert (Htopic : etopic_ja K etopic <> "" -> ecountry_ja K ecountry = "" ->
      forall r,
      classes K mongo_sort es_search etopic ecountry start limit lang query c = Ok r <->
      exists d, r = PerKey d /\
        dkeys d = filter (fun k => negb (String.eqb k "all"))
                    (dkeys (ECOUNTRY_ICOUNTRIES_MAP K)) /\
        entries_of (ECOUNTRY_ICOUNTRIES_MAP K)
          (fun icountries l =>
             get_pages K mongo_sort (itopics_of K (etopic_ja K etopic)) icountries
               start limit lang c = Ok l)
          d).
    { intros Ht Hc r. apply PyStrFacts.truthy_true_iff in Ht.
      unfold classes. rewrite Hs.
      fold (etopic_ja K etopic). fold (ecountry_ja K ecountry).
      rewrite Ht, Hc. simpl. fold (itopics_of K (etopic_ja K etopic)).
      split.
      - intros H. bind_ok H. injection H as <-.
        apply for_items_spec in E; [|exact countries_dict].
        exists a. split; [reflexivity|]. split; [|exact E].
        exact (entries_of_keys E).
      - intros (d & -> & _ & H).
        apply for_items_spec in H; [|exact countries_dict].
        rewrite H. reflexivity. }
    assert (Hinner : forall itopics inner,
      for_items (ECOUNTRY_ICOUNTRIES_MAP K)
        (fun _ icountries => get_pages K mongo_sort itopics icountries start limit lang c)
        [] = Ok inner <->
      entries_of (ECOUNTRY_ICOUNTRIES_MAP K)
        (fun icountries l =>
           get_pages K mongo_sort itopics icountries start limit lang c = Ok l)
        inner).
    { intros itopics inner. apply for_items_spec. exact countries_dict. }
    assert (Hnone : etopic_ja K etopic = "" ->
      forall r,
      classes K mongo_sort es_search etopic ecountry start limit lang query c = Ok r <->
      exists d, r = Nested d /\
        dkeys d = filter (fun k => negb (String.eqb k "all"))
                    (dkeys (ETOPIC_ITOPICS_MAP K)) /\
        entries_of (ETOPIC_ITOPICS_MAP K)
          (fun itopics inner =>
             entries_of (ECOUNTRY_ICOUNTRIES_MAP K)
               (fun icountries l =>
                  get_pages K mongo_sort itopics icountries start limit lang c = Ok l)
               inner)
          d).
    { intros Ht r.
      unfold classes. rewrite Hs.
      fold (etopic_ja K etopic). fold (ecountry_ja K ecountry).
      rewrite Ht. simpl.
      split.
      - intros H. bind_ok H. injection H as <-.
        apply for_items_spec in E; [|exact topics_dict].
        assert (E' : entries_of (ETOPIC_ITOPICS_MAP K)
                       (fun itopics inner =>
                          entries_of (ECOUNTRY_ICOUNTRIES_MAP K)
                            (fun icountries l =>
                               get_pages K mongo_sort itopics icountries start limit
                                 lang c = Ok l)
                            inner)
                       a).
        { eapply entries_of_impl; [|exact E]. intros x b. apply Hinner. }
        exists a. split; [reflexivity|]. split; [|exact E'].
        exact (entries_of_keys E').
      - intros (d & -> & _ & H).
        assert (H' : entries_of (ETOPIC_ITOPICS_MAP K)
                       (fun itopics inner =>
                          for_items (ECOUNTRY_ICOUNTRIES_MAP K)
                            (fun _ icountries =>
                               get_pages K mongo_sort itopics icountries start limit
                                 lang c)
                            [] = Ok inner)
                       d).
        { eapply entries_of_impl; [|exact H]. intros x b. apply Hinner. }
        apply for_items_spec in H'; [|exact topics_dict].
        rewrite H'. reflexivity. }
    split; [intros Ht Hc; split; [exact (Hboth Ht Hc) | apply get_pages_listing]|].
    split; [exact Htopic|]. split; [exact Hnone|].
    intros Hall.
    destruct (string_dec (etopic_ja K etopic) "") as [Ht|Ht].
    + destruct (@entries_of_total _ (dict (list page_view)) (ETOPIC_ITOPICS_MAP K)
                  (fun itopics inner =>
                     entries_of (ECOUNTRY_ICOUNTRIES_MAP K)
                       (fun icountries l =>
                          get_pages K mongo_sort itopics icountries start limit lang c
                          = Ok l)
                       inner)) as [d Hd].
      { intros k itopics _ _. apply entries_of_total. intros k' ics _ _. apply Hall. }
      exists (Nested d). apply (Hnone Ht). exists d.
      split; [reflexivity|]. split; [exact (entries_of_keys Hd) | exact Hd].
    + destruct (string_dec (ecountry_ja K ecountry) "") as [Hc|Hc].
      * destruct (@entries_of_total _ (list page_view) (ECOUNTRY_ICOUNTRIES_MAP K)
                    (fun icountries l =>
                       get_pages K mongo_sort (itopics_of K (etopic_ja K etopic))
                         icountries start limit lang c = Ok l)) as [d Hd].
        { intros k' ics _ _. apply Hall. }
        exists (PerKey d). apply (Htopic Ht Hc). exists d.
        split; [reflexivity|]. split; [exact (entries_of_keys Hd) | exact Hd].
      * rewrite (Hboth Ht Hc).
        destruct (Hall (itopics_of K (etopic_ja K etopic))
                    (icountries_of K (ecountry_ja K ecountry))) as [l Hl].
        rewrite Hl. simpl. eexists. reflexivity.
Qed.

End DispatchFacts.

(** An instance of C8: the topic [X] alone gives one page list for each
    country but [all]. *)
Lemma classes_dispatch_witness :
  NoDup (dkeys (ETOPIC_ITOPICS_MAP Sample.K)) /\
  NoDup (dkeys (ECOUNTRY_ICOUNTRIES_MAP Sample.K)) /\
  exists d,
    classes Sample.K Sample.sort Sample.es "X" "" 0 10 "ja" "" Sample.one_page
    = Ok (PerKey d) /\
    dkeys d = ["jp"; "us"].
Proof.
  assert (N1 : NoDup (dkeys (ETOPIC_ITOPICS_MAP Sample.K))).
  { repeat constructor; simpl; intuition discriminate. }
  assert (N2 : NoDup (dkeys (ECOUNTRY_ICOUNTRIES_MAP Sample.K))).
  { repeat constructor; simpl; intuition discriminate. }
  split; [exact N1|]. split; [exact N2|].
  destruct (@classes_dispatch Sample.K Sample.sort Sample.es N1 N2 "X" "" 0 10 "ja" ""
              Sample.one_page) as [_ H].
  destruct H as (_ & Ht & _ & _); [discriminate|].
  destruct (classes Sample.K Sample.sort Sample.es "X" "" 0 10 "ja" "" Sample.one_page)
    as [r|e] eqn:Hr; [|vm_compute in Hr; discriminate Hr].
  destruct (proj1 (Ht ltac:(discriminate) eq_refl r) eq_refl) as (d & -> & Hk & _).
  exists d. split; [reflexivity | exact Hk].
Defined.

(** ** Moderator correction *)

Section CorrectionFacts.

Variable K : constants.

(** What the comprehension over the external topics builds, from a
    dictionary [acc] of relevances 1 on. *)
Lemma new_etopics_from_spec (etopics : list string) (acc d : dict Q) :
  new_etopics_from K etopics acc = Ok d ->
  NoDup (dkeys acc) ->
  (forall it v, In (it, v) acc -> v = 1%Q) ->
  NoDup (dkeys d) /\
  (forall it v, In (it, v) d -> v = 1%Q) /\
  (forall it, In it (dkeys d) <->
     In it (dkeys acc) \/
     exists e its, In e etopics /\ dget e (ETOPIC_ITOPICS_MAP K) = Some (it :: its)).
Proof.
  revert acc. induction etopics as [|e etopics IH]; intros acc H N Hone; simpl in H.
  - injection H as <-. split; [exact N|]. split; [exact Hone|].
    intros it. split; [now left|]. intros [H|(e & its & [] & _)]. exact H.
  - unfold getitem in H.
    destruct (dget e (ETOPIC_ITOPICS_MAP K)) as [[|it0 its0]|] eqn:He; simpl in H;
      try discriminate H.
    destruct (IH _ H) as (N' & Hone' & Hk).
    + now apply dset_NoDup.
    + intros it v Hin. apply dset_In in Hin as [E|Hin]; [congruence | eauto].
    + split; [exact N'|]. split; [exact Hone'|].
      intros it. rewrite Hk, dkeys_dset. split.
      * intros [[->|Hin]|(e' & its & Hin & Hg)].
        -- right. exists e, its0. split; [now left | exact He].
        -- now left.
        -- right. exists e', its. split; [now right | exact Hg].
      * intros [Hin|(e' & its & [<-|Hin] & Hg)].
        -- left. now right.
        -- left. left. congruence.
        -- right. exists e', its. split; assumption.
Qed.

Lemma new_etopics_from_ok (etopics : list string) (acc : dict Q) :
  (forall e, In e etopics ->
     exists it its, dget e (ETOPIC_ITOPICS_MAP K) = Some (it :: its)) ->
  exists d, new_etopics_from K etopics acc = Ok d.
Proof.
  revert acc. induction etopics as [|e etopics IH]; intros acc H; simpl.
  - eexists. reflexivity.
  - destruct (H e (or_introl eq_refl)) as (it & its & He).
    unfold getitem. rewrite He. simpl. apply IH.
    intros e' Hin. apply H. now right.
Qed.

Lemma dget_append_line (path_ path' : string) (line : log_entry)
    (fs : dict (list log_entry)) :
  dget path' (append_line path_ line fs)
  = if String.eqb path' path_
    then Some (Dict.get_default String.eqb path_ [] fs ++ [line])
    else dget path' fs.
Proof. unfold append_line. apply dget_dset. Qed.

(** Whether a path opens depends on the refused paths of the store only. *)
Lemma open_append_refused (path_ : string) (s s' : store) :
  refused s' = refused s -> open_append path_ s' = open_append path_ s.
Proof. intros E. unfold open_append. now rewrite E. Qed.

(** C4, as the code has it.  When every supplied external topic has a
    first internal topic in [ETOPIC_ITOPICS_MAP], [update_page] leaves a
    store in which: the page found for the url has [is_checked] 1, the
    supplied flags, the supplied country as [displayed_country], and as
    topics the first internal topics of the supplied external topics,
    each once and each with relevance 1; that page was created, with
    these keys and the url only, when no page was stored for the url; the
    files other than the audit log are untouched.  When the audit log
    opens for appending, the call returns a record, which holds the url,
    the flags, the country, the stored topics, the note and the time,
    and the audit log has gained one line, that record.  When the audit
    log does not open, the call raises the exception of [open] after the
    page has been written, and no line is logged. *)
Theorem update_page_correction (url_ : string) (covid useful rumor : bool)
    (icountry : string) (etopics : list string) (notes_ path_ now : string) (s : store) :
  (forall e, In e etopics ->
     exists it its, dget e (ETOPIC_ITOPICS_MAP K) = Some (it :: its)) ->
  exists new_etopics s',
    fst (update_page K url_ covid useful rumor icountry etopics notes_ path_ now s) = s' /\
    NoDup (dkeys new_etopics) /\
    (forall it v, In (it, v) new_etopics -> v = 1%Q) /\
    (forall it, In it (dkeys new_etopics) <->
       exists e its, In e etopics /\
                     dget e (ETOPIC_ITOPICS_MAP K) = Some (it :: its)) /\
    (exists p, Mongo.find_one url_ (pages s') = Some p /\
       is_checked p = 1%Z /\ displayed_country p = icountry /\
       topics p = new_etopics /\
       is_about_COVID_19 p = flag covid /\ is_useful p = flag useful /\
       is_about_false_rumor p = flag rumor) /\
    (Mongo.find_one url_ (pages s) = None ->
     pages s' = pages s ++ [created_page url_ (flag covid) (flag useful) (flag rumor)
                              icountry new_etopics]) /\
    (Mongo.find_one url_ (pages s) <> None ->
     List.length (pages s') = List.length (pages s)) /\
    (forall path', path' <> path_ -> dget path' (files s') = dget path' (files s)) /\
    (open_append path_ s = Ok tt ->
     exists updated,
       update_page K url_ covid useful rumor icountry etopics notes_ path_ now s
       = (s', Ok updated) /\
       dget path_ (files s')
       = Some (Dict.get_default String.eqb path_ [] (files s) ++ [updated]) /\
       updated = {| log_url := url_;
                    log_is_about_COVID_19 := flag covid;
                    log_is_useful := flag useful;
                    log_is_about_false_rumor := flag rumor;
                    new_country := icountry;
                    new_topics := dkeys new_etopics;
                    notes := notes_;
                    time := now |}) /\
    (forall ex, open_append path_ s = Raise ex ->
       update_page K url_ covid useful rumor icountry etopics notes_ path_ now s
       = (s', Raise ex) /\
       files s' = files s).
Proof.
  intros Hknown.
  destruct (@new_etopics_from_ok etopics [] Hknown) as [d Hd].
  destruct (@new_etopics_from_spec etopics [] d Hd) as (N & Hone & Hk).
  { constructor. }
  { intros it v []. }
  exists d. eexists.
  split; [reflexivity|]. split; [exact N|]. split; [exact Hone|]. split.
  { intros it. rewrite Hk. simpl. tauto. }
  assert (Hp : pages (fst (update_page K url_ covid useful rumor icountry etopics notes_
                             path_ now s))
               = Mongo.update_one_upsert url_
                   (set_checked (flag covid) (flag useful) (flag rumor) icountry d)
                   (created_page url_ (flag covid) (flag useful) (flag rumor) icountry d)
                   (pages s)).
  { unfold update_page. rewrite Hd.
    destruct (open_append path_ s) as [[]|ex]; reflexivity. }
  assert (Hfiles : forall path', path' <> path_ ->
            dget path'
              (files (fst (update_page K url_ covid useful rumor icountry etopics notes_
                             path_ now s)))
            = dget path' (files s)).
  { intros path' Hne. unfold update_page. rewrite Hd.
    destruct (open_append path_ s) as [[]|ex]; cbn [fst files]; [|reflexivity].
    rewrite dget_append_line. apply String.eqb_neq in Hne. now rewrite Hne. }
  assert (Hok : open_append path_ s = Ok tt ->
     exists updated,
       update_page K url_ covid useful rumor icountry etopics notes_ path_ now s
       = (fst (update_page K url_ covid useful rumor icountry etopics notes_ path_ now s),
          Ok updated) /\
       dget path_
         (files (fst (update_page K url_ covid useful rumor icountry etopics notes_ path_
                        now s)))
       = Some (Dict.get_default String.eqb path_ [] (files s) ++ [updated]) /\
       updated = {| log_url := url_;
                    log_is_about_COVID_19 := flag covid;
                    log_is_useful := flag useful;
                    log_is_about_false_rumor := flag rumor;
                    new_country := icountry;
                    new_topics := dkeys d;
                    notes := notes_;
                    time := now |}).
  { intros Ho. unfold update_page. rewrite Hd, Ho. cbn [fst files].
    eexists. split; [reflexivity|]. split; [|reflexivity].
    rewrite dget_append_line, String.eqb_refl. reflexivity. }
  assert (Hraise : forall ex, open_append path_ s = Raise ex ->
       update_page K url_ covid useful rumor icountry etopics notes_ path_ now s
       = (fst (update_page K url_ covid useful rumor icountry etopics notes_ path_ now s),
          Raise ex) /\
       files (fst (update_page K url_ covid useful rumor icountry etopics notes_ path_
                     now s))
       = files s).
  { intros ex Ho. unfold update_page. rewrite Hd, Ho. split; reflexivity. }
  rewrite Hp. unfold Mongo.update_one_upsert.
  destruct (Mongo.update_first url_
              (set_checked (flag covid) (flag useful) (flag rumor) icountry d) (pages s))
    as [c'|] eqn:Hu.
  - destruct (@MongoFacts.find_one_update_first_keep _ _ _ _ Hu) as (e & He & He').
    { intros p. reflexivity. }
    split.
    { exists (set_checked (flag covid) (flag useful) (flag rumor) icountry d e).
      split; [exact He'|]. repeat split. }
    split; [intros Hn; congruence|].
    split; [intros _; exact (@MongoFacts.update_first_length _ _ _ _ Hu)|].
    split; [exact Hfiles|]. split; [exact Hok | exact Hraise].
  - apply MongoFacts.update_first_None in Hu.
    split.
    { exists (created_page url_ (flag covid) (flag useful) (flag rumor) icountry d).
      split; [|repeat split].
      rewrite MongoFacts.find_one_insert, Hu. simpl. now rewrite String.eqb_refl. }
    split; [intros _; reflexivity|].
    split; [intros Hn; congruence|].
    split; [exact Hfiles|]. split; [exact Hok | exact Hraise].
Qed.

End CorrectionFacts.

(** An instance of C4 as the code has it: a correction of a url that is
    not stored, with the external topics [X] and [Y]. *)
Lemma update_page_correction_witness :
  exists updated s',
    update_page Sample.K "A" true true false "us" ["X"; "Y"] "note" "log.jsonl" "now"
      Sample.empty_store = (s', Ok updated) /\
    (exists p, Mongo.find_one "A" (pages s') = Some p /\
               is_checked p = 1%Z /\ displayed_country p = "us") /\
    dget "log.jsonl" (files s') = Some [updated].
Proof.
  destruct (@update_page_correction Sample.K "A" true true false "us" ["X"; "Y"]
              "note" "log.jsonl" "now" Sample.empty_store)
    as (d & s' & _ & _ & _ & _ & (p & Hp & Hc & Hd & _) & _ & _ & _ & Hok & _).
  { intros e [<-|[<-|[]]]; eexists; eexists; reflexivity. }
  destruct (Hok eq_refl) as (updated & Hu & Hl & _).
  exists updated, s'. split; [exact Hu|]. split.
  - exists p. split; [exact Hp|]. split; [exact Hc | exact Hd].
  - exact Hl.
Defined.

(** C4 as stated fails.  A correction with an external topic that is not
    in [ETOPIC_ITOPICS_MAP] raises [KeyError] before any write: no page is
    stored for the url and the audit log gains no line.  Two external
    topics of the same first internal topic are stored as one topic.  And
    a correction whose audit log does not open (the empty path) raises
    after the page has been stored: no line is logged and no record is
    returned. *)
Lemma update_page_unknown_topic_raises :
  update_page Sample.K "A" true true false "us" ["nope"] "note" "log.jsonl" "now"
    Sample.empty_store = (Sample.empty_store, Raise (KeyError "nope")) /\
  Mongo.find_one "A"
    (pages (fst (update_page Sample.K "A" true true false "us" ["nope"] "note"
                   "log.jsonl" "now" Sample.empty_store))) = None /\
  dget "log.jsonl"
    (files (fst (update_page Sample.K "A" true true false "us" ["nope"] "note"
                   "log.jsonl" "now" Sample.empty_store))) = None /\
  option_map topics
    (Mongo.find_one "A"
       (pages (fst (update_page Sample.K "A" true true false "us" ["X"; "all"] "note"
                      "log.jsonl" "now" Sample.empty_store))))
  = Some [("x", 1%Q)] /\
  snd (update_page Sample.K "A" true true false "us" ["X"] "note" "" "now"
         Sample.empty_store) = Raise OSError /\
  option_map is_checked
    (Mongo.find_one "A"
       (pages (fst (update_page Sample.K "A" true true false "us" ["X"] "note" "" "now"
                      Sample.empty_store))))
  = Some 1%Z /\
  files (fst (update_page Sample.K "A" true true false "us" ["X"] "note" "" "now"
                Sample.empty_store)) = [].
Proof. repeat split. Qed.

(** * Further properties *)

Unset Implicit Arguments.

(** ** The document store, continued *)

Module StoreFacts.
Import Mongo.

Lemma find_one_None_urls (u : string) (c : collection) :
  find_one u c = None <-> ~ In u (map url c).
Proof.
  unfold find_one. induction c as [|q c IH]; simpl; [tauto|].
  destruct (String.eqb (url q) u) eqn:E.
  - apply String.eqb_eq in E. split; [discriminate | intros H; exfalso; auto].
  - apply String.eqb_neq in E. rewrite IH. tauto.
Qed.

Lemma update_first_urls (u : string) (upd : page -> page) (c c' : collection) :
  update_first u upd c = Some c' ->
  (forall p, url p = u -> url (upd p) = u) ->
  map url c' = map url c.
Proof.
  revert c'. induction c as [|q c IH]; simpl; intros c' H Hupd; [discriminate|].
  destruct (String.eqb (url q) u) eqn:E.
  - injection H as <-. simpl. apply String.eqb_eq in E.
    rewrite (Hupd q E). now rewrite E.
  - destruct (update_first u upd c) as [c''|]; [|discriminate].
    injection H as <-. simpl. f_equal. now apply IH.
Qed.

(** What [find_one] returns after an update that keeps the url: the page
    it returned before, updated when its url is the updated one. *)
Lemma find_one_update_first_any (u : string) (upd : page -> page) (c c' : collection) :
  update_first u upd c = Some c' ->
  (forall p, url p = u -> url (upd p) = u) ->
  forall u', find_one u' c'
             = option_map (fun e => if String.eqb (url e) u then upd e else e)
                 (find_one u' c).
Proof.
  revert c'. induction c as [|q c IH]; simpl; intros c' H Hupd u'; [discriminate|].
  destruct (String.eqb (url q) u) eqn:E.
  - injection H as <-. apply String.eqb_eq in E.
    unfold find_one. simpl. rewrite (Hupd q E), E.
    destruct (String.eqb u u') eqn:E'; simpl.
    + rewrite E, String.eqb_refl. reflexivity.
    + fold (find_one u' c). destruct (find_one u' c) as [e|] eqn:He; simpl; [|reflexivity].
      apply MongoFacts.find_one_url in He. rewrite He.
      rewrite String.eqb_sym, E'. reflexivity.
  - destruct (update_first u upd c) as [c''|] eqn:Hc; [|discriminate].
    injection H as <-. unfold find_one. simpl.
    destruct (String.eqb (url q) u'); simpl.
    + now rewrite E.
    + exact (IH c'' eq_refl Hupd u').
Qed.

(** An update that leaves the found page as it is leaves the collection. *)
Lemma update_first_fixed (u : string) (upd : page -> page) (c : collection) (e : page) :
  find_one u c = Some e -> upd e = e -> update_first u upd c = Some c.
Proof.
  unfold find_one. induction c as [|q c IH]; simpl; intros H Hupd; [discriminate|].
  destruct (String.eqb (url q) u).
  - injection H as ->. now rewrite Hupd.
  - rewrite (IH H Hupd). reflexivity.
Qed.

Lemma update_first_Some (u : string) (upd : page -> page) (c : collection) (e : page) :
  find_one u c = Some e -> exists c', update_first u upd c = Some c'.
Proof.
  intros H. destruct (update_first u upd c) as [c'|] eqn:Hu; [now exists c'|].
  apply MongoFacts.update_first_None in Hu. congruence.
Qed.

End StoreFacts.

(** ** Ingestion, continued *)

Section IngestionFacts.

Variable K : constants.
Variable iso : string -> option string.

(** The urls of the collection after a call of [upsert_page]: those it
    had, followed by the url of the document when it was new. *)
Lemma upsert_page_urls (doc : document) (c : collection) :
  map url (fst (upsert_page K iso doc c)) = map url c \/
  (Mongo.find_one (doc_url doc) c = None /\
   map url (fst (upsert_page K iso doc c)) = map url c ++ [doc_url doc]).
Proof.
  unfold upsert_page.
  destruct (build_page K iso doc) as [[d|]|e] eqn:Hd; simpl; try (now left).
  destruct (build_page_inv K iso doc Hd)
    as (_ & _ & _ & simple & useful & rumor & _ & _ & _ & Hurl & _).
  destruct (store_page_cases K iso doc c Hd)
    as [[Hf E]|[(e & Hf & _ & E)|(e & o & c' & Hf & Hoe & Hg & Hu & E)]];
    rewrite E; simpl.
  - right. split; [exact Hf|].
    unfold Mongo.insert_one. rewrite map_app. simpl. now rewrite Hurl.
  - now left.
  - left. apply (@StoreFacts.update_first_urls _ _ _ _ Hu). intros _ _. exact Hurl.
Qed.

(** X1. [upsert_page] keeps the urls of the collection distinct: along
    any sequence of calls, a collection in which every url is stored at
    most once stays so. *)
Theorem upsert_page_unique_urls (docs : list document) (c : collection) :
  unique_urls c -> unique_urls (upsert_all K iso docs c).
Proof.
  unfold unique_urls. revert c.
  induction docs as [|doc docs IH]; intros c N; simpl; [exact N|].
  apply IH.
  destruct (upsert_page_urls doc c) as [E|[Hf E]]; rewrite E; [exact N|].
  apply NoDup_app; [exact N | constructor; [intros [] | constructor] |].
  intros a Ha [<-|[]].
  apply StoreFacts.find_one_None_urls in Hf. contradiction.
Qed.

(** X2. [upsert_page] touches the page of the url of its document only:
    the page found for any other url is the one found before, a url that
    was stored is still stored, and the collection gains at most one url,
    that of the document and only when it was not stored. *)
Theorem upsert_page_frame (doc : document) (c : collection) :
  (forall u, u <> doc_url doc ->
     Mongo.find_one u (fst (upsert_page K iso doc c)) = Mongo.find_one u c) /\
  (forall u, is_stored c u = true ->
     is_stored (fst (upsert_page K iso doc c)) u = true) /\
  (map url (fst (upsert_page K iso doc c)) = map url c \/
   (Mongo.find_one (doc_url doc) c = None /\
    map url (fst (upsert_page K iso doc c)) = map url c ++ [doc_url doc])).
Proof.
  split; [|split; [|apply upsert_page_urls]].
  - intros u Hu. unfold upsert_page.
    destruct (build_page K iso doc) as [[d|]|e] eqn:Hd; simpl; try reflexivity.
    destruct (build_page_inv K iso doc Hd)
      as (_ & _ & _ & simple & useful & rumor & _ & _ & _ & Hurl & _).
    destruct (store_page_cases K iso doc c Hd)
      as [[Hf E]|[(e & Hf & _ & E)|(e & o & c' & Hf & Hoe & Hg & Hup & E)]];
      rewrite E; simpl.
    + rewrite MongoFacts.find_one_insert.
      destruct (Mongo.find_one u c); [reflexivity|].
      rewrite Hurl. apply not_eq_sym, String.eqb_neq in Hu. now rewrite Hu.
    + reflexivity.
    + rewrite (@MongoFacts.find_one_update_first _ _ _ _ Hup Hurl u).
      apply not_eq_sym, String.eqb_neq in Hu. now rewrite Hu.
  - intros u. unfold is_stored, upsert_page.
    destruct (build_page K iso doc) as [[d|]|e] eqn:Hd; simpl; try tauto.
    destruct (build_page_inv K iso doc Hd)
      as (_ & _ & _ & simple & useful & rumor & _ & _ & _ & Hurl & _).
    destruct (store_page_cases K iso doc c Hd)
      as [[Hf E]|[(e & Hf & _ & E)|(e & o & c' & Hf & Hoe & Hg & Hup & E)]];
      rewrite E; simpl.
    + rewrite MongoFacts.find_one_insert.
      destruct (Mongo.find_one u c); [tauto | discriminate].
    + tauto.
    + rewrite (@MongoFacts.find_one_update_first _ _ _ _ Hup Hurl u).
      destruct (String.eqb (doc_url doc) u); tauto.
Qed.

End IngestionFacts.

(** An instance of X1: two documents of the same url and one of another,
    on the sample collection. *)
Lemma upsert_page_unique_urls_witness :
  unique_urls Sample.one_page /\
  unique_urls
    (upsert_all Sample.K Sample.iso
       [Sample.doc "A" "t" Sample.t1; Sample.doc "B" "t" Sample.t2;
        Sample.doc "A" "u" Sample.t2]
       Sample.one_page).
Proof.
  assert (N : unique_urls Sample.one_page).
  { repeat constructor. simpl. tauto. }
  split; [exact N|].
  exact (@upsert_page_unique_urls Sample.K Sample.iso _ _ N).
Defined.

(** An instance of X2: the ingestion of the url [A] leaves the page of
    the url [B] of the sample collection. *)
Lemma upsert_page_frame_witness :
  "B" <> doc_url (Sample.doc "A" "t" Sample.t2) /\
  is_stored Sample.one_page "B" = true /\
  Mongo.find_one "B"
    (fst (upsert_page Sample.K Sample.iso (Sample.doc "A" "t" Sample.t2) Sample.one_page))
  = Mongo.find_one "B" Sample.one_page /\
  is_stored
    (fst (upsert_page Sample.K Sample.iso (Sample.doc "A" "t" Sample.t2) Sample.one_page))
    "B" = true.
Proof.
  assert (N : "B" <> doc_url (Sample.doc "A" "t" Sample.t2)) by discriminate.
  destruct (upsert_page_frame Sample.K Sample.iso (Sample.doc "A" "t" Sample.t2)
              Sample.one_page) as (H1 & H2 & _).
  split; [exact N|]. split; [reflexivity|].
  split; [exact (H1 "B" N) | exact (H2 "B" eq_refl)].
Defined.

(** ** Moderator correction, continued *)

Section CorrectionMore.

Variable K : constants.
Variable iso : string -> option string.

(** The store a call of [update_page] leaves when the topics have internal
    topics and the audit log opens. *)
Lemma update_page_returns (url_ : string) (covid useful rumor : bool)
    (icountry : string) (etopics : list string) (notes_ path_ now : string) (s : store)
    (d : dict Q) :
  new_etopics_from K etopics [] = Ok d ->
  open_append path_ s = Ok tt ->
  update_page K url_ covid useful rumor icountry etopics notes_ path_ now s
  = ({| pages :=
          Mongo.update_one_upsert url_
            (set_checked (flag covid) (flag useful) (flag rumor) icountry d)
            (created_page url_ (flag covid) (flag useful) (flag rumor) icountry d)
            (pages s);
        files :=
          append_line path_
            {| log_url := url_;
               log_is_about_COVID_19 := flag covid;
               log_is_useful := flag useful;
               log_is_about_false_rumor := flag rumor;
               new_country := icountry;
               new_topics := dkeys d;
               notes := notes_;
               time := now |}
            (files s);
        refused := refused s |},
     Ok {| log_url := url_;
           log_is_about_COVID_19 := flag covid;
           log_is_useful := flag useful;
           log_is_about_false_rumor := flag rumor;
           new_country := icountry;
           new_topics := dkeys d;
           notes := notes_;
           time := now |}).
Proof. intros Hd Ho. unfold update_page. rewrite Hd, Ho. reflexivity. Qed.

(** The store it leaves when the topics have internal topics and the
    audit log does not open: the page is written, no line is. *)
Lemma update_page_unopened (url_ : string) (covid useful rumor : bool)
    (icountry : string) (etopics : list string) (notes_ path_ now : string) (s : store)
    (d : dict Q) (ex : exn) :
  new_etopics_from K etopics [] = Ok d ->
  open_append path_ s = Raise ex ->
  update_page K url_ covid useful rumor icountry etopics notes_ path_ now s
  = ({| pages :=
          Mongo.update_one_upsert url_
            (set_checked (flag covid) (flag useful) (flag rumor) icountry d)
            (created_page url_ (flag covid) (flag useful) (flag rumor) icountry d)
            (pages s);
        files := files s;
        refused := refused s |},
     Raise ex).
Proof. intros Hd Ho. unfold update_page. rewrite Hd, Ho. reflexivity. Qed.

(** The collection it leaves when the topics have internal topics, whether
    the audit log opens or not. *)
Lemma update_page_written (url_ : string) (covid useful rumor : bool)
    (icountry : string) (etopics : list string) (notes_ path_ now : string) (s : store)
    (d : dict Q) :
  new_etopics_from K etopics [] = Ok d ->
  pages (fst (update_page K url_ covid useful rumor icountry etopics notes_ path_ now s))
  = Mongo.update_one_upsert url_
      (set_checked (flag covid) (flag useful) (flag rumor) icountry d)
      (created_page url_ (flag covid) (flag useful) (flag rumor) icountry d)
      (pages s).
Proof.
  intros Hd. unfold update_page. rewrite Hd.
  destruct (open_append path_ s) as [[]|ex]; reflexivity.
Qed.

(** The refused paths are those of the store it was given. *)
Lemma update_page_refused (url_ : string) (covid useful rumor : bool)
    (icountry : string) (etopics : list string) (notes_ path_ now : string) (s : store) :
  refused (fst (update_page K url_ covid useful rumor icountry etopics notes_ path_ now s))
  = refused s.
Proof.
  unfold update_page. destruct (new_etopics_from K etopics []) as [d|ex]; [|reflexivity].
  destruct (open_append path_ s) as [[]|ex]; reflexivity.
Qed.

(** [open] returns or raises. *)
Lemma open_append_cases (path_ : string) (s : store) :
  open_append path_ s = Ok tt \/ exists ex, open_append path_ s = Raise ex.
Proof. destruct (open_append path_ s) as [[]|ex]; [now left | right; now exists ex]. Qed.

Lemma update_page_raised (url_ : string) (covid useful rumor : bool)
    (icountry : string) (etopics : list string) (notes_ path_ now : string) (s : store)
    (ex : exn) :
  new_etopics_from K etopics [] = Raise ex ->
  update_page K url_ covid useful rumor icountry etopics notes_ path_ now s
  = (s, Raise ex).
Proof. intros Hd. unfold update_page. rewrite Hd. reflexivity. Qed.

(** The comprehension raises at an external topic that has no list, or an
    empty one. *)
Lemma new_etopics_from_raise (etopics : list string) (acc : dict Q) (ex : exn) :
  new_etopics_from K etopics acc = Raise ex ->
  (exists e, In e etopics /\ dget e (ETOPIC_ITOPICS_MAP K) = None /\ ex = KeyError e) \/
  (exists e, In e etopics /\ dget e (ETOPIC_ITOPICS_MAP K) = Some [] /\ ex = IndexError).
Proof.
  revert acc. induction etopics as [|e etopics IH]; intros acc H; simpl in H;
    [discriminate|].
  unfold getitem in H.
  destruct (dget e (ETOPIC_ITOPICS_MAP K)) as [[|it its]|] eqn:He; simpl in H.
  - injection H as <-. right. exists e. split; [now left | now split].
  - destruct (IH _ H) as [(e' & Hin & Hn & E)|(e' & Hin & Hn & E)].
    + left. exists e'. split; [now right | now split].
    + right. exists e'. split; [now right | now split].
  - injection H as <-. left. exists e. split; [now left | now split].
Qed.

Lemma new_etopics_from_unresolved (etopics : list string) (acc : dict Q) :
  (exists e, In e etopics /\
     (dget e (ETOPIC_ITOPICS_MAP K) = None \/ dget e (ETOPIC_ITOPICS_MAP K) = Some [])) ->
  exists ex, new_etopics_from K etopics acc = Raise ex.
Proof.
  revert acc. induction etopics as [|e0 etopics IH]; intros acc (e & Hin & He);
    [destruct Hin|]. simpl. unfold getitem.
  destruct (dget e0 (ETOPIC_ITOPICS_MAP K)) as [[|it its]|] eqn:H0; simpl;
    try (eexists; reflexivity).
  apply IH. destruct Hin as [<-|Hin].
  - destruct He as [He|He]; congruence.
  - exists e. split; assumption.
Qed.

(** X3. [update_page] raises exactly when one of the supplied external
    topics has no internal topic list in [ETOPIC_ITOPICS_MAP] or an empty
    one, or the audit log does not open for appending.  With such a topic
    the exception is the [KeyError] of such a topic or an [IndexError],
    whether the log would open or not, and the store is left as it was:
    no page is written and no line is logged.  Otherwise the exception is
    the one [open] raised, and it comes after the write of the page: the
    collection is the corrected one, a page is stored for the url, and
    no line is logged. *)
Theorem update_page_raises (url_ : string) (covid useful rumor : bool)
    (icountry : string) (etopics : list string) (notes_ path_ now : string) (s : store) :
  (((exists e, In e etopics /\
       (dget e (ETOPIC_ITOPICS_MAP K) = None \/
        dget e (ETOPIC_ITOPICS_MAP K) = Some [])) \/
    (exists ex, open_append path_ s = Raise ex)) <->
   exists ex,
     snd (update_page K url_ covid useful rumor icountry etopics notes_ path_ now s)
     = Raise ex) /\
  ((exists e, In e etopics /\
      (dget e (ETOPIC_ITOPICS_MAP K) = None \/
       dget e (ETOPIC_ITOPICS_MAP K) = Some [])) ->
   fst (update_page K url_ covid useful rumor icountry etopics notes_ path_ now s) = s /\
   exists ex,
     snd (update_page K url_ covid useful rumor icountry etopics notes_ path_ now s)
     = Raise ex /\
     ((exists e, In e etopics /\ dget e (ETOPIC_ITOPICS_MAP K) = None /\
                 ex = KeyError e) \/
      (exists e, In e etopics /\ dget e (ETOPIC_ITOPICS_MAP K) = Some [] /\
                 ex = IndexError))) /\
  (resolves K etopics ->
   forall ex,
     snd (update_page K url_ covid useful rumor icountry etopics notes_ path_ now s)
     = Raise ex ->
     open_append path_ s = Raise ex /\
     (exists d,
        new_etopics_from K etopics [] = Ok d /\
        pages (fst (update_page K url_ covid useful rumor icountry etopics notes_ path_
                      now s))
        = Mongo.update_one_upsert url_
            (set_checked (flag covid) (flag useful) (flag rumor) icountry d)
            (created_page url_ (flag covid) (flag useful) (flag rumor) icountry d)
            (pages s)) /\
     Mongo.find_one url_
       (pages (fst (update_page K url_ covid useful rumor icountry etopics notes_ path_
                      now s))) <> None /\
     files (fst (update_page K url_ covid useful rumor icountry etopics notes_ path_
                   now s))
     = files s).
Proof.
  split; [split|split].
  - intros [Hun|[ex Ho]].
    + destruct (new_etopics_from_unresolved etopics [] Hun) as [ex Hex].
      exists ex.
      now rewrite (update_page_raised url_ covid useful rumor icountry etopics notes_ path_
                     now s ex Hex).
    + destruct (new_etopics_from K etopics []) as [d|ex'] eqn:Hd.
      * exists ex.
        now rewrite (update_page_unopened url_ covid useful rumor icountry etopics notes_
                       path_ now s d ex Hd Ho).
      * exists ex'.
        now rewrite (update_page_raised url_ covid useful rumor icountry etopics notes_
                       path_ now s ex' Hd).
  - intros [ex H].
    destruct (new_etopics_from K etopics []) as [d|ex'] eqn:Hd.
    + right. destruct (open_append_cases path_ s) as [Ho|[ex' Ho]].
      * rewrite (update_page_returns url_ covid useful rumor icountry etopics notes_ path_
                   now s d Hd Ho) in H.
        discriminate H.
      * now exists ex'.
    + left.
      destruct (new_etopics_from_raise etopics [] ex' Hd)
        as [(e & Hin & Hn & _)|(e & Hin & Hn & _)];
        exists e; auto.
  - intros Hun. destruct (new_etopics_from_unresolved etopics [] Hun) as [ex Hex].
    rewrite (update_page_raised url_ covid useful rumor icountry etopics notes_ path_ now s
               ex Hex).
    split; [reflexivity|]. exists ex. split; [reflexivity|].
    exact (new_etopics_from_raise etopics [] ex Hex).
  - intros R ex H.
    destruct (@new_etopics_from_ok K etopics [] R) as [d Hd].
    destruct (open_append_cases path_ s) as [Ho|[ex' Ho]].
    { rewrite (update_page_returns url_ covid useful rumor icountry etopics notes_ path_
                 now s d Hd Ho) in H.
      discriminate H. }
    rewrite (update_page_unopened url_ covid useful rumor icountry etopics notes_ path_
               now s d ex' Hd Ho) in H |- *.
    simpl in H. injection H as <-.
    split; [exact Ho|]. split; [exists d; split; [exact Hd | reflexivity]|].
    split; [|reflexivity].
    cbn [fst pages]. unfold Mongo.update_one_upsert.
    destruct (Mongo.update_first url_
                (set_checked (flag covid) (flag useful) (flag rumor) icountry d) (pages s))
      as [c'|] eqn:Hu.
    + destruct (@MongoFacts.find_one_update_first_keep _ _ _ _ Hu) as (e & He & He').
      { intros p. reflexivity. }
      rewrite He'. discriminate.
    + apply MongoFacts.update_first_None in Hu.
      rewrite MongoFacts.find_one_insert, Hu. simpl. rewrite String.eqb_refl.
      discriminate.
Qed.

End CorrectionMore.

Section CorrectionStore.

Variable K : constants.
Variable iso : string -> option string.

(** The collection a call of [update_page] leaves: the given one when it
    raises, and otherwise the given one with the [$set] applied to the
    first page of the url, or followed by the created page. *)
Lemma update_page_pages (url_ : string) (covid useful rumor : bool)
    (icountry : string) (etopics : list string) (notes_ path_ now : string) (s : store) :
  pages (fst (update_page K url_ covid useful rumor icountry etopics notes_ path_ now s))
  = pages s \/
  exists d,
    new_etopics_from K etopics [] = Ok d /\
    pages (fst (update_page K url_ covid useful rumor icountry etopics notes_ path_ now s))
    = Mongo.update_one_upsert url_
        (set_checked (flag covid) (flag useful) (flag rumor) icountry d)
        (created_page url_ (flag covid) (flag useful) (flag rumor) icountry d)
        (pages s).
Proof.
  destruct (new_etopics_from K etopics []) as [d|ex] eqn:Hd.
  - right. exists d. split; [reflexivity|].
    exact (update_page_written K url_ covid useful rumor icountry etopics notes_ path_
             now s d Hd).
  - left.
    now rewrite (update_page_raised K url_ covid useful rumor icountry etopics notes_ path_
                   now s ex Hd).
Qed.

(** X4. [update_page] keeps the urls of the collection distinct, whether
    it returns or raises. *)
Theorem update_page_unique_urls (url_ : string) (covid useful rumor : bool)
    (icountry : string) (etopics : list string) (notes_ path_ now : string) (s : store) :
  unique_urls (pages s) ->
  unique_urls
    (pages (fst (update_page K url_ covid useful rumor icountry etopics notes_ path_ now s))).
Proof.
  unfold unique_urls. intros N.
  destruct (update_page_pages url_ covid useful rumor icountry etopics notes_ path_ now s)
    as [E|(d & _ & E)]; rewrite E; [exact N|].
  unfold Mongo.update_one_upsert.
  destruct (Mongo.update_first url_
              (set_checked (flag covid) (flag useful) (flag rumor) icountry d) (pages s))
    as [c'|] eqn:Hu.
  - rewrite (StoreFacts.update_first_urls _ _ _ _ Hu); [exact N|].
    intros p Hp. exact Hp.
  - apply MongoFacts.update_first_None in Hu.
    apply StoreFacts.find_one_None_urls in Hu.
    unfold Mongo.insert_one. rewrite map_app. simpl.
    apply NoDup_app; [exact N | constructor; [intros [] | constructor] |].
    intros a Ha [<-|[]]. contradiction.
Qed.

(** X5. [update_page] touches the page of its url only and keeps what
    ingestion wrote there: the page found for any other url is the one
    found before; a page that was stored for the url keeps its url, raw
    country, original and translated titles, snippets, clearness flag,
    domain and domain labels; the collection gains at most one url, the
    corrected one and only when it was not stored; and no file but the
    audit log is written. *)
Theorem update_page_frame (url_ : string) (covid useful rumor : bool)
    (icountry : string) (etopics : list string) (notes_ path_ now : string) (s : store) :
  (forall u, u <> url_ ->
     Mongo.find_one u
       (pages (fst (update_page K url_ covid useful rumor icountry etopics notes_ path_
                      now s)))
     = Mongo.find_one u (pages s)) /\
  (forall e, Mongo.find_one url_ (pages s) = Some e ->
     exists p,
       Mongo.find_one url_
         (pages (fst (update_page K url_ covid useful rumor icountry etopics notes_ path_
                        now s))) = Some p /\
       same_ingested e p) /\
  (map url
     (pages (fst (update_page K url_ covid useful rumor icountry etopics notes_ path_
                    now s)))
   = map url (pages s) \/
   (Mongo.find_one url_ (pages s) = None /\
    map url
      (pages (fst (update_page K url_ covid useful rumor icountry etopics notes_ path_
                     now s)))
    = map url (pages s) ++ [url_])) /\
  (forall path', path' <> path_ ->
     dget path'
       (files (fst (update_page K url_ covid useful rumor icountry etopics notes_ path_
                      now s)))
     = dget path' (files s)).
Proof.
  assert (Hsame : forall e, same_ingested e e) by (intros e; repeat split).
  split; [|split; [|split]].
  - intros u Hu.
    destruct (update_page_pages url_ covid useful rumor icountry etopics notes_ path_ now s)
      as [E|(d & _ & E)]; rewrite E; [reflexivity|].
    unfold Mongo.update_one_upsert.
    destruct (Mongo.update_first url_
                (set_checked (flag covid) (flag useful) (flag rumor) icountry d) (pages s))
      as [c'|] eqn:Hup.
    + rewrite (StoreFacts.find_one_update_first_any _ _ _ _ Hup (fun p Hp => Hp) u).
      destruct (Mongo.find_one u (pages s)) as [e|] eqn:He; simpl; [|reflexivity].
      apply MongoFacts.find_one_url in He. rewrite He.
      apply String.eqb_neq in Hu. now rewrite Hu.
    + rewrite MongoFacts.find_one_insert.
      destruct (Mongo.find_one u (pages s)); [reflexivity|]. simpl.
      apply not_eq_sym, String.eqb_neq in Hu. now rewrite Hu.
  - intros e He.
    destruct (update_page_pages url_ covid useful rumor icountry etopics notes_ path_ now s)
      as [E|(d & _ & E)]; rewrite E; [exists e; split; [exact He | apply Hsame]|].
    unfold Mongo.update_one_upsert.
    destruct (StoreFacts.update_first_Some url_
                (set_checked (flag covid) (flag useful) (flag rumor) icountry d)
                (pages s) e He) as [c' Hup].
    rewrite Hup.
    rewrite (StoreFacts.find_one_update_first_any _ _ _ _ Hup (fun p Hp => Hp) url_).
    rewrite He. simpl. rewrite (MongoFacts.find_one_url _ _ He), String.eqb_refl.
    eexists. split; [reflexivity|]. repeat split.
  - destruct (update_page_pages url_ covid useful rumor icountry etopics notes_ path_ now s)
      as [E|(d & _ & E)]; rewrite E; [now left|].
    unfold Mongo.update_one_upsert.
    destruct (Mongo.update_first url_
                (set_checked (flag covid) (flag useful) (flag rumor) icountry d) (pages s))
      as [c'|] eqn:Hup.
    + left. apply (StoreFacts.update_first_urls _ _ _ _ Hup). intros p Hp. exact Hp.
    + right. apply MongoFacts.update_first_None in Hup. split; [exact Hup|].
      unfold Mongo.insert_one. now rewrite map_app.
  - intros path' Hne.
    destruct (new_etopics_from K etopics []) as [d|ex] eqn:Hd.
    + destruct (open_append_cases path_ s) as [Ho|[ex Ho]].
      * rewrite (update_page_returns K url_ covid useful rumor icountry etopics notes_ path_
                   now s d Hd Ho).
        simpl. rewrite dget_append_line.
        apply String.eqb_neq in Hne. now rewrite Hne.
      * now rewrite (update_page_unopened K url_ covid useful rumor icountry etopics notes_
                       path_ now s d ex Hd Ho).
    + now rewrite (update_page_raised K url_ covid useful rumor icountry etopics notes_ path_
                     now s ex Hd).
Qed.

End CorrectionStore.

Section CorrectionCompose.

Variable K : constants.
Variable iso : string -> option string.

(** After a correction whose topics have internal topics, the page of the
    url is a fixed point of its [$set]. *)
Lemma update_page_found (url_ : string) (covid useful rumor : bool)
    (icountry : string) (etopics : list string) (notes_ path_ now : string) (s : store)
    (d : dict Q) :
  new_etopics_from K etopics [] = Ok d ->
  Mongo.find_one url_
    (pages (fst (update_page K url_ covid useful rumor icountry etopics notes_ path_ now s)))
  = Some (match Mongo.find_one url_ (pages s) with
          | Some e => set_checked (flag covid) (flag useful) (flag rumor) icountry d e
          | None => created_page url_ (flag covid) (flag useful) (flag rumor) icountry d
          end).
Proof.
  intros Hd.
  rewrite (update_page_written K url_ covid useful rumor icountry etopics notes_ path_ now s
             d Hd).
  unfold Mongo.update_one_upsert.
  destruct (Mongo.update_first url_
              (set_checked (flag covid) (flag useful) (flag rumor) icountry d) (pages s))
    as [c'|] eqn:Hup.
  - rewrite (StoreFacts.find_one_update_first_any _ _ _ _ Hup (fun p Hp => Hp) url_).
    destruct (Mongo.find_one url_ (pages s)) as [e|] eqn:He.
    + simpl. now rewrite (MongoFacts.find_one_url _ _ He), String.eqb_refl.
    + apply (MongoFacts.update_first_None url_
               (set_checked (flag covid) (flag useful) (flag rumor) icountry d)) in He.
      congruence.
  - apply MongoFacts.update_first_None in Hup.
    rewrite MongoFacts.find_one_insert, Hup. simpl. now rewrite String.eqb_refl.
Qed.

(** X6. A correction applied twice: when the external topics have
    internal topics, the second call of [update_page] with the same
    arguments leaves the collection the first one produced, whether the
    audit log opens or not; and when the audit log opens, both calls
    return and the audit log holds the lines it held followed by the two
    returned records, in order, which differ in their time only. *)
Theorem update_page_twice (url_ : string) (covid useful rumor : bool)
    (icountry : string) (etopics : list string) (notes_ path_ now1 now2 : string)
    (s : store) :
  resolves K etopics ->
  pages (fst (update_page K url_ covid useful rumor icountry etopics notes_ path_ now2
                (fst (update_page K url_ covid useful rumor icountry etopics notes_ path_
                        now1 s))))
  = pages (fst (update_page K url_ covid useful rumor icountry etopics notes_ path_ now1 s))
  /\
  (open_append path_ s = Ok tt ->
   exists u1 u2 s1 s2,
     update_page K url_ covid useful rumor icountry etopics notes_ path_ now1 s
     = (s1, Ok u1) /\
     update_page K url_ covid useful rumor icountry etopics notes_ path_ now2 s1
     = (s2, Ok u2) /\
     pages s2 = pages s1 /\
     dget path_ (files s2)
     = Some (Dict.get_default String.eqb path_ [] (files s) ++ [u1; u2]) /\
     time u1 = now1 /\ time u2 = now2 /\
     log_url u2 = log_url u1 /\ new_country u2 = new_country u1 /\
     new_topics u2 = new_topics u1 /\ notes u2 = notes u1 /\
     log_is_about_COVID_19 u2 = log_is_about_COVID_19 u1 /\
     log_is_useful u2 = log_is_useful u1 /\
     log_is_about_false_rumor u2 = log_is_about_false_rumor u1).
Proof.
  intros R. destruct (@new_etopics_from_ok K etopics [] R) as [d Hd].
  pose proof (update_page_found url_ covid useful rumor icountry etopics notes_ path_ now1 s
                d Hd) as Hf.
  assert (Hpages :
    pages (fst (update_page K url_ covid useful rumor icountry etopics notes_ path_ now2
                  (fst (update_page K url_ covid useful rumor icountry etopics notes_ path_
                          now1 s))))
    = pages (fst (update_page K url_ covid useful rumor icountry etopics notes_ path_ now1
                    s))).
  { rewrite (update_page_written K url_ covid useful rumor icountry etopics notes_ path_
               now2 _ d Hd).
    unfold Mongo.update_one_upsert.
    rewrite (StoreFacts.update_first_fixed url_ _ _ _ Hf); [reflexivity|].
    destruct (Mongo.find_one url_ (pages s)); reflexivity. }
  split; [exact Hpages|].
  intros Ho.
  pose proof (update_page_returns K url_ covid useful rumor icountry etopics notes_ path_
                now1 s d Hd Ho) as H1.
  assert (Ho2 : open_append path_
                  (fst (update_page K url_ covid useful rumor icountry etopics notes_ path_
                          now1 s)) = Ok tt).
  { rewrite (open_append_refused path_ s _
               (update_page_refused K url_ covid useful rumor icountry etopics notes_ path_
                  now1 s)).
    exact Ho. }
  pose proof (update_page_returns K url_ covid useful rumor icountry etopics notes_ path_
                now2 _ d Hd Ho2) as H2.
  rewrite H2 in Hpages. rewrite H1 in Hpages, H2. cbn [fst] in Hpages, H2.
  do 4 eexists.
  split; [exact H1|]. split; [exact H2|].
  split; [exact Hpages|]. split; [|repeat split].
  cbn [files]. rewrite dget_append_line, String.eqb_refl.
  unfold Dict.get_default at 1. fold (@dget (list log_entry)).
  rewrite dget_append_line, String.eqb_refl.
  rewrite <- app_assoc. reflexivity.
Qed.

(** X7. A correction and a later ingestion of the same url.  When a page
    with an original timestamp is stored for the url and is corrected, an
    ingestion whose original timestamp is strictly greater replaces the
    corrected page by the ingested one, unchecked; an ingestion whose
    timestamp is not greater leaves the corrected page. *)
Theorem ingestion_after_correction (covid useful rumor : bool)
    (icountry : string) (etopics : list string) (notes_ path_ now : string) (s : store)
    (doc : document) (d e : page) (o : orig_t) :
  resolves K etopics ->
  build_page K iso doc = Ok (Some d) ->
  Mongo.find_one (doc_url doc) (pages s) = Some e ->
  orig e = Some o ->
  exists p,
    Mongo.find_one (doc_url doc)
      (pages (fst (update_page K (doc_url doc) covid useful rumor icountry etopics notes_
                     path_ now s))) = Some p /\
    is_checked p = 1%Z /\ displayed_country p = icountry /\
    (PyStr.gtb (timestamp (doc_orig doc)) (orig_timestamp o) = true ->
     Mongo.find_one (doc_url doc)
       (fst (upsert_page K iso doc
               (pages (fst (update_page K (doc_url doc) covid useful rumor icountry etopics
                              notes_ path_ now s))))) = Some d /\
     is_checked d = 0%Z) /\
    (PyStr.gtb (timestamp (doc_orig doc)) (orig_timestamp o) = false ->
     upsert_page K iso doc
       (pages (fst (update_page K (doc_url doc) covid useful rumor icountry etopics notes_
                      path_ now s)))
     = (pages (fst (update_page K (doc_url doc) covid useful rumor icountry etopics notes_
                      path_ now s)), Ok tt)).
Proof.
  intros R Hd He Ho.
  destruct (@new_etopics_from_ok K etopics [] R) as [t Ht].
  pose proof (update_page_found (doc_url doc) covid useful rumor icountry etopics notes_
                path_ now s t Ht) as Hf.
  rewrite He in Hf.
  destruct (build_page_inv K iso doc Hd)
    as (_ & _ & _ & simple & useful' & rumor' & _ & _ & _ & Hurl & _ & _ & _ & _ & _ & _ & Hc).
  eexists. split; [exact Hf|]. split; [reflexivity|]. split; [reflexivity|].
  unfold upsert_page. rewrite Hd. unfold store_page. rewrite Hf. cbn [orig set_checked].
  rewrite Ho. split; intros Hg; rewrite Hg.
  - split; [|exact Hc]. unfold Mongo.update_one_upsert. cbn [fst].
    destruct (StoreFacts.update_first_Some (doc_url doc) (fun _ => d) _ _ Hf) as [c' Hup].
    rewrite Hup.
    rewrite (@MongoFacts.find_one_update_first _ _ _ _ Hup Hurl (doc_url doc)).
    now rewrite String.eqb_refl.
  - reflexivity.
Qed.

(** X8. A correction of a url that is not stored, then an ingestion of
    that url: the page the correction created has no [orig] key, so
    [upsert_page] raises [KeyError] on it and writes nothing; the page
    stays the created one. *)
Theorem ingestion_after_created (covid useful rumor : bool)
    (icountry : string) (etopics : list string) (notes_ path_ now : string) (s : store)
    (doc : document) (d : page) :
  resolves K etopics ->
  build_page K iso doc = Ok (Some d) ->
  Mongo.find_one (doc_url doc) (pages s) = None ->
  upsert_page K iso doc
    (pages (fst (update_page K (doc_url doc) covid useful rumor icountry etopics notes_
                   path_ now s)))
  = (pages (fst (update_page K (doc_url doc) covid useful rumor icountry etopics notes_
                   path_ now s)), Raise (KeyError "orig")).
Proof.
  intros R Hd Hn.
  destruct (@new_etopics_from_ok K etopics [] R) as [t Ht].
  pose proof (update_page_found (doc_url doc) covid useful rumor icountry etopics notes_
                path_ now s t Ht) as Hf.
  rewrite Hn in Hf.
  unfold upsert_page. rewrite Hd. unfold store_page. rewrite Hf. reflexivity.
Qed.

End CorrectionCompose.

Lemma sample_resolves : resolves Sample.K ["X"; "Y"].
Proof. intros e [<-|[<-|[]]]; eexists; eexists; reflexivity. Qed.

Lemma sample_ingested_page :
  exists e o,
    Mongo.find_one "A" (pages SampleRun.ingested) = Some e /\
    orig e = Some o /\ orig_timestamp o = Sample.t1.
Proof. eexists. eexists. split; [reflexivity|]. split; reflexivity. Qed.

(** An instance of X4: the correction of a url that is not stored. *)
Lemma update_page_unique_urls_witness :
  unique_urls (pages Sample.empty_store) /\
  unique_urls (pages (fst (SampleRun.corrected Sample.empty_store "now"))).
Proof.
  assert (N : unique_urls (pages Sample.empty_store)) by constructor.
  split; [exact N|].
  exact (update_page_unique_urls Sample.K "A" true true false "us" ["X"; "Y"] "note"
           "log.jsonl" "now" Sample.empty_store N).
Defined.

(** An instance of X5: the correction of the ingested page [A]. *)
Lemma update_page_frame_witness :
  exists e p,
    Mongo.find_one "A" (pages SampleRun.ingested) = Some e /\
    Mongo.find_one "A" (pages (fst (SampleRun.corrected SampleRun.ingested "now")))
    = Some p /\
    same_ingested e p /\
    dget "other.jsonl" (files (fst (SampleRun.corrected SampleRun.ingested "now")))
    = dget "other.jsonl" (files SampleRun.ingested).
Proof.
  destruct sample_ingested_page as (e & o & He & _).
  destruct (update_page_frame Sample.K "A" true true false "us" ["X"; "Y"] "note"
              "log.jsonl" "now" SampleRun.ingested) as (_ & H2 & _ & H4).
  destruct (H2 e He) as (p & Hp & Hs).
  exists e, p. split; [exact He|]. split; [exact Hp|]. split; [exact Hs|].
  apply H4. discriminate.
Defined.

(** An instance of X6: the sample correction, twice. *)
Lemma update_page_twice_witness :
  resolves Sample.K ["X"; "Y"] /\
  exists u1 u2 s1 s2,
    SampleRun.corrected Sample.empty_store "t1" = (s1, Ok u1) /\
    SampleRun.corrected s1 "t2" = (s2, Ok u2) /\
    pages s2 = pages s1 /\
    dget "log.jsonl" (files s2) = Some [u1; u2].
Proof.
  split; [exact sample_resolves|].
  destruct (update_page_twice Sample.K "A" true true false "us" ["X"; "Y"] "note"
              "log.jsonl" "t1" "t2" Sample.empty_store sample_resolves)
    as [_ H].
  destruct (H eq_refl) as (u1 & u2 & s1 & s2 & H1 & H2 & H3 & H4 & _).
  exists u1, u2, s1, s2. repeat split; assumption.
Defined.

(** An instance of X7: the page [A] ingested at [t1] and corrected, then
    ingested again at [t2]. *)
Lemma ingestion_after_correction_witness :
  exists d,
    build_page Sample.K Sample.iso (Sample.doc "A" "u" Sample.t2) = Ok (Some d) /\
    Mongo.find_one "A"
      (fst (upsert_page Sample.K Sample.iso (Sample.doc "A" "u" Sample.t2)
              (pages (fst (SampleRun.corrected SampleRun.ingested "now")))))
    = Some d /\
    is_checked d = 0%Z.
Proof.
  destruct (build_page_accepts Sample.K Sample.iso (Sample.doc "A" "u" Sample.t2))
    as [d Hd]; try discriminate.
  destruct sample_ingested_page as (e & o & He & Ho & Hts).
  destruct (ingestion_after_correction Sample.K Sample.iso true true false "us"
              ["X"; "Y"] "note" "log.jsonl" "now" SampleRun.ingested
              (Sample.doc "A" "u" Sample.t2) d e o sample_resolves Hd He Ho)
    as (p & _ & _ & _ & Hnew & _).
  exists d. split; [exact Hd|]. apply Hnew. rewrite Hts. reflexivity.
Defined.

(** An instance of X8: the url [A] corrected on the empty store, then
    ingested. *)
Lemma ingestion_after_created_witness :
  exists d,
    build_page Sample.K Sample.iso (Sample.doc "A" "t" Sample.t1) = Ok (Some d) /\
    snd (upsert_page Sample.K Sample.iso (Sample.doc "A" "t" Sample.t1)
           (pages (fst (SampleRun.corrected Sample.empty_store "now"))))
    = Raise (KeyError "orig").
Proof.
  destruct (build_page_accepts Sample.K Sample.iso (Sample.doc "A" "t" Sample.t1))
    as [d Hd]; try discriminate.
  exists d. split; [exact Hd|].
  exact (f_equal snd
           (ingestion_after_created Sample.K Sample.iso true true false "us" ["X"; "Y"]
              "note" "log.jsonl" "now" Sample.empty_store (Sample.doc "A" "t" Sample.t1) d
              sample_resolves Hd eq_refl)).
Defined.

(** An instance of X3: the external topic [nope] is in no table. *)
Lemma update_page_raises_witness :
  update_page Sample.K "A" true true false "us" ["X"; "nope"] "note" "log.jsonl" "now"
    Sample.empty_store
  = (Sample.empty_store, Raise (KeyError "nope")).
Proof.
  destruct (update_page_raises Sample.K "A" true true false "us" ["X"; "nope"] "note"
              "log.jsonl" "now" Sample.empty_store) as (_ & H & _).
  destruct H as (Hs & ex & Hex & He).
  { exists "nope". split; [simpl; auto | left; reflexivity]. }
  rewrite (surjective_pairing (update_page _ _ _ _ _ _ _ _ _ _ _)), Hs, Hex.
  destruct He as [(e & Hin & Hn & ->)|(e & Hin & Hn & _)].
  - destruct Hin as [<-|[<-|[]]]; [discriminate Hn | reflexivity].
  - destruct Hin as [<-|[<-|[]]]; discriminate Hn.
Defined.

(** ** Page reshaping, continued *)

Section ViewFacts.

Variable K : constants.

Lemma lang_key_inv (A : Type) (lang suffix : string) (ja en : option A) (a : A) :
  lang_key lang suffix ja en = Ok a ->
  (lang = "ja" /\ ja = Some a) \/ (lang = "en" /\ en = Some a).
Proof.
  unfold lang_key.
  destruct (String.eqb lang "ja") eqn:Ej.
  - apply String.eqb_eq in Ej. destruct ja; [|discriminate].
    intros H. injection H as <-. now left.
  - destruct (String.eqb lang "en") eqn:Ee; [|discriminate].
    apply String.eqb_eq in Ee. destruct en; [|discriminate].
    intros H. injection H as <-. now right.
Qed.

Lemma del_inv (A : Type) (key : string) (field : option A) (u : unit) :
  del key field = Ok u -> field <> None.
Proof. destruct field; simpl; discriminate. Qed.

Lemma traverse_inv (A B : Type) (f : A -> result B) (l : list A) (bs : list B) :
  traverse f l = Ok bs <-> Forall2 (fun a b => f a = Ok b) l bs.
Proof.
  revert bs. induction l as [|a l IH]; intros bs; simpl.
  - split; [intros H; injection H as <-; constructor | intros H; now inversion H].
  - destruct (f a) as [b|e] eqn:Ha; simpl.
    + destruct (traverse f l) as [bs'|e] eqn:Hl; simpl.
      * split.
        -- intros H. injection H as <-. constructor; [exact Ha | now apply IH].
        -- intros H. inversion H as [|? b' ? bs'' Hb Hr]; subst.
           apply IH in Hr. congruence.
      * split; [discriminate|].
        intros H. inversion H as [|? b' ? bs'' Hb Hr]; subst.
        apply IH in Hr. discriminate.
    + split; [discriminate|].
      intros H. inversion H; subst. congruence.
Qed.

(** A comprehension raises exactly when one of its elements does. *)
Lemma traverse_raise (A B : Type) (f : A -> result B) (l : list A) :
  (exists e, traverse f l = Raise e) <-> exists a, In a l /\ exists e, f a = Raise e.
Proof.
  induction l as [|a l IH]; simpl.
  - split; [intros [e H]; discriminate | intros (a & [] & _)].
  - destruct (f a) as [b|e] eqn:Ha; simpl.
    + destruct (traverse f l) as [bs|e] eqn:Hl; simpl.
      * split; [intros [e H]; discriminate|].
        intros (a' & [<-|Hin] & e & He); [congruence|].
        destruct (proj2 IH) as [e' He']; [|discriminate].
        exists a'. split; [exact Hin | now exists e].
      * split; [|intros _; now exists e].
        intros _. destruct (proj1 IH) as (a' & Hin & He); [now exists e|].
        exists a'. split; [now right | exact He].
    + split; [|intros _; now exists e].
      intros _. exists a. split; [now left | now exists e].
Qed.

(** A view is of a page with both translated titles, and has its url. *)
Lemma reshape_page_keys (p : page) (lang : string) (v : page_view) :
  reshape_page K p lang = Ok v ->
  ja_translated p <> None /\ en_translated p <> None /\ v_url v = url p.
Proof.
  intros H. unfold reshape_page in H.
  destruct (traverse (reshape_topic K p lang) (dkeys (topics p))) as [ts|];
    cbn [bind] in H; [|discriminate H].
  destruct (lang_key lang "_translated" (ja_translated p) (en_translated p)) as [tr|];
    cbn [bind] in H; [|discriminate H].
  destruct (lang_key lang "_domain_label" (ja_domain_label p) (en_domain_label p))
    as [dl|]; cbn [bind] in H; [|discriminate H].
  destruct (domain p) as [dom|]; cbn [bind] in H; [|discriminate H].
  destruct (del "ja_snippets" (ja_snippets p)); cbn [bind] in H; [|discriminate H].
  destruct (del "en_snippets" (en_snippets p)); cbn [bind] in H; [|discriminate H].
  destruct (del "ja_translated" (ja_translated p)) eqn:Dj; cbn [bind] in H;
    [|discriminate H].
  destruct (del "en_translated" (en_translated p)) eqn:De; cbn [bind] in H;
    [|discriminate H].
  destruct (del "ja_domain_label" (ja_domain_label p)); cbn [bind] in H; [|discriminate H].
  destruct (del "en_domain_label" (en_domain_label p)); cbn [bind] in H; [|discriminate H].
  injection H as <-. simpl.
  split; [exact (del_inv _ _ _ _ Dj)|]. split; [exact (del_inv _ _ _ _ De) | reflexivity].
Qed.

(** X9. The view of a page, when [reshape_page] returns one.  The
    language is [ja] or [en]; the page has both translated titles, both
    domain labels, both snippet maps and a domain (the keys of the other
    language are deleted, so they must be there); [translated] and
    [domain_label] are those of the language; the other keys are passed
    on; and the topics are listed in the order of the stored topics, each
    with its stored relevance, its snippet in the language and the name
    the taxonomy gives it in the language. *)
Theorem reshape_page_view (p : page) (lang : string) (v : page_view) :
  reshape_page K p lang = Ok v ->
  (lang = "ja" \/ lang = "en") /\
  (exists tj te dj de sj se,
     ja_translated p = Some tj /\ en_translated p = Some te /\
     ja_domain_label p = Some dj /\ en_domain_label p = Some de /\
     ja_snippets p = Some sj /\ en_snippets p = Some se /\
     v_translated v = (if String.eqb lang "ja" then tj else te) /\
     v_domain_label v = (if String.eqb lang "ja" then dj else de) /\
     Forall2
       (fun itopic tv =>
          dget itopic (topics p) = Some (relatedness tv) /\
          dget itopic (if String.eqb lang "ja" then sj else se) = Some (snippet tv) /\
          exists etopic,
            dget itopic (ITOPIC_ETOPIC_MAP K) = Some etopic /\
            Dict.get pair_eqb (etopic, lang) (ETOPIC_TRANS_MAP K) = Some (name tv))
       (dkeys (topics p)) (v_topics v)) /\
  domain p = Some (v_domain v) /\
  v_url v = url p /\ v_country v = country p /\
  v_displayed_country v = displayed_country p /\ v_orig v = orig p /\
  v_is_checked v = is_checked p /\ v_is_about_COVID_19 v = is_about_COVID_19 p /\
  v_is_useful v = is_useful p /\ v_is_clear v = is_clear p.
Proof.
  intros H. unfold reshape_page in H.
  destruct (traverse (reshape_topic K p lang) (dkeys (topics p))) as [ts|] eqn:Ht;
    simpl in H; [|discriminate H].
  destruct (lang_key lang "_translated" (ja_translated p) (en_translated p)) as [tr|] eqn:Htr;
    simpl in H; [|discriminate H].
  destruct (lang_key lang "_domain_label" (ja_domain_label p) (en_domain_label p))
    as [dl|] eqn:Hdl; simpl in H; [|discriminate H].
  destruct (domain p) as [dom|] eqn:Hdom; simpl in H; [|discriminate H].
  destruct (ja_snippets p) as [sj|] eqn:Hsj; simpl in H; [|discriminate H].
  destruct (en_snippets p) as [se|] eqn:Hse; simpl in H; [|discriminate H].
  destruct (ja_translated p) as [tj|] eqn:Htj; simpl in H; [|discriminate H].
  destruct (en_translated p) as [te|] eqn:Hte; simpl in H; [|discriminate H].
  destruct (ja_domain_label p) as [dj|] eqn:Hdj; simpl in H; [|discriminate H].
  destruct (en_domain_label p) as [de|] eqn:Hde; simpl in H; [|discriminate H].
  injection H as <-. simpl.
  assert (Hl : lang = "ja" \/ lang = "en").
  { destruct (lang_key_inv _ _ _ _ _ _ Htr) as [[E _]|[E _]]; auto. }
  split; [exact Hl|]. split; [|repeat split].
  exists tj, te, dj, de, sj, se. repeat split.
  - destruct (lang_key_inv _ _ _ _ _ _ Htr) as [[-> E]|[-> E]]; simpl; congruence.
  - destruct (lang_key_inv _ _ _ _ _ _ Hdl) as [[-> E]|[-> E]]; simpl; congruence.
  - apply traverse_inv in Ht. revert Ht. apply Forall2_impl.
    intros itopic tv Hv. unfold reshape_topic, getitem in Hv.
    rewrite Hsj, Hse in Hv.
    destruct (dget itopic (ITOPIC_ETOPIC_MAP K)) as [etopic|] eqn:He; cbn [bind] in Hv;
      [|discriminate Hv].
    destruct (Dict.get pair_eqb (etopic, lang) (ETOPIC_TRANS_MAP K)) as [n|] eqn:Hn;
      cbn [bind] in Hv; [|discriminate Hv].
    destruct (lang_key lang "_snippets" (Some sj) (Some se)) as [sn|] eqn:Hsn;
      cbn [bind] in Hv; [|discriminate Hv].
    destruct (dget itopic sn) as [sp|] eqn:Hsp; cbn [bind] in Hv; [|discriminate Hv].
    destruct (dget itopic (topics p)) as [r|] eqn:Hr; cbn [bind] in Hv; [|discriminate Hv].
    injection Hv as <-. simpl. split; [reflexivity|]. split.
    + destruct (lang_key_inv _ _ _ _ _ _ Hsn) as [[-> E]|[-> E]]; simpl; congruence.
    + exists etopic. split; [reflexivity | exact Hn].
Qed.

(** A page that lacks a translated title cannot be reshaped. *)
Lemma reshape_page_untranslated (p : page) (lang : string) :
  ja_translated p = None \/ en_translated p = None ->
  exists ex, reshape_page K p lang = Raise ex.
Proof.
  intros Hn. destruct (reshape_page K p lang) as [v|ex] eqn:H; [|now exists ex].
  destruct (reshape_page_keys p lang v H) as (Hj & He & _).
  destruct Hn; contradiction.
Qed.

End ViewFacts.

(** ** Listings *)

Section ListingFacts.

Variable K : constants.
Variable mongo_sort : sort_t -> list page -> list page.

Lemma get_pages_inv (itopics icountries : list string) (start limit : nat)
    (lang : string) (c : collection) (l : list page_view) :
  get_pages K mongo_sort itopics icountries start limit lang c = Ok l ->
  Forall2 (fun p v => reshape_page K p lang = Ok v)
    (window mongo_sort itopics icountries start limit c) l.
Proof. intros H. apply traverse_inv. exact H. Qed.

Lemma Forall2_urls (lang : string) (ps : list page) (vs : list page_view) :
  Forall2 (fun p v => reshape_page K p lang = Ok v) ps vs ->
  map v_url vs = map url ps.
Proof.
  induction 1 as [|p v ps vs Hv _ IH]; simpl; [reflexivity|].
  destruct (reshape_page_keys K p lang v Hv) as (_ & _ & Hu).
  now rewrite Hu, IH.
Qed.

(** X10. What [get_pages] lists.  When it returns, its views are those of
    the pages of the cursor after the skip and the limit, one for each
    page and in the same order, so with the same urls.  It raises exactly
    when [reshape_page] raises on one of these pages: a single page that
    cannot be reshaped fails the whole listing. *)
Theorem get_pages_window (itopics icountries : list string) (start limit : nat)
    (lang : string) (c : collection) :
  (forall l, get_pages K mongo_sort itopics icountries start limit lang c = Ok l ->
     Forall2 (fun p v => reshape_page K p lang = Ok v)
       (window mongo_sort itopics icountries start limit c) l /\
     map v_url l = map url (window mongo_sort itopics icountries start limit c) /\
     List.length l = List.length (window mongo_sort itopics icountries start limit c)) /\
  ((exists ex, get_pages K mongo_sort itopics icountries start limit lang c = Raise ex) <->
   exists p, In p (window mongo_sort itopics icountries start limit c) /\
             exists ex, reshape_page K p lang = Raise ex).
Proof.
  split.
  - intros l H. apply get_pages_inv in H. split; [exact H|]. split.
    + exact (Forall2_urls lang _ _ H).
    + symmetry. exact (Forall2_length H).
  - apply (traverse_raise page page_view (fun p => reshape_page K p lang)).
Qed.

(** X11. Pagination of [get_pages].  A start at or beyond the number of
    selected pages gives the empty list, not an error.  When [get_pages]
    returns, the number of its views is the number of selected pages
    after the start, capped by the limit when the limit is not 0 (a limit
    of 0 caps nothing); and for a limit that is not 0 the views are those
    of the pages [start] to [start + limit - 1] of the cursor. *)
Theorem get_pages_pagination (itopics icountries : list string) (start limit : nat)
    (lang : string) (c : collection) :
  ((List.length (find_ mongo_sort (get_filter itopics icountries) (get_sort itopics) c)
    <= start)%nat ->
   get_pages K mongo_sort itopics icountries start limit lang c = Ok []) /\
  (forall l, get_pages K mongo_sort itopics icountries start limit lang c = Ok l ->
     List.length l
     = (if (limit =? 0)%nat
        then (List.length
                (find_ mongo_sort (get_filter itopics icountries) (get_sort itopics) c)
              - start)%nat
        else Nat.min limit
               (List.length
                  (find_ mongo_sort (get_filter itopics icountries) (get_sort itopics) c)
                - start)%nat)) /\
  (forall l, get_pages K mongo_sort itopics icountries start limit lang c = Ok l ->
     limit <> 0%nat ->
     map v_url l
     = map url
         (firstn limit
            (skipn start
               (find_ mongo_sort (get_filter itopics icountries) (get_sort itopics) c)))).
Proof.
  split; [|split].
  - intros Hle. unfold get_pages, Query.skip_limit.
    rewrite (skipn_all2 _ Hle).
    destruct (limit =? 0)%nat; [reflexivity|]. now rewrite firstn_nil.
  - intros l H. apply get_pages_inv in H. rewrite <- (Forall2_length H).
    unfold window, Query.skip_limit.
    destruct (limit =? 0)%nat.
    + apply length_skipn.
    + now rewrite length_firstn, length_skipn.
  - intros l H Hl. apply get_pages_inv in H.
    rewrite (Forall2_urls lang _ _ H).
    unfold window, Query.skip_limit.
    apply Nat.eqb_neq in Hl. now rewrite Hl.
Qed.

(** X12. The pages [get_filter] selects: a page matches the filter
    exactly when it is marked as about the pandemic, when it has a score
    (any score) for one of the internal topics if topics are given, and
    when its displayed country (not its raw country) is one of the
    internal countries if countries are given. *)
Theorem get_filter_selects (itopics icountries : list string) (p : page) :
  Query.matches (get_filter itopics icountries) p = true <->
  is_about_COVID_19 p = 1%Z /\
  (itopics = [] \/ exists t, In t itopics /\ dget t (topics p) <> None) /\
  (icountries = [] \/ In (displayed_country p) icountries).
Proof.
  rewrite matches_get_filter, !andb_true_iff, !orb_true_iff.
  unfold is_pandemic, in_countries, has_topic.
  rewrite Z.eqb_eq, in_list_In, existsb_exists.
  assert (Hn : forall (A : Type) (l : list A), negb (nonempty l) = true <-> l = []).
  { intros A [|a l]; simpl; split; congruence. }
  rewrite !Hn.
  assert (Hm : (exists t, In t itopics /\ dmem t (topics p) = true) <->
               (exists t, In t itopics /\ dget t (topics p) <> None)).
  { split; intros (t & Hin & H); exists t; split; try exact Hin;
      unfold dmem, Dict.mem, dget in *;
      destruct (Dict.get String.eqb t (topics p)); congruence. }
  rewrite Hm. tauto.
Qed.

End ListingFacts.

(** An instance of X10 and of X11 on the sample collection: one page is
    listed for a start of 0, and none for a start of 1. *)
Lemma get_pages_window_witness :
  exists l,
    get_pages Sample.K Sample.sort ["x"] ["jp"] 0 10 "ja" Sample.one_page = Ok l /\
    map v_url l = ["B"].
Proof.
  destruct (get_pages Sample.K Sample.sort ["x"] ["jp"] 0 10 "ja" Sample.one_page)
    as [l|ex] eqn:H; [|vm_compute in H; discriminate H].
  exists l. split; [reflexivity|].
  destruct (get_pages_window Sample.K Sample.sort ["x"] ["jp"] 0 10 "ja" Sample.one_page)
    as [Hok _].
  exact (proj1 (proj2 (Hok l H))).
Defined.

Lemma get_pages_pagination_witness :
  (List.length
     (find_ Sample.sort (get_filter ["x"] ["jp"]) (get_sort ["x"]) Sample.one_page)
   <= 1)%nat /\
  get_pages Sample.K Sample.sort ["x"] ["jp"] 1 10 "ja" Sample.one_page = Ok [].
Proof.
  assert (H : (List.length
                 (find_ Sample.sort (get_filter ["x"] ["jp"]) (get_sort ["x"])
                    Sample.one_page) <= 1)%nat) by (vm_compute; apply le_n).
  split; [exact H|].
  exact (proj1 (get_pages_pagination Sample.K Sample.sort ["x"] ["jp"] 1 10 "ja"
                  Sample.one_page) H).
Defined.

(** An instance of X12: a page of the country [jp] with a score for [x]
    matches the filter of the topic [x] and the country [jp]. *)
Lemma get_filter_selects_witness :
  Query.matches (get_filter ["x"] ["jp"]) (Sample.page_of "example.com" 0) = true.
Proof.
  apply (get_filter_selects ["x"] ["jp"]).
  split; [reflexivity|]. split.
  - right. exists "x". split; [now left | discriminate].
  - right. now left.
Defined.

Section PipelineFacts.

Variable K : constants.
Variable iso : string -> option string.
Variable mongo_sort : sort_t -> list page -> list page.

(** X13. A correction of a url that is not stored creates a page that
    cannot be served: [reshape_page] raises on it in every language, so
    [get_pages] raises whenever that page is among the pages of its
    window. *)
Theorem created_page_unlistable (url_ : string) (covid useful rumor : bool)
    (icountry : string) (etopics : list string) (notes_ path_ now : string) (s : store) :
  resolves K etopics ->
  Mongo.find_one url_ (pages s) = None ->
  exists p,
    Mongo.find_one url_
      (pages (fst (update_page K url_ covid useful rumor icountry etopics notes_ path_
                     now s))) = Some p /\
    (forall lang, exists ex, reshape_page K p lang = Raise ex) /\
    (forall itopics icountries start limit lang c,
       In p (window mongo_sort itopics icountries start limit c) ->
       exists ex,
         get_pages K mongo_sort itopics icountries start limit lang c = Raise ex).
Proof.
  intros R Hn. destruct (@new_etopics_from_ok K etopics [] R) as [d Hd].
  pose proof (update_page_found K url_ covid useful rumor icountry etopics notes_ path_ now s
                d Hd) as Hf.
  rewrite Hn in Hf.
  assert (Hr : forall lang, exists ex,
             reshape_page K
               (created_page url_ (flag covid) (flag useful) (flag rumor) icountry d) lang
             = Raise ex).
  { intros lang. apply reshape_page_untranslated. now left. }
  eexists. split; [exact Hf|]. split; [exact Hr|].
  intros itopics icountries start limit lang c Hin.
  apply (traverse_raise page page_view (fun p => reshape_page K p lang)).
  eexists. split; [exact Hin | apply Hr].
Qed.

Lemma StronglySorted_filter (A : Type) (R : A -> A -> Prop) (f : A -> bool) (l : list A) :
  StronglySorted R l -> StronglySorted R (filter f l).
Proof.
  induction 1 as [|a l Hs IH Ha]; simpl; [constructor|].
  destruct (f a); [|exact IH].
  constructor; [exact IH|].
  rewrite Forall_forall in *. intros x Hx. apply Ha.
  now apply filter_In in Hx as [Hx _].
Qed.

(** X14. The topics [upsert_page] keeps are stored in the order of
    decreasing score, each topic once. *)
Theorem select_topics_sorted (cb : dict Q) :
  NoDup (dkeys cb) ->
  StronglySorted desc (select_topics K cb) /\ NoDup (dkeys (select_topics K cb)).
Proof.
  intros N. rewrite (select_topics_eq K cb N).
  pose proof (sorted_desc_sorted (filter (candidate K) cb)) as Hs.
  assert (Nk : NoDup (dkeys (sorted_desc (filter (candidate K) cb)))).
  { unfold dkeys, Dict.keys.
    apply (Permutation_NoDup
             (Permutation_map fst (Permutation_sym (sorted_desc_perm _)))).
    now apply NoDup_keys_filter. }
  destruct (sorted_desc (filter (candidate K) cb)) as [|top rest];
    [split; constructor|].
  inversion Hs as [|? ? Hs' Hd]; subst.
  unfold dkeys, Dict.keys in Nk. simpl in Nk. inversion Nk as [|? ? Hn Nk']; subst.
  split.
  - constructor; [now apply StronglySorted_filter|].
    rewrite Forall_forall in *. intros x Hx. apply Hd.
    now apply filter_In in Hx as [Hx _].
  - unfold dkeys, Dict.keys. simpl. constructor.
    + intros Hin. apply Hn. apply in_map_iff in Hin as (y & E & Hy).
      apply filter_In in Hy as [Hy _]. rewrite <- E. now apply in_map.
    + now apply NoDup_keys_filter.
Qed.

Lemma build_page_labels (doc : document) (d : page) :
  build_page K iso doc = Ok (Some d) ->
  domain d <> None /\ ja_domain_label d <> None /\ en_domain_label d <> None.
Proof.
  unfold build_page, getitem.
  destruct (PyStr.truthy (title (doc_orig doc))); simpl; [|discriminate].
  destruct (iso (timestamp (doc_orig doc))); simpl; [|discriminate].
  destruct (PyStr.truthy (title (doc_ja_translated doc))); simpl; [|discriminate].
  destruct (PyStr.truthy (title (doc_en_translated doc))); simpl; [|discriminate].
  destruct (dget "is_useful" (doc_classes_bert doc)); simpl; [|discriminate].
  destruct (dget "is_about_false_rumor" (doc_classes_bert doc)); simpl; [|discriminate].
  intros H. injection H as <-. simpl. repeat split; discriminate.
Qed.

(** X15. Every page [upsert_page] builds can be served: when the
    taxonomy gives each internal topic an external topic and a name in
    the language, [reshape_page] returns a view of the page built from a
    document, for the language [ja] and for the language [en]. *)
Theorem ingested_page_reshapable (doc : document) (d : page) (lang : string) :
  build_page K iso doc = Ok (Some d) ->
  NoDup (dkeys (doc_classes_bert doc)) ->
  lang = "ja" \/ lang = "en" ->
  names_topics K lang ->
  exists v, reshape_page K d lang = Ok v.
Proof.
  intros Hd N Hl Hnames.
  destruct (build_page_inv K iso doc Hd)
    as (_ & _ & _ & simple & useful & rumor & _ & _ & _ & _ & _ & Hj & He & Ht & Hsj & Hse & _).
  destruct (build_page_labels doc d Hd) as (Hdom & Hdj & Hde).
  apply reshape_page_ok. split; [exact Hl|].
  rewrite Hj, He. repeat (split; [assumption || discriminate|]).
  eexists. eexists. split; [exact Hsj|]. split; [exact Hse|].
  intros itopic Hin. rewrite Ht in Hin.
  assert (Hi : In itopic (ITOPICS K)).
  { rewrite (select_topics_eq K _ N) in Hin.
    apply in_map_iff in Hin as ([k sc] & E & Hkv). simpl in E. subst k.
    assert (Hs : In (itopic, sc)
                   (sorted_desc (filter (candidate K) (doc_classes_bert doc)))).
    { destruct (sorted_desc (filter (candidate K) (doc_classes_bert doc)))
        as [|top rest]; [destruct Hkv|].
      destruct Hkv as [<-|H]; [now left|].
      right. now apply filter_In in H as [H _]. }
    apply (Permutation_in _ (sorted_desc_perm _)) in Hs.
    apply filter_In in Hs as [_ Hc]. unfold candidate in Hc.
    apply andb_true_iff in Hc as [Hc _]. now apply in_list_In in Hc. }
  destruct (Hnames itopic Hi) as (e & H1 & H2).
  exists e. split; [exact H1|]. split; [exact H2|].
  unfold reshape_snippets. rewrite !dget_reshape_loop.
  apply in_list_In in Hi. rewrite Hi. split; discriminate.
Qed.

End PipelineFacts.

Lemma sample_scores_dict : NoDup (dkeys Sample.scores).
Proof. repeat constructor; simpl; intuition discriminate. Qed.

Lemma sample_names_topics : names_topics Sample.K "en".
Proof.
  intros t [<-|[<-|[<-|[]]]]; eexists; (split; [reflexivity | discriminate]).
Qed.

(** An instance of X13: after the correction of the url [A] on the empty
    store, the listing of the country [us] raises. *)
Lemma created_page_unlistable_witness :
  exists ex,
    get_pages Sample.K Sample.sort [] ["us"] 0 10 "ja"
      (pages (fst (SampleRun.corrected Sample.empty_store "now"))) = Raise ex.
Proof.
  destruct (created_page_unlistable Sample.K Sample.sort "A" true true false "us"
              ["X"; "Y"] "note" "log.jsonl" "now" Sample.empty_store sample_resolves
              eq_refl) as (p & Hp & _ & Hg).
  apply (Hg [] ["us"] 0%nat 10%nat "ja"
           (pages (fst (SampleRun.corrected Sample.empty_store "now")))).
  vm_compute in Hp. injection Hp as <-. left. reflexivity.
Defined.

(** An instance of X14 on the sample scores. *)
Lemma select_topics_sorted_witness :
  NoDup (dkeys Sample.scores) /\
  StronglySorted desc (select_topics (Sample.K_threshold (55 # 100)) Sample.scores).
Proof.
  split; [exact sample_scores_dict|].
  exact (proj1 (select_topics_sorted (Sample.K_threshold (55 # 100)) Sample.scores
                  sample_scores_dict)).
Defined.

(** An instance of X15: the page of the sample document, in English. *)
Lemma ingested_page_reshapable_witness :
  exists d v,
    build_page Sample.K Sample.iso (Sample.doc "A" "t" Sample.t1) = Ok (Some d) /\
    reshape_page Sample.K d "en" = Ok v.
Proof.
  destruct (build_page_accepts Sample.K Sample.iso (Sample.doc "A" "t" Sample.t1))
    as [d Hd]; try discriminate.
  destruct (ingested_page_reshapable Sample.K Sample.iso (Sample.doc "A" "t" Sample.t1)
              d "en" Hd sample_scores_dict (or_intror eq_refl) sample_names_topics)
    as [v Hv].
  exists d, v. split; assumption.
Defined.

(** ** Nested maps *)

Section TableFacts.

Variables A B : Type.

(** The value of a map built over a table, key by key. *)
Lemma entries_of_dget (table : dict A) (R : A -> B -> Prop) (d : dict B)
    (k : string) (b : B) :
  entries_of table R d ->
  dget k d = Some b ->
  k <> "all" /\ exists x, dget k table = Some x /\ R x b.
Proof.
  unfold entries_of, dget. revert d.
  induction table as [|[k0 x0] table IH]; simpl; intros d H Hk.
  - inversion H; subst. discriminate Hk.
  - unfold not_all in H at 1. simpl in H.
    destruct (String.eqb k0 "all") eqn:E0; simpl in H.
    + destruct (IH d H Hk) as (Hne & x & Hx & HR).
      split; [exact Hne|]. exists x. split; [|exact HR].
      apply String.eqb_eq in E0. subst k0.
      apply String.eqb_neq in Hne. now rewrite Hne.
    + inversion H as [|? [k' b'] ? d' [Ek HR] H']; subst. simpl in *. subst k'.
      destruct (String.eqb k k0) eqn:E.
      * injection Hk as ->. apply String.eqb_eq in E. subst k0.
        apply String.eqb_neq in E0. split; [exact E0|]. now exists x0.
      * exact (IH d' H' Hk).
Qed.

Lemma entries_of_find (table : dict A) (R : A -> B -> Prop) (d : dict B)
    (k : string) (x : A) :
  entries_of table R d ->
  k <> "all" -> dget k table = Some x ->
  exists b, dget k d = Some b /\ R x b.
Proof.
  unfold entries_of, dget. revert d.
  induction table as [|[k0 x0] table IH]; simpl; intros d H Hne Hk; [discriminate Hk|].
  unfold not_all in H at 1. simpl in H.
  destruct (String.eqb k0 "all") eqn:E0; simpl in H.
  - destruct (String.eqb k k0) eqn:E.
    + apply String.eqb_eq in E, E0. congruence.
    + exact (IH d H Hne Hk).
  - inversion H as [|? [k' b'] ? d' [Ek HR] H']; subst. simpl in *. subst k'.
    destruct (String.eqb k k0) eqn:E.
    + injection Hk as ->. now exists b'.
    + exact (IH d' H' Hne Hk).
Qed.

End TableFacts.

Section TransposeFacts.

Variables A B C : Type.

(** The two nested loops over two tables, as a relation between the
    tables and the nested map. *)
Lemma nested_loop_spec (T1 : dict A) (T2 : dict B) (f : A -> B -> result C)
    (d : dict (dict C)) :
  NoDup (dkeys T1) -> NoDup (dkeys T2) ->
  for_items T1 (fun _ x => for_items T2 (fun _ y => f x y) []) [] = Ok d <->
  entries_of T1 (fun x inner => entries_of T2 (fun y l => f x y = Ok l) inner) d.
Proof.
  intros N1 N2.
  rewrite (@for_items_spec _ _ (fun x => for_items T2 (fun _ y => f x y) []) T1 d N1).
  split; apply entries_of_impl; intros x inner H;
    apply (@for_items_spec _ _ (fun y => f x y) T2 inner N2); exact H.
Qed.

(** An entry of a nested map is an entry of the nested map built the
    other way round. *)
Lemma nested_entry_transposed (T1 : dict A) (T2 : dict B) (R : A -> B -> C -> Prop)
    (d1 : dict (dict C)) (d2 : dict (dict C)) (k1 k2 : string) (l : C) :
  (forall x y l1 l2, R x y l1 -> R x y l2 -> l1 = l2) ->
  entries_of T1 (fun x inner => entries_of T2 (fun y l' => R x y l') inner) d1 ->
  entries_of T2 (fun y inner => entries_of T1 (fun x l' => R x y l') inner) d2 ->
  (exists inner, dget k1 d1 = Some inner /\ dget k2 inner = Some l) ->
  exists inner, dget k2 d2 = Some inner /\ dget k1 inner = Some l.
Proof.
  intros Hfun H1 H2 (inner1 & Hd1 & Hi1).
  destruct (entries_of_dget _ _ T1 _ d1 k1 inner1 H1 Hd1) as (Hn1 & x & Hx & Hin1).
  destruct (entries_of_dget _ _ T2 _ inner1 k2 l Hin1 Hi1) as (Hn2 & y & Hy & HR).
  destruct (entries_of_find _ _ T2 _ d2 k2 y H2 Hn2 Hy) as (inner2 & Hd2 & Hin2).
  destruct (entries_of_find _ _ T1 _ inner2 k1 x Hin2 Hn1 Hx) as (l' & Hl' & HR').
  exists inner2. split; [exact Hd2|].
  now rewrite (Hfun x y l l' HR HR').
Qed.

(** When the nested map over the two tables exists, so does the one
    built the other way round. *)
Lemma nested_transposed_exists (T1 : dict A) (T2 : dict B) (R : A -> B -> C -> Prop)
    (d1 : dict (dict C)) :
  entries_of T1 (fun x inner => entries_of T2 (fun y l' => R x y l') inner) d1 ->
  exists d2, entries_of T2 (fun y inner => entries_of T1 (fun x l' => R x y l') inner) d2.
Proof.
  intros H1.
  apply entries_of_total. intros k2 y Hy Hn2.
  apply entries_of_total. intros k1 x Hx Hn1.
  assert (Hall : forall (T : dict A) (d : dict (dict C)),
            entries_of T (fun x inner => entries_of T2 (fun y l' => R x y l') inner) d ->
            In (k1, x) T ->
            exists inner, entries_of T2 (fun y l' => R x y l') inner).
  { unfold entries_of at 1. intros T. induction T as [|[k0 x0] T IH]; simpl; intros d H Hin;
      [destruct Hin|].
    unfold not_all in H at 1. simpl in H.
    destruct Hin as [E|Hin].
    - injection E as -> ->. apply String.eqb_neq in Hn1. rewrite Hn1 in H. simpl in H.
      inversion H as [|? [k' b'] ? d' [_ HR] _]; subst. now exists b'.
    - destruct (negb (String.eqb k0 "all")).
      + inversion H as [|? kb ? d' _ H']; subst. exact (IH d' H' Hin).
      + exact (IH d H Hin). }
  destruct (Hall T1 d1 H1 Hx) as [inner Hinner].
  assert (Hone : forall (T : dict B) (inner' : dict C),
            entries_of T (fun y l' => R x y l') inner' ->
            In (k2, y) T -> exists l, R x y l).
  { unfold entries_of. intros T. induction T as [|[k0 y0] T IH]; simpl; intros d H Hin;
      [destruct Hin|].
    unfold not_all in H at 1. simpl in H.
    destruct Hin as [E|Hin].
    - injection E as -> ->. apply String.eqb_neq in Hn2. rewrite Hn2 in H. simpl in H.
      inversion H as [|? [k' b'] ? d' [_ HR] _]; subst. now exists b'.
    - destruct (negb (String.eqb k0 "all")).
      + inversion H as [|? kb ? d' _ H']; subst. exact (IH d' H' Hin).
      + exact (IH d H Hin). }
  exact (Hone T2 inner Hinner Hy).
Qed.

End TransposeFacts.

(** ** [search] and [countries] *)

Section SearchFacts.

Variable K : constants.
Variable mongo_sort : sort_t -> list page -> list page.
Variable es_search : es_query -> list string.

(** The urls of the converted hits: the hits that are stored, in order. *)
Lemma convert_hits_urls (lang : string) (c : collection) (hits : list string)
    (vs : list page_view) :
  convert_hits_to_pages K lang c hits = Ok vs ->
  map v_url vs = filter (is_stored c) hits.
Proof.
  revert vs. induction hits as [|hit hits IH]; simpl; intros vs H.
  - injection H as <-. reflexivity.
  - unfold is_stored at 1.
    destruct (Mongo.find_one hit c) as [doc|] eqn:Hf; [|now apply IH].
    destruct (reshape_page K doc lang) as [v|] eqn:Hv; cbn [bind] in H; [|discriminate H].
    destruct (convert_hits_to_pages K lang c hits) as [vs'|]; cbn [bind] in H;
      [|discriminate H].
    injection H as <-. simpl. rewrite (IH vs' eq_refl).
    destruct (reshape_page_keys K doc lang v Hv) as (_ & _ & Hu).
    now rewrite Hu, (MongoFacts.find_one_url _ _ Hf).
Qed.

Lemma convert_hits_none_stored (lang : string) (c : collection) (hits : list string) :
  (forall h, In h hits -> is_stored c h = false) ->
  convert_hits_to_pages K lang c hits = Ok [].
Proof.
  induction hits as [|hit hits IH]; simpl; intros H; [reflexivity|].
  pose proof (H hit (or_introl eq_refl)) as Hh. unfold is_stored in Hh.
  destruct (Mongo.find_one hit c); [discriminate Hh|].
  apply IH. intros h Hin. apply H. now right.
Qed.

(** X16. [search] for a country.  The index is queried for the internal
    countries of the country code as it is given, with the text, the
    start and the limit; when [search] returns, it returns a page list
    whose urls are the urls of the hits that are stored, in the order of
    the hits; a hit whose url is not stored is skipped, so hits of which
    none is stored give the empty list, not an error. *)
Theorem search_country (ecountry : string) (start limit : nat) (lang query : string)
    (c : collection) :
  ecountry <> "" ->
  (forall r, search K es_search ecountry start limit lang query c = Ok r ->
     exists vs,
       r = Pages vs /\
       map v_url vs
       = filter (is_stored c)
           (es_search (get_es_query start limit query (icountries_of K ecountry)))) /\
  ((forall h,
      In h (es_search (get_es_query start limit query (icountries_of K ecountry))) ->
      is_stored c h = false) ->
   search K es_search ecountry start limit lang query c = Ok (Pages [])).
Proof.
  intros Hne. apply PyStrFacts.truthy_true_iff in Hne.
  unfold search. rewrite Hne. fold (icountries_of K ecountry). split.
  - intros r H.
    destruct (convert_hits_to_pages K lang c
                (es_search (get_es_query start limit query (icountries_of K ecountry))))
      as [vs|] eqn:Hc; cbn [bind] in H; [|discriminate H].
    injection H as <-. exists vs. split; [reflexivity|].
    exact (convert_hits_urls lang c _ vs Hc).
  - intros Hnone. now rewrite (convert_hits_none_stored lang c _ Hnone).
Qed.

(** X17. [search] without a country: it returns a map with one entry for
    each country of [ECOUNTRY_ICOUNTRIES_MAP] but [all], in the order of
    the table, holding the converted hits of the query for the internal
    countries of that country. *)
Theorem search_all_countries (start limit : nat) (lang query : string) (c : collection)
    (r : response) :
  NoDup (dkeys (ECOUNTRY_ICOUNTRIES_MAP K)) ->
  search K es_search "" start limit lang query c = Ok r <->
  exists d,
    r = PerKey d /\
    dkeys d = filter (fun k => negb (String.eqb k "all"))
                (dkeys (ECOUNTRY_ICOUNTRIES_MAP K)) /\
    entries_of (ECOUNTRY_ICOUNTRIES_MAP K)
      (fun icountries vs =>
         convert_hits_to_pages K lang c
           (es_search (get_es_query start limit query icountries)) = Ok vs)
      d.
Proof.
  intros N. unfold search. simpl. split.
  - intros H.
    destruct (for_items (ECOUNTRY_ICOUNTRIES_MAP K)
                (fun _ icountries =>
                   convert_hits_to_pages K lang c
                     (es_search (get_es_query start limit query icountries))) [])
      as [d|] eqn:E; cbn [bind] in H; [|discriminate H].
    injection H as <-.
    apply (@for_items_spec _ _
             (fun icountries =>
                convert_hits_to_pages K lang c
                  (es_search (get_es_query start limit query icountries)))
             (ECOUNTRY_ICOUNTRIES_MAP K) d N) in E.
    exists d. split; [reflexivity|]. split; [|exact E].
    exact (entries_of_keys E).
  - intros (d & -> & _ & H).
    apply (@for_items_spec _ _
             (fun icountries =>
                convert_hits_to_pages K lang c
                  (es_search (get_es_query start limit query icountries)))
             (ECOUNTRY_ICOUNTRIES_MAP K) d N) in H.
    now rewrite H.
Qed.

End SearchFacts.

Section CountriesFacts.

Variable K : constants.
Variable mongo_sort : sort_t -> list page -> list page.
Variable es_search : es_query -> list string.

Hypothesis topics_dict : NoDup (dkeys (ETOPIC_ITOPICS_MAP K)).
Hypothesis countries_dict : NoDup (dkeys (ECOUNTRY_ICOUNTRIES_MAP K)).

Lemma countries_both (ecountry etopic : string) (start limit : nat) (lang : string)
    (c : collection) :
  ecountry_ja K ecountry <> "" -> etopic_ja K etopic <> "" ->
  countries K mongo_sort ecountry etopic start limit lang c
  = (l <- get_pages K mongo_sort (itopics_of K (etopic_ja K etopic))
            (icountries_of K (ecountry_ja K ecountry)) start limit lang c ;;
     Ok (Pages l)).
Proof.
  intros Hc Ht. apply PyStrFacts.truthy_true_iff in Hc, Ht.
  unfold countries. fold (etopic_ja K etopic). fold (ecountry_ja K ecountry).
  now rewrite Hc, Ht.
Qed.

Lemma classes_both (etopic ecountry : string) (start limit : nat) (lang query : string)
    (c : collection) :
  etopic <> "search" ->
  etopic_ja K etopic <> "" -> ecountry_ja K ecountry <> "" ->
  classes K mongo_sort es_search etopic ecountry start limit lang query c
  = (l <- get_pages K mongo_sort (itopics_of K (etopic_ja K etopic))
            (icountries_of K (ecountry_ja K ecountry)) start limit lang c ;;
     Ok (Pages l)).
Proof.
  intros Hs Ht Hc. apply String.eqb_neq in Hs.
  apply PyStrFacts.truthy_true_iff in Hc, Ht.
  unfold classes. rewrite Hs. fold (etopic_ja K etopic). fold (ecountry_ja K ecountry).
  now rewrite Hc, Ht.
Qed.

Lemma countries_country_only (ecountry etopic : string) (start limit : nat)
    (lang : string) (c : collection) (r : response) :
  ecountry_ja K ecountry <> "" -> etopic_ja K etopic = "" ->
  countries K mongo_sort ecountry etopic start limit lang c = Ok r <->
  exists d, r = PerKey d /\
    entries_of (ETOPIC_ITOPICS_MAP K)
      (fun itopics l =>
         get_pages K mongo_sort itopics (icountries_of K (ecountry_ja K ecountry))
           start limit lang c = Ok l)
      d.
Proof.
  intros Hc Ht. apply PyStrFacts.truthy_true_iff in Hc.
  unfold countries. fold (etopic_ja K etopic). fold (ecountry_ja K ecountry).
  rewrite Hc, Ht. simpl. fold (icountries_of K (ecountry_ja K ecountry)).
  split.
  - intros H.
    destruct (for_items (ETOPIC_ITOPICS_MAP K)
                (fun _ itopics =>
                   get_pages K mongo_sort itopics
                     (icountries_of K (ecountry_ja K ecountry)) start limit lang c) [])
      as [d|] eqn:E; cbn [bind] in H; [|discriminate H].
    injection H as <-. exists d. split; [reflexivity|].
    exact (proj1 (@for_items_spec _ _
                    (fun itopics =>
                       get_pages K mongo_sort itopics
                         (icountries_of K (ecountry_ja K ecountry)) start limit lang c)
                    (ETOPIC_ITOPICS_MAP K) d topics_dict) E).
  - intros (d & -> & H).
    now rewrite (proj2 (@for_items_spec _ _
                          (fun itopics =>
                             get_pages K mongo_sort itopics
                               (icountries_of K (ecountry_ja K ecountry)) start limit
                               lang c)
                          (ETOPIC_ITOPICS_MAP K) d topics_dict) H).
Qed.

Lemma countries_nested (ecountry etopic : string) (start limit : nat)
    (lang : string) (c : collection) (r : response) :
  ecountry_ja K ecountry = "" ->
  countries K mongo_sort ecountry etopic start limit lang c = Ok r <->
  exists d, r = Nested d /\
    entries_of (ECOUNTRY_ICOUNTRIES_MAP K)
      (fun icountries inner =>
         entries_of (ETOPIC_ITOPICS_MAP K)
           (fun itopics l =>
              get_pages K mongo_sort itopics icountries start limit lang c = Ok l)
           inner)
      d.
Proof.
  intros Hc.
  unfold countries. fold (etopic_ja K etopic). fold (ecountry_ja K ecountry).
  rewrite Hc. simpl.
  split.
  - intros H.
    destruct (for_items (ECOUNTRY_ICOUNTRIES_MAP K)
                (fun _ icountries =>
                   for_items (ETOPIC_ITOPICS_MAP K)
                     (fun _ itopics =>
                        get_pages K mongo_sort itopics icountries start limit lang c) [])
                [])
      as [d|] eqn:E; cbn [bind] in H; [|discriminate H].
    injection H as <-. exists d. split; [reflexivity|].
    exact (proj1 (nested_loop_spec _ _ _ (ECOUNTRY_ICOUNTRIES_MAP K) (ETOPIC_ITOPICS_MAP K)
                    (fun icountries itopics =>
                       get_pages K mongo_sort itopics icountries start limit lang c)
                    d countries_dict topics_dict) E).
  - intros (d & -> & H).
    now rewrite (proj2 (nested_loop_spec _ _ _ (ECOUNTRY_ICOUNTRIES_MAP K)
                          (ETOPIC_ITOPICS_MAP K)
                          (fun icountries itopics =>
                             get_pages K mongo_sort itopics icountries start limit lang c)
                          d countries_dict topics_dict) H).
Qed.

Lemma classes_nested (etopic ecountry : string) (start limit : nat)
    (lang query : string) (c : collection) (r : response) :
  etopic <> "search" -> etopic_ja K etopic = "" ->
  classes K mongo_sort es_search etopic ecountry start limit lang query c = Ok r <->
  exists d, r = Nested d /\
    entries_of (ETOPIC_ITOPICS_MAP K)
      (fun itopics inner =>
         entries_of (ECOUNTRY_ICOUNTRIES_MAP K)
           (fun icountries l =>
              get_pages K mongo_sort itopics icountries start limit lang c = Ok l)
           inner)
      d.
Proof.
  intros Hs Ht. apply String.eqb_neq in Hs.
  unfold classes. rewrite Hs. fold (etopic_ja K etopic). fold (ecountry_ja K ecountry).
  rewrite Ht. simpl.
  split.
  - intros H.
    destruct (for_items (ETOPIC_ITOPICS_MAP K)
                (fun _ itopics =>
                   for_items (ECOUNTRY_ICOUNTRIES_MAP K)
                     (fun _ icountries =>
                        get_pages K mongo_sort itopics icountries start limit lang c) [])
                [])
      as [d|] eqn:E; cbn [bind] in H; [|discriminate H].
    injection H as <-. exists d. split; [reflexivity|].
    exact (proj1 (nested_loop_spec _ _ _ (ETOPIC_ITOPICS_MAP K) (ECOUNTRY_ICOUNTRIES_MAP K)
                    (fun itopics icountries =>
                       get_pages K mongo_sort itopics icountries start limit lang c)
                    d topics_dict countries_dict) E).
  - intros (d & -> & H).
    now rewrite (proj2 (nested_loop_spec _ _ _ (ETOPIC_ITOPICS_MAP K)
                          (ECOUNTRY_ICOUNTRIES_MAP K)
                          (fun itopics icountries =>
                             get_pages K mongo_sort itopics icountries start limit lang c)
                          d topics_dict countries_dict) H).
Qed.

(** X18. The dispatch of [countries], the selectors being translated:
    with both it is the page list of [get_pages] for the internal codes
    of the two; with the country only it is a map with one page list for
    each topic of [ETOPIC_ITOPICS_MAP] but [all]; with no country it is a
    map with, for each country of [ECOUNTRY_ICOUNTRIES_MAP] but [all], a
    map from each topic but [all] to a page list, whatever the topic
    selector.  The selector [search] is no sentinel here. *)
Theorem countries_dispatch (ecountry etopic : string) (start limit : nat)
    (lang : string) (c : collection) :
  (ecountry_ja K ecountry <> "" -> etopic_ja K etopic <> "" ->
   countries K mongo_sort ecountry etopic start limit lang c
   = (l <- get_pages K mongo_sort (itopics_of K (etopic_ja K etopic))
             (icountries_of K (ecountry_ja K ecountry)) start limit lang c ;;
      Ok (Pages l))) /\
  (ecountry_ja K ecountry <> "" -> etopic_ja K etopic = "" ->
   forall r,
     countries K mongo_sort ecountry etopic start limit lang c = Ok r <->
     exists d, r = PerKey d /\
       dkeys d = filter (fun k => negb (String.eqb k "all"))
                   (dkeys (ETOPIC_ITOPICS_MAP K)) /\
       entries_of (ETOPIC_ITOPICS_MAP K)
         (fun itopics l =>
            get_pages K mongo_sort itopics (icountries_of K (ecountry_ja K ecountry))
              start limit lang c = Ok l)
         d) /\
  (ecountry_ja K ecountry = "" ->
   forall r,
     countries K mongo_sort ecountry etopic start limit lang c = Ok r <->
     exists d, r = Nested d /\
       dkeys d = filter (fun k => negb (String.eqb k "all"))
                   (dkeys (ECOUNTRY_ICOUNTRIES_MAP K)) /\
       entries_of (ECOUNTRY_ICOUNTRIES_MAP K)
         (fun icountries inner =>
            entries_of (ETOPIC_ITOPICS_MAP K)
              (fun itopics l =>
                 get_pages K mongo_sort itopics icountries start limit lang c = Ok l)
              inner)
         d).
Proof.
  split; [exact (countries_both ecountry etopic start limit lang c)|]. split.
  - intros Hc Ht r.
    rewrite (countries_country_only ecountry etopic start limit lang c r Hc Ht).
    split.
    + intros (d & E & H). exists d. split; [exact E|]. split; [|exact H].
      exact (entries_of_keys H).
    + intros (d & E & _ & H). exists d. split; assumption.
  - intros Hc r.
    rewrite (countries_nested ecountry etopic start limit lang c r Hc).
    split.
    + intros (d & E & H). exists d. split; [exact E|]. split; [|exact H].
      exact (entries_of_keys H).
    + intros (d & E & _ & H). exists d. split; assumption.
Qed.

(** X19. With both selectors supplied, and a topic selector other than
    [search], [classes] and [countries] return the same page list. *)
Theorem classes_countries_agree (etopic ecountry : string) (start limit : nat)
    (lang query : string) (c : collection) :
  etopic <> "search" ->
  etopic_ja K etopic <> "" -> ecountry_ja K ecountry <> "" ->
  classes K mongo_sort es_search etopic ecountry start limit lang query c
  = countries K mongo_sort ecountry etopic start limit lang c.
Proof.
  intros Hs Ht Hc.
  rewrite (classes_both etopic ecountry start limit lang query c Hs Ht Hc).
  now rewrite (countries_both ecountry etopic start limit lang c Hc Ht).
Qed.

(** X20. With no selector supplied, the nested map of [countries] is the
    nested map of [classes] the other way round: when [classes] returns a
    map from topics to maps from countries to page lists, [countries]
    returns a map from countries to maps from topics, and a page list is
    at a topic and a country in the one exactly when it is at that
    country and that topic in the other. *)
Theorem classes_countries_transposed (etopic ecountry : string) (start limit : nat)
    (lang query : string) (c : collection) (d1 : dict (dict (list page_view))) :
  etopic <> "search" ->
  etopic_ja K etopic = "" -> ecountry_ja K ecountry = "" ->
  classes K mongo_sort es_search etopic ecountry start limit lang query c
  = Ok (Nested d1) ->
  exists d2,
    countries K mongo_sort ecountry etopic start limit lang c = Ok (Nested d2) /\
    forall t cn l,
      (exists inner, dget t d1 = Some inner /\ dget cn inner = Some l) <->
      (exists inner, dget cn d2 = Some inner /\ dget t inner = Some l).
Proof.
  intros Hs Ht Hc H.
  apply (classes_nested etopic ecountry start limit lang query c _ Hs Ht) in H.
  destruct H as (d & E & H1). injection E as <-.
  destruct (nested_transposed_exists _ _ _ (ETOPIC_ITOPICS_MAP K)
              (ECOUNTRY_ICOUNTRIES_MAP K)
              (fun itopics icountries l =>
                 get_pages K mongo_sort itopics icountries start limit lang c = Ok l)
              d1 H1) as [d2 H2].
  exists d2. split.
  - apply (countries_nested ecountry etopic start limit lang c _ Hc).
    exists d2. split; [reflexivity | exact H2].
  - intros t cn l. split.
    + apply (nested_entry_transposed _ _ _ (ETOPIC_ITOPICS_MAP K)
               (ECOUNTRY_ICOUNTRIES_MAP K)
               (fun itopics icountries l' =>
                  get_pages K mongo_sort itopics icountries start limit lang c = Ok l')
               d1 d2 t cn l); [|exact H1 | exact H2].
      intros x y l1 l2 E1 E2. congruence.
    + apply (nested_entry_transposed _ _ _ (ECOUNTRY_ICOUNTRIES_MAP K)
               (ETOPIC_ITOPICS_MAP K)
               (fun icountries itopics l' =>
                  get_pages K mongo_sort itopics icountries start limit lang c = Ok l')
               d2 d1 cn t l); [|exact H2 | exact H1].
      intros x y l1 l2 E1 E2. congruence.
Qed.

End CountriesFacts.

(** ** [main] *)

Section ReplayFacts.

Lemma same_ingested_refl (p : page) : same_ingested p p.
Proof. repeat split. Qed.

Lemma same_ingested_trans (p q r : page) :
  same_ingested p q -> same_ingested q r -> same_ingested p r.
Proof.
  unfold same_ingested.
  intros (A1 & A2 & A3 & A4 & A5 & A6 & A7 & A8 & A9 & A10 & A11)
         (B1 & B2 & B3 & B4 & B5 & B6 & B7 & B8 & B9 & B10 & B11).
  repeat split; congruence.
Qed.

Lemma same_ingested_set_checked (covid useful rumor : Z) (icountry : string)
    (d : dict Q) (p : page) :
  same_ingested p (set_checked covid useful rumor icountry d p).
Proof. repeat split. Qed.

Lemma topics_of_names_from (names : list string) (acc : dict Q) :
  (forall t, In t (dkeys (fold_left (fun a n => dset n 1%Q a) names acc)) <->
             In t names \/ In t (dkeys acc)) /\
  ((forall t v, In (t, v) acc -> v = 1%Q) ->
   forall t v, In (t, v) (fold_left (fun a n => dset n 1%Q a) names acc) -> v = 1%Q).
Proof.
  revert acc. induction names as [|n names IH]; intros acc; simpl.
  - split; [intros t; tauto | auto].
  - destruct (IH (dset n 1%Q acc)) as [Hk Hv]. split.
    + intros t. rewrite Hk, dkeys_dset. intuition.
    + intros Hacc. apply Hv. intros t v Hin.
      apply dset_In in Hin as [E|Hin]; [congruence | eauto].
Qed.

(** The dictionary rebuilt from the keys of a dictionary of relevances 1
    is that dictionary. *)
Lemma topics_of_names_dkeys_from (d acc : dict Q) :
  NoDup (dkeys (acc ++ d)) ->
  (forall t v, In (t, v) d -> v = 1%Q) ->
  fold_left (fun a n => dset n 1%Q a) (dkeys d) acc = acc ++ d.
Proof.
  revert acc. induction d as [|[k v] d IH]; intros acc N Hone; simpl.
  - now rewrite app_nil_r.
  - pose proof (Hone k v (or_introl eq_refl)) as Hv. subst v.
    unfold dkeys, Dict.keys in N. rewrite map_app in N. simpl in N.
    rewrite dset_fresh.
    + rewrite IH.
      * now rewrite <- app_assoc.
      * unfold dkeys, Dict.keys. rewrite <- app_assoc, map_app. exact N.
      * intros t w Hin. apply (Hone t w). now right.
    + apply NoDup_remove_2 in N. intros H. apply N. apply in_or_app. now left.
Qed.

Lemma topics_of_names_dkeys (d : dict Q) :
  NoDup (dkeys d) ->
  (forall t v, In (t, v) d -> v = 1%Q) ->
  topics_of_names (dkeys d) = d.
Proof. intros N H. unfold topics_of_names. now rewrite topics_of_names_dkeys_from. Qed.

(** What one line does to the collection. *)
Lemma replay_line_cases (line : checked_line) (c : collection) :
  (Mongo.find_one (cl_url line) c = None /\ replay_line (Some line) c = c) \/
  (exists e c',
     Mongo.find_one (cl_url line) c = Some e /\
     Mongo.update_first (cl_url line)
       (set_checked (cl_is_about_COVID_19 line) (cl_is_useful line)
          (match cl_is_about_false_rumor line with Some z => z | None => 0%Z end)
          (cl_new_country line) (topics_of_names (cl_new_topics line))) c = Some c' /\
     replay_line (Some line) c = c').
Proof.
  unfold replay_line.
  destruct (Mongo.find_one (cl_url line) c) as [e|] eqn:He; [|now left].
  right.
  destruct (StoreFacts.update_first_Some (cl_url line)
              (set_checked (cl_is_about_COVID_19 line) (cl_is_useful line)
                 (match cl_is_about_false_rumor line with Some z => z | None => 0%Z end)
                 (cl_new_country line) (topics_of_names (cl_new_topics line))) c e He)
    as [c' Hu].
  exists e, c'. rewrite Hu. auto.
Qed.

(** X21. The replay of one line of the audit log on a stored page: the
    page found for the url afterwards is checked, displayed under the
    country of the line, has the flags of the line (0 for the false-rumor
    flag when the line has none), has the topics of the line, each with
    relevance 1, and keeps what ingestion wrote; the collection keeps its
    size. *)
Theorem replay_line_sets (line : checked_line) (c : collection) (e : page) :
  Mongo.find_one (cl_url line) c = Some e ->
  exists p,
    Mongo.find_one (cl_url line) (replay_line (Some line) c) = Some p /\
    is_checked p = 1%Z /\
    displayed_country p = cl_new_country line /\
    is_about_COVID_19 p = cl_is_about_COVID_19 line /\
    is_useful p = cl_is_useful line /\
    is_about_false_rumor p
    = match cl_is_about_false_rumor line with Some z => z | None => 0%Z end /\
    (forall t, In t (dkeys (topics p)) <-> In t (cl_new_topics line)) /\
    (forall t v, In (t, v) (topics p) -> v = 1%Q) /\
    same_ingested e p /\
    List.length (replay_line (Some line) c) = List.length c.
Proof.
  intros He.
  destruct (replay_line_cases line c) as [[Hn _]|(e' & c' & He' & Hu & E)];
    [congruence|].
  rewrite E.
  rewrite (StoreFacts.find_one_update_first_any _ _ _ _ Hu (fun p Hp => Hp) (cl_url line)).
  rewrite He. simpl. rewrite (MongoFacts.find_one_url _ _ He), String.eqb_refl.
  eexists. split; [reflexivity|].
  destruct (topics_of_names_from (cl_new_topics line) []) as [Hk Hv].
  repeat (split; [reflexivity|]).
  split; [|split; [|split]].
  - intros t. simpl. unfold topics_of_names. rewrite Hk. simpl. tauto.
  - simpl. apply Hv. intros t v [].
  - apply same_ingested_set_checked.
  - exact (MongoFacts.update_first_length _ _ _ Hu).
Qed.

(** X23. The replay of the audit log neither creates nor deletes a page:
    the urls of the collection are the same, in the same order; a page of
    a url that no line names is untouched; and every page keeps what
    ingestion wrote.  A line for a url that is not stored changes
    nothing. *)
Theorem replay_log_keeps_urls (lines : list (option checked_line)) (c : collection) :
  map url (replay_log lines c) = map url c /\
  (forall u, (forall line, In (Some line) lines -> cl_url line <> u) ->
     Mongo.find_one u (replay_log lines c) = Mongo.find_one u c) /\
  (forall u e, Mongo.find_one u c = Some e ->
     exists p, Mongo.find_one u (replay_log lines c) = Some p /\ same_ingested e p) /\
  (forall line, is_stored c (cl_url line) = false -> replay_line (Some line) c = c).
Proof.
  assert (Hstep : forall line c0 u,
            Mongo.find_one u (replay_line line c0)
            = option_map
                (fun e =>
                   match line with
                   | Some l =>
                       if String.eqb (url e) (cl_url l)
                       then set_checked (cl_is_about_COVID_19 l) (cl_is_useful l)
                              (match cl_is_about_false_rumor l with
                               | Some z => z
                               | None => 0%Z
                               end)
                              (cl_new_country l) (topics_of_names (cl_new_topics l)) e
                       else e
                   | None => e
                   end)
                (Mongo.find_one u c0)).
  { intros [l|] c0 u; simpl replay_line.
    - destruct (replay_line_cases l c0) as [[Hn E]|(e' & c' & He' & Hu & E)].
      + simpl in E. rewrite E.
        destruct (Mongo.find_one u c0) as [e|] eqn:He; simpl; [|reflexivity].
        destruct (String.eqb (url e) (cl_url l)) eqn:Eu; [|reflexivity].
        apply String.eqb_eq in Eu.
        pose proof (MongoFacts.find_one_url _ _ He) as Hue. congruence.
      + simpl in E. rewrite E.
        exact (StoreFacts.find_one_update_first_any _ _ _ _ Hu (fun p Hp => Hp) u).
    - destruct (Mongo.find_one u c0); reflexivity. }
  assert (Hurls : forall line c0, map url (replay_line line c0) = map url c0).
  { intros [l|] c0; [|reflexivity].
    destruct (replay_line_cases l c0) as [[Hn E]|(e' & c' & He' & Hu & E)]; rewrite E;
      [reflexivity|].
    apply (StoreFacts.update_first_urls _ _ _ _ Hu). intros p Hp. exact Hp. }
  split; [|split; [|split]].
  - revert c. induction lines as [|line lines IH]; intros c; simpl; [reflexivity|].
    unfold replay_log in IH. now rewrite IH, Hurls.
  - intros u. revert c. induction lines as [|line lines IH]; intros c Hu; simpl;
      [reflexivity|].
    unfold replay_log in IH. rewrite IH; [|intros l Hl; apply Hu; now right].
    rewrite Hstep. destruct (Mongo.find_one u c) as [e|] eqn:He; simpl; [|reflexivity].
    destruct line as [l|]; [|reflexivity].
    apply MongoFacts.find_one_url in He.
    pose proof (Hu l (or_introl eq_refl)) as Hne. rewrite He.
    apply not_eq_sym, String.eqb_neq in Hne. now rewrite Hne.
  - intros u. revert c. induction lines as [|line lines IH]; intros c e He; simpl.
    + exists e. split; [exact He | apply same_ingested_refl].
    + unfold replay_log in IH.
      pose proof (Hstep line c u) as Hs. rewrite He in Hs. simpl in Hs.
      destruct (IH _ _ Hs) as (p & Hp & Hsame).
      exists p. split; [exact Hp|].
      refine (same_ingested_trans _ _ _ _ Hsame).
      destruct line as [l|]; [|apply same_ingested_refl].
      destruct (String.eqb (url e) (cl_url l));
        [apply same_ingested_set_checked | apply same_ingested_refl].
  - intros line Hs. unfold is_stored in Hs. unfold replay_line.
    destruct (Mongo.find_one (cl_url line) c); [discriminate Hs | reflexivity].
Qed.

End ReplayFacts.

Section MainFacts.

Variable K : constants.
Variable iso : string -> option string.

(** X22. The replay of the line [update_page] logged agrees with the
    correction itself: for a correction of a stored page whose external
    topics have internal topics, the call returns a record when the audit
    log opens for appending; and whenever it returns a record, replaying
    that record on the collection as it was gives the collection
    [update_page] left, and replaying it on that collection changes
    nothing. *)
Theorem replay_mirrors_update_page (url_ : string) (covid useful rumor : bool)
    (icountry : string) (etopics : list string) (notes_ path_ now : string) (s : store)
    (e : page) :
  resolves K etopics ->
  Mongo.find_one url_ (pages s) = Some e ->
  (open_append path_ s = Ok tt ->
   exists updated s',
     update_page K url_ covid useful rumor icountry etopics notes_ path_ now s
     = (s', Ok updated)) /\
  (forall updated s',
     update_page K url_ covid useful rumor icountry etopics notes_ path_ now s
     = (s', Ok updated) ->
     replay_line (Some (line_of_entry updated)) (pages s) = pages s' /\
     replay_line (Some (line_of_entry updated)) (pages s') = pages s').
Proof.
  intros R He. destruct (@new_etopics_from_ok K etopics [] R) as [d Hd].
  destruct (@new_etopics_from_spec K etopics [] d Hd) as (N & Hone & _);
    [constructor | intros it v [] |].
  split.
  { intros Ho. do 2 eexists.
    exact (update_page_returns K url_ covid useful rumor icountry etopics notes_ path_ now s
             d Hd Ho). }
  intros updated s' H.
  destruct (open_append_cases path_ s) as [Ho|[ex Ho]].
  2:{ rewrite (update_page_unopened K url_ covid useful rumor icountry etopics notes_ path_
                 now s d ex Hd Ho) in H.
      discriminate H. }
  pose proof (update_page_found K url_ covid useful rumor icountry etopics notes_ path_ now s
                d Hd) as Hf.
  rewrite (update_page_returns K url_ covid useful rumor icountry etopics notes_ path_ now s
             d Hd Ho) in Hf, H.
  injection H as <- <-.
  rewrite He in Hf. cbn [fst pages] in Hf.
  destruct (StoreFacts.update_first_Some url_
              (set_checked (flag covid) (flag useful) (flag rumor) icountry d)
              (pages s) e He) as [c' Hu].
  unfold Mongo.update_one_upsert in Hf |- *. rewrite Hu in Hf |- *.
  unfold replay_line, line_of_entry. cbn [cl_url cl_is_about_COVID_19 cl_is_useful
    cl_is_about_false_rumor cl_new_country cl_new_topics log_url log_is_about_COVID_19
    log_is_useful log_is_about_false_rumor new_country new_topics pages].
  rewrite (topics_of_names_dkeys d N Hone), He, Hf, Hu.
  split; [reflexivity|].
  now rewrite (StoreFacts.update_first_fixed url_ _ c' _ Hf eq_refl).
Qed.

(** [upsert_page] writes nothing when it raises. *)
Lemma upsert_page_raise_unchanged (doc : document) (c : collection) (ex : exn) :
  snd (upsert_page K iso doc c) = Raise ex -> fst (upsert_page K iso doc c) = c.
Proof.
  unfold upsert_page.
  destruct (build_page K iso doc) as [[d|]|e]; simpl; try reflexivity.
  unfold store_page.
  destruct (Mongo.find_one (doc_url doc) c) as [p|]; [|discriminate].
  destruct (orig p) as [o|]; [|reflexivity].
  destruct (PyStr.gtb (timestamp (doc_orig doc)) (orig_timestamp o)); simpl;
    [discriminate | reflexivity].
Qed.

Lemma ingest_pages_app (docs1 docs2 : list document) (c c1 : collection) :
  ingest_pages K iso docs1 c = (c1, Ok tt) ->
  ingest_pages K iso (docs1 ++ docs2) c = ingest_pages K iso docs2 c1.
Proof.
  revert c. induction docs1 as [|doc docs1 IH]; intros c H; simpl in *.
  - injection H as <-. reflexivity.
  - destruct (upsert_page K iso doc c) as [c' [u|ex]]; [now apply IH | discriminate H].
Qed.

(** X24. The first loop of [main] has no handler: when every document is
    upserted without an exception, all are processed in order and the
    audit log is replayed on the result; when a document raises, the run
    ends with that exception, on the collection the documents before it
    left: the documents after it are not ingested and the audit log is
    not replayed. *)
Theorem main_stops_at_exception (log : list (option checked_line)) (c : collection) :
  (forall docs c', ingest_pages K iso docs c = (c', Ok tt) ->
     c' = upsert_all K iso docs c /\
     main K iso docs log c = (replay_log log c', Ok tt)) /\
  (forall docs1 doc docs2 c1 ex,
     ingest_pages K iso docs1 c = (c1, Ok tt) ->
     snd (upsert_page K iso doc c1) = Raise ex ->
     main K iso (docs1 ++ doc :: docs2) log c = (c1, Raise ex)).
Proof.
  split.
  - intros docs c' H. split; [|unfold main; now rewrite H].
    revert c H. induction docs as [|doc docs IH]; intros c0 H; simpl in *.
    + now injection H as <-.
    + destruct (upsert_page K iso doc c0) as [c1 [u|ex]]; [|discriminate H].
      simpl. now apply IH.
  - intros docs1 doc docs2 c1 ex H1 Hr. unfold main.
    rewrite (ingest_pages_app docs1 (doc :: docs2) c c1 H1). simpl.
    pose proof (upsert_page_raise_unchanged doc c1 ex Hr) as Hc.
    destruct (upsert_page K iso doc c1) as [c2 r]. simpl in *. subst. reflexivity.
Qed.

Lemma ingest_pages_urls (docs : list document) (c : collection) :
  unique_urls c ->
  unique_urls (fst (ingest_pages K iso docs c)) /\
  forall u, In u (map url (fst (ingest_pages K iso docs c))) ->
    In u (map url c) \/ exists doc, In doc docs /\ doc_url doc = u.
Proof.
  unfold unique_urls. revert c.
  induction docs as [|doc docs IH]; intros c N; simpl; [split; auto|].
  pose proof (upsert_page_urls K iso doc c) as Hu.
  destruct (upsert_page K iso doc c) as [c' [t|ex]] eqn:E; simpl in Hu.
  - assert (N' : NoDup (map url c')).
    { destruct Hu as [Eu|[Hf Eu]]; rewrite Eu; [exact N|].
      apply NoDup_app; [exact N | constructor; [intros [] | constructor] |].
      intros a Ha [<-|[]].
      apply StoreFacts.find_one_None_urls in Hf. contradiction. }
    destruct (IH c' N') as [IH1 IH2]. split; [exact IH1|].
    intros u Hin. destruct (IH2 u Hin) as [H|(d & Hd & Ed)].
    + destruct Hu as [Eu|[_ Eu]]; rewrite Eu in H; [now left|].
      apply in_app_or in H as [H|[<-|[]]]; [now left|].
      right. exists doc. split; [now left | reflexivity].
    + right. exists d. split; [now right | exact Ed].
  - simpl. split.
    + destruct Hu as [Eu|[Hf Eu]]; rewrite Eu; [exact N|].
      apply NoDup_app; [exact N | constructor; [intros [] | constructor] |].
      intros a Ha [<-|[]].
      apply StoreFacts.find_one_None_urls in Hf. contradiction.
    + intros u H. destruct Hu as [Eu|[_ Eu]]; rewrite Eu in H; [now left|].
      apply in_app_or in H as [H|[<-|[]]]; [now left|].
      right. exists doc. split; [now left | reflexivity].
Qed.

Lemma replay_log_urls (lines : list (option checked_line)) (c : collection) :
  map url (replay_log lines c) = map url c.
Proof.
  revert c. induction lines as [|line lines IH]; intros c; simpl; [reflexivity|].
  unfold replay_log in IH. rewrite IH.
  destruct line as [l|]; [|reflexivity].
  destruct (replay_line_cases l c) as [[Hn E]|(e' & c' & He' & Hu & E)]; rewrite E;
    [reflexivity|].
  apply (StoreFacts.update_first_urls _ _ _ _ Hu). intros p Hp. exact Hp.
Qed.

(** X25. What [main] stores: it keeps the urls of the collection
    distinct, and a url stored after the run was stored before it or is
    the url of a document of the input file; the audit log adds no page,
    so a correction of a url that was never ingested is not restored. *)
Theorem main_stores_ingested_urls (docs : list document)
    (log : list (option checked_line)) (c : collection) :
  unique_urls c ->
  unique_urls (fst (main K iso docs log c)) /\
  forall u, In u (map url (fst (main K iso docs log c))) ->
    In u (map url c) \/ exists doc, In doc docs /\ doc_url doc = u.
Proof.
  intros N. destruct (ingest_pages_urls docs c N) as [H1 H2].
  unfold main, unique_urls in *.
  destruct (ingest_pages K iso docs c) as [c' [t|ex]]; simpl in *.
  - rewrite replay_log_urls. split; assumption.
  - split; assumption.
Qed.

End MainFacts.

Lemma sample_topics_dict : NoDup (dkeys (ETOPIC_ITOPICS_MAP Sample.K)).
Proof. repeat constructor; simpl; intuition discriminate. Qed.

Lemma sample_countries_dict : NoDup (dkeys (ECOUNTRY_ICOUNTRIES_MAP Sample.K)).
Proof. repeat constructor; simpl; intuition discriminate. Qed.

(** An instance of X9: the view of a sample page in English. *)
Lemma reshape_page_view_witness :
  exists v,
    reshape_page Sample.K (Sample.page_of "example.com" 0) "en" = Ok v /\
    v_url v = "A" /\
    domain (Sample.page_of "example.com" 0) = Some (v_domain v).
Proof.
  destruct (reshape_page Sample.K (Sample.page_of "example.com" 0) "en") as [v|ex] eqn:H;
    [|vm_compute in H; discriminate H].
  destruct (reshape_page_view Sample.K (Sample.page_of "example.com" 0) "en" v H)
    as (_ & _ & Hd & Hu & _).
  exists v. split; [reflexivity|]. split; [exact Hu | exact Hd].
Defined.

(** An instance of X16: of the two hits, the stored one is returned. *)
Lemma search_country_witness :
  "jp" <> "" /\
  exists vs,
    search Sample.K SampleRun.es_hits "jp" 0 10 "ja" "q" Sample.one_page = Ok (Pages vs) /\
    map v_url vs = ["B"].
Proof.
  assert (N : "jp" <> "") by discriminate.
  split; [exact N|].
  destruct (search Sample.K SampleRun.es_hits "jp" 0 10 "ja" "q" Sample.one_page)
    as [r|ex] eqn:H; [|vm_compute in H; discriminate H].
  destruct (search_country Sample.K SampleRun.es_hits "jp" 0 10 "ja" "q" Sample.one_page N)
    as [Hr _].
  destruct (Hr r H) as (vs & -> & Hu).
  exists vs. split; [reflexivity | exact Hu].
Defined.

(** An instance of X17: one entry for each country but [all]. *)
Lemma search_all_countries_witness :
  NoDup (dkeys (ECOUNTRY_ICOUNTRIES_MAP Sample.K)) /\
  exists d,
    search Sample.K SampleRun.es_hits "" 0 10 "ja" "q" Sample.one_page = Ok (PerKey d) /\
    dkeys d = ["jp"; "us"].
Proof.
  split; [exact sample_countries_dict|].
  destruct (search Sample.K SampleRun.es_hits "" 0 10 "ja" "q" Sample.one_page)
    as [r|ex] eqn:H; [|vm_compute in H; discriminate H].
  destruct (proj1 (search_all_countries Sample.K SampleRun.es_hits 0 10 "ja" "q"
                     Sample.one_page r sample_countries_dict) H) as (d & -> & Hk & _).
  exists d. split; [reflexivity | exact Hk].
Defined.

(** An instance of X18: the country [jp] alone gives one page list for
    each topic but [all]. *)
Lemma countries_dispatch_witness :
  exists d,
    countries Sample.K Sample.sort "jp" "" 0 10 "ja" Sample.one_page = Ok (PerKey d) /\
    dkeys d = ["X"; "Y"; "Z"].
Proof.
  destruct (countries Sample.K Sample.sort "jp" "" 0 10 "ja" Sample.one_page)
    as [r|ex] eqn:H; [|vm_compute in H; discriminate H].
  destruct (countries_dispatch Sample.K Sample.sort sample_topics_dict
              sample_countries_dict "jp" "" 0 10 "ja" Sample.one_page) as (_ & Hc & _).
  destruct (proj1 (Hc ltac:(discriminate) eq_refl r) H) as (d & -> & Hk & _).
  exists d. split; [reflexivity | exact Hk].
Defined.

(** An instance of X19: the topic [X] and the country [jp]. *)
Lemma classes_countries_agree_witness :
  classes Sample.K Sample.sort Sample.es "X" "jp" 0 10 "ja" "" Sample.one_page
  = countries Sample.K Sample.sort "jp" "X" 0 10 "ja" Sample.one_page.
Proof.
  apply classes_countries_agree; discriminate.
Defined.

(** An instance of X20: no selector, on the sample collection. *)
Lemma classes_countries_transposed_witness :
  exists d1 d2,
    classes Sample.K Sample.sort Sample.es "" "" 0 10 "ja" "" Sample.one_page
    = Ok (Nested d1) /\
    countries Sample.K Sample.sort "" "" 0 10 "ja" Sample.one_page = Ok (Nested d2) /\
    dkeys d1 = ["X"; "Y"; "Z"] /\ dkeys d2 = ["jp"; "us"].
Proof.
  destruct (classes Sample.K Sample.sort Sample.es "" "" 0 10 "ja" "" Sample.one_page)
    as [[l|d|d1]|ex] eqn:H; try (vm_compute in H; discriminate H).
  destruct (classes_countries_transposed Sample.K Sample.sort Sample.es
              sample_topics_dict sample_countries_dict "" "" 0 10 "ja" ""
              Sample.one_page d1 ltac:(discriminate) eq_refl eq_refl H) as (d2 & H2 & _).
  exists d1, d2. split; [reflexivity|]. split; [exact H2|].
  vm_compute in H. injection H as <-.
  vm_compute in H2. injection H2 as <-. split; reflexivity.
Defined.

(** An instance of X21: a line without the false-rumor key, replayed on
    the ingested page [A]. *)
Lemma replay_line_sets_witness :
  exists p,
    Mongo.find_one "A" (replay_line (Some SampleRun.line_A) (pages SampleRun.ingested))
    = Some p /\
    is_checked p = 1%Z /\ displayed_country p = "us" /\ is_about_false_rumor p = 0%Z.
Proof.
  destruct sample_ingested_page as (e & o & He & _).
  destruct (replay_line_sets SampleRun.line_A (pages SampleRun.ingested) e He)
    as (p & Hp & Hc & Hd & _ & _ & Hr & _).
  exists p. split; [exact Hp|]. split; [exact Hc|]. split; [exact Hd | exact Hr].
Defined.

(** An instance of X22: the sample correction of the ingested page. *)
Lemma replay_mirrors_update_page_witness :
  exists updated s',
    SampleRun.corrected SampleRun.ingested "now" = (s', Ok updated) /\
    replay_line (Some (line_of_entry updated)) (pages SampleRun.ingested) = pages s'.
Proof.
  destruct sample_ingested_page as (e & o & He & _).
  destruct (replay_mirrors_update_page Sample.K "A" true true false "us" ["X"; "Y"] "note"
              "log.jsonl" "now" SampleRun.ingested e sample_resolves He)
    as [Hret Hrep].
  destruct (Hret eq_refl) as (updated & s' & Hu).
  exists updated, s'. split; [exact Hu | exact (proj1 (Hrep updated s' Hu))].
Defined.

(** An instance of X23: a line for a url that is not stored, and a blank
    line. *)
Lemma replay_log_keeps_urls_witness :
  is_stored Sample.one_page (cl_url SampleRun.line_Z) = false /\
  replay_line (Some SampleRun.line_Z) Sample.one_page = Sample.one_page /\
  map url (replay_log [Some SampleRun.line_Z; None] Sample.one_page) = ["B"].
Proof.
  destruct (replay_log_keeps_urls [Some SampleRun.line_Z; None] Sample.one_page)
    as (H1 & _ & _ & H4).
  split; [reflexivity|]. split; [exact (H4 SampleRun.line_Z eq_refl) | exact H1].
Defined.

(** An instance of X24: the second document of three has a timestamp
    that is not an ISO timestamp. *)
Lemma main_stops_at_exception_witness :
  main Sample.K Sample.iso
    ([Sample.doc "A" "t" Sample.t1] ++ SampleRun.bad_doc :: [Sample.doc "B" "t" Sample.t1])
    [Some SampleRun.line_A] []
  = (pages SampleRun.ingested, Raise ValueError).
Proof.
  exact (proj2 (main_stops_at_exception Sample.K Sample.iso [Some SampleRun.line_A] [])
           [Sample.doc "A" "t" Sample.t1] SampleRun.bad_doc [Sample.doc "B" "t" Sample.t1]
           (pages SampleRun.ingested) ValueError eq_refl eq_refl).
Defined.

(** An instance of X25: a run on the empty collection, with a line for a
    url that is not in the input file. *)
Lemma main_stores_ingested_urls_witness :
  unique_urls [] /\
  unique_urls
    (fst (main Sample.K Sample.iso
            [Sample.doc "A" "t" Sample.t1; Sample.doc "A" "u" Sample.t2]
            [Some SampleRun.line_Z] [])).
Proof.
  assert (N : unique_urls []) by constructor.
  split; [exact N|].
  exact (proj1 (main_stores_ingested_urls Sample.K Sample.iso
                  [Sample.doc "A" "t" Sample.t1; Sample.doc "A" "u" Sample.t2]
                  [Some SampleRun.line_Z] [] N)).
Defined.

(** ** Corrections, end to end *)

Section RoundTripFacts.

Variable K : constants.
Variable iso : string -> option string.

(** The keys a view passes on, and the relevance of its topics. *)
Lemma reshape_page_passes (p : page) (lang : string) (v : page_view) :
  reshape_page K p lang = Ok v ->
  v_is_checked v = is_checked p /\
  v_displayed_country v = displayed_country p /\
  v_is_about_COVID_19 v = is_about_COVID_19 p /\
  v_is_useful v = is_useful p /\
  Forall2 (fun itopic tv => dget itopic (topics p) = Some (relatedness tv))
    (dkeys (topics p)) (v_topics v).
Proof.
  intros H. unfold reshape_page in H.
  destruct (traverse (reshape_topic K p lang) (dkeys (topics p))) as [ts|] eqn:Ht;
    cbn [bind] in H; [|discriminate H].
  destruct (lang_key lang "_translated" (ja_translated p) (en_translated p)) as [tr|];
    cbn [bind] in H; [|discriminate H].
  destruct (lang_key lang "_domain_label" (ja_domain_label p) (en_domain_label p))
    as [dl|]; cbn [bind] in H; [|discriminate H].
  destruct (domain p) as [dom|]; cbn [bind] in H; [|discriminate H].
  destruct (del "ja_snippets" (ja_snippets p)); cbn [bind] in H; [|discriminate H].
  destruct (del "en_snippets" (en_snippets p)); cbn [bind] in H; [|discriminate H].
  destruct (del "ja_translated" (ja_translated p)); cbn [bind] in H; [|discriminate H].
  destruct (del "en_translated" (en_translated p)); cbn [bind] in H; [|discriminate H].
  destruct (del "ja_domain_label" (ja_domain_label p)); cbn [bind] in H; [|discriminate H].
  destruct (del "en_domain_label" (en_domain_label p)); cbn [bind] in H; [|discriminate H].
  injection H as <-. simpl. repeat (split; [reflexivity|]).
  apply traverse_inv in Ht. revert Ht. apply Forall2_impl.
  intros itopic tv Hv. unfold reshape_topic, getitem in Hv.
  destruct (dget itopic (ITOPIC_ETOPIC_MAP K)) as [etopic|]; cbn [bind] in Hv;
    [|discriminate Hv].
  destruct (Dict.get pair_eqb (etopic, lang) (ETOPIC_TRANS_MAP K)) as [n|];
    cbn [bind] in Hv; [|discriminate Hv].
  destruct (lang_key lang "_snippets" (ja_snippets p) (en_snippets p)) as [sn|];
    cbn [bind] in Hv; [|discriminate Hv].
  destruct (dget itopic sn) as [sp|]; cbn [bind] in Hv; [|discriminate Hv].
  destruct (dget itopic (topics p)) as [r|]; cbn [bind] in Hv; [|discriminate Hv].
  injection Hv as <-. reflexivity.
Qed.

(** X26. A correction, then a fetch.  After a correction of a stored
    page, every view [reshape_page] returns of the page found for the url
    is checked, displayed under the supplied country, has the supplied
    pandemic and usefulness flags, and lists one topic for each first
    internal topic of the supplied external topics, each with relevance
    1; the page keeps what ingestion wrote. *)
Theorem correction_round_trip (url_ : string) (covid useful rumor : bool)
    (icountry : string) (etopics : list string) (notes_ path_ now : string) (s : store)
    (e : page) :
  resolves K etopics ->
  Mongo.find_one url_ (pages s) = Some e ->
  exists p d,
    Mongo.find_one url_
      (pages (fst (update_page K url_ covid useful rumor icountry etopics notes_ path_
                     now s))) = Some p /\
    new_etopics_from K etopics [] = Ok d /\
    same_ingested e p /\
    forall lang v, reshape_page K p lang = Ok v ->
      v_is_checked v = 1%Z /\
      v_displayed_country v = icountry /\
      v_is_about_COVID_19 v = flag covid /\
      v_is_useful v = flag useful /\
      Forall (fun tv => relatedness tv = 1%Q) (v_topics v) /\
      List.length (v_topics v) = List.length d.
Proof.
  intros R He. destruct (@new_etopics_from_ok K etopics [] R) as [d Hd].
  destruct (@new_etopics_from_spec K etopics [] d Hd) as (N & Hone & _);
    [constructor | intros it v [] |].
  pose proof (update_page_found K url_ covid useful rumor icountry etopics notes_ path_ now s
                d Hd) as Hf.
  rewrite He in Hf.
  eexists. exists d. split; [exact Hf|]. split; [exact Hd|].
  split; [apply same_ingested_set_checked|].
  intros lang v Hv.
  destruct (reshape_page_passes _ lang v Hv) as (H1 & H2 & H3 & H4 & H5).
  simpl in H1, H2, H3, H4, H5.
  repeat (split; [assumption|]).
  split.
  - clear - H5 Hone. induction H5 as [|k tv ks tvs Hk _ IH]; constructor; [|exact IH].
    apply dget_In in Hk. exact (Hone _ _ Hk).
  - rewrite <- (Forall2_length H5). unfold dkeys, Dict.keys. apply length_map.
Qed.

(** X27. A restart restores a correction.  On the empty collection, the
    run of [main] on an input file of one valid document and an audit log
    of one line for its url stores one page: the page built from the
    document, checked, displayed under the country of the line and with
    the topics of the line, each with relevance 1. *)
Theorem main_restores_correction (doc : document) (d : page) (line : checked_line) :
  build_page K iso doc = Ok (Some d) ->
  cl_url line = doc_url doc ->
  exists p,
    main K iso [doc] [Some line] [] = ([p], Ok tt) /\
    is_checked p = 1%Z /\
    displayed_country p = cl_new_country line /\
    topics p = topics_of_names (cl_new_topics line) /\
    same_ingested d p.
Proof.
  intros Hd Hu.
  destruct (build_page_inv K iso doc Hd)
    as (_ & _ & _ & simple & useful & rumor & _ & _ & _ & Hurl & _).
  assert (Hi : ingest_pages K iso [doc] [] = ([d], Ok tt)).
  { cbn [ingest_pages]. unfold upsert_page. rewrite Hd. reflexivity. }
  assert (Hq : String.eqb (url d) (cl_url line) = true).
  { rewrite Hu, Hurl. apply String.eqb_refl. }
  unfold main. rewrite Hi. cbn [replay_log fold_left].
  unfold replay_line, Mongo.find_one. cbn [find Mongo.update_first]. rewrite Hq.
  eexists. split; [reflexivity|].
  repeat (split; [reflexivity|]). apply same_ingested_set_checked.
Qed.

End RoundTripFacts.

(** An instance of X26: the sample correction of the ingested page [A],
    fetched in Japanese. *)
Lemma correction_round_trip_witness :
  exists p v,
    Mongo.find_one "A" (pages (fst (SampleRun.corrected SampleRun.ingested "now")))
    = Some p /\
    reshape_page Sample.K p "ja" = Ok v /\
    v_is_checked v = 1%Z /\ v_displayed_country v = "us" /\
    Forall (fun tv => relatedness tv = 1%Q) (v_topics v).
Proof.
  destruct sample_ingested_page as (e & o & He & _).
  destruct (correction_round_trip Sample.K "A" true true false "us" ["X"; "Y"] "note"
              "log.jsonl" "now" SampleRun.ingested e sample_resolves He)
    as (p & d & Hp & _ & _ & Hv).
  assert (Hr : exists v, reshape_page Sample.K p "ja" = Ok v).
  { pose proof Hp as Hp'. vm_compute in Hp'. injection Hp' as <-.
    eexists. vm_compute. reflexivity. }
  destruct Hr as [v Hr].
  destruct (Hv "ja" v Hr) as (H1 & H2 & _ & _ & H5 & _).
  exists p, v. repeat split; assumption.
Defined.

(** An instance of X27: the sample document and the sample line. *)
Lemma main_restores_correction_witness :
  exists p,
    main Sample.K Sample.iso [Sample.doc "A" "t" Sample.t1] [Some SampleRun.line_A] []
    = ([p], Ok tt) /\
    is_checked p = 1%Z /\ displayed_country p = "us".
Proof.
  destruct (build_page_accepts Sample.K Sample.iso (Sample.doc "A" "t" Sample.t1))
    as [d Hd]; try discriminate.
  destruct (main_restores_correction Sample.K Sample.iso (Sample.doc "A" "t" Sample.t1) d
              SampleRun.line_A Hd eq_refl) as (p & Hm & Hc & Hdc & _).
  exists p. split; [exact Hm|]. split; [exact Hc | exact Hdc].
Defined.
